(** * WS-Server-Client-Hub: the hand-rolled WebSocket protocol layer

    A shallow embedding of the frame codec, the opening handshake, the
    per-connection read loops and the connection registry found in
    [WS_Server.py], [simple_ws_server.py] and [simple_ws_client.py], with the
    properties of the protocol specification stated and settled against it.

    Conventions of the embedding (Python 3 semantics throughout):
    - a [bytes] value is a [list byte]; [ord] gives the integer a Python
      program sees when it indexes it;
    - a [str] value is represented by its UTF-8 encoding as a [string];
    - integers are [Z]; the bit operations of the source are [Z.land],
      [Z.lor], [Z.lxor] and [Z.shiftr];
    - a function that can raise, or that leaves through an early [return],
      is written in the control monad [ctl]. *)

From Stdlib Require Import ZArith List String Ascii Bool Lia.
From Stdlib Require Import Strings.Byte DecimalString.
From stdpp Require Import base gmap.
Import ListNotations.

Local Open Scope Z_scope.

(** ** Control flow: exceptions and early return *)

Inductive exn : Set :=
| IndexError
| StructError
| ValueError
| UnicodeDecodeError
| SocketError.

(** [Raise e]: an exception propagates; [Return r]: the enclosing function
    returns [r]; [Next a]: the statement finished, execution goes on. *)
Inductive ctl (R A : Type) : Type :=
| Raise (e : exn)
| Return (r : R)
| Next (a : A).
Arguments Raise {R A} e.
Arguments Return {R A} r.
Arguments Next {R A} a.

Definition ctl_bind {R A B} (c : ctl R A) (k : A -> ctl R B) : ctl R B :=
  match c with
  | Raise e => Raise e
  | Return r => Return r
  | Next a => k a
  end.

Declare Scope ctl_scope.
Delimit Scope ctl_scope with ctl.
Notation "'do' p <- c ;; k" := (ctl_bind c (fun p => k))
  (at level 10, p pattern, c at level 99, k at level 200) : ctl_scope.
Local Open Scope ctl_scope.

(** The outcome of a whole function call. *)
Inductive exc (R : Type) : Type :=
| Ok (r : R)
| Exn (e : exn).
Arguments Ok {R} r.
Arguments Exn {R} e.

(** Falling off the end of the body with value [r] is [return r]. *)
Definition run {R} (c : ctl R R) : exc R :=
  match c with
  | Raise e => Exn e
  | Return r => Ok r
  | Next r => Ok r
  end.

(** ** Bytes *)

Definition bytes := list byte.

(** [data[i]] read as an integer. *)
Definition ord (b : byte) : Z := Z.of_N (Byte.to_N b).

(** The byte of an integer, taken modulo 256. *)
Definition byte_of_Z (z : Z) : byte :=
  match Byte.of_N (Z.to_N (z mod 256)) with
  | Some b => b
  | None => x00
  end.

(** [bytearray.append(z)] and [struct.pack('B', z)] accept [0..255] only. *)
Definition in_byte_range (z : Z) : bool := (0 <=? z) && (z <? 256).

Definition len {A} (d : list A) : Z := Z.of_nat (length d).

(** [d[i]] for [i >= 0]. *)
Definition index {R} (d : bytes) (i : Z) : ctl R Z :=
  match nth_error d (Z.to_nat i) with
  | Some b => Next (ord b)
  | None => Raise IndexError
  end.

(** [d[a:b]] for [0 <= a]: slicing clamps, it never raises. *)
Definition slice {A} (d : list A) (a b : Z) : list A :=
  firstn (Z.to_nat (b - a)) (skipn (Z.to_nat a) d).

(** Big-endian integer of a byte string. *)
Definition be_int (s : bytes) : Z :=
  fold_left (fun acc b => acc * 256 + ord b) s 0.

(** The [k] low-order bytes of [n], most significant first. *)
Fixpoint be_bytes (k : nat) (n : Z) : bytes :=
  match k with
  | O => []
  | S k' => be_bytes k' (n / 256) ++ [byte_of_Z n]
  end.

(** [struct.unpack('>H', s)[0]] and [struct.unpack('>Q', s)[0]]. *)
Definition unpack_be {R} (width : nat) (s : bytes) : ctl R Z :=
  if Nat.eqb (length s) width then Next (be_int s) else Raise StructError.

(** [struct.pack('>H', n)], [struct.pack('>Q', n)], [struct.pack('!I', n)]. *)
Definition pack_be {R} (width : nat) (n : Z) : ctl R bytes :=
  if (0 <=? n) && (n <? 256 ^ Z.of_nat width)
  then Next (be_bytes width n)
  else Raise StructError.

(** One field [B] of [struct.pack]. *)
Definition pack_B {R} (z : Z) : ctl R bytes :=
  if in_byte_range z then Next [byte_of_Z z] else Raise StructError.

(** [bytearray.append(z)]. *)
Definition append_byte {R} (frame : bytes) (z : Z) : ctl R bytes :=
  if in_byte_range z then Next (frame ++ [byte_of_Z z]) else Raise ValueError.

(** ** Protocol constants ([WS_Server.py], lines 11-17) *)

Definition WS_MAGIC_STRING : string := "258EAFA5-E914-47DA-95CA-C5AB0DC85B11".
Definition WS_OPCODE_CONTINUATION : Z := 0.
Definition WS_OPCODE_TEXT : Z := 1.
Definition WS_OPCODE_BINARY : Z := 2.
Definition WS_OPCODE_CLOSE : Z := 8.
Definition WS_OPCODE_PING : Z := 9.
Definition WS_OPCODE_PONG : Z := 10.

(** ** The XOR cycle *)

(** The unmasking loop of [parse_websocket_frame] (lines 87-93) and of
    [SimpleWebSocketServer.decode_frame] (lines 111-117):
    [for i in range(len(payload)): out.append(payload[i] ^ key[i % 4])].
    [i] is the index of the first byte of [payload] still to be processed. *)
Fixpoint unmask_from {R} (key : bytes) (i : Z) (payload : bytes) (out : bytes)
  : ctl R bytes :=
  match payload with
  | [] => Next out
  | b :: rest =>
      do mask_byte <- index key (i mod 4) ;;
      let payload_byte := ord b in
      do out' <- append_byte out (Z.lxor payload_byte mask_byte) ;;
      unmask_from key (i + 1) rest out'
  end.

Definition unmask {R} (payload key : bytes) : ctl R bytes :=
  unmask_from key 0 payload [].

(** The masking loop of [SimpleWebSocketClient.create_frame] (lines 119-127):
    the same cycle, written a second time in the client. *)
Fixpoint mask_from {R} (mask : bytes) (i : Z) (payload : bytes) (masked_payload : bytes)
  : ctl R bytes :=
  match payload with
  | [] => Next masked_payload
  | b :: rest =>
      let payload_byte := ord b in
      do mask_byte <- index mask (i mod 4) ;;
      do masked_payload' <- append_byte masked_payload (Z.lxor payload_byte mask_byte) ;;
      mask_from mask (i + 1) rest masked_payload'
  end.

Definition mask_payload {R} (payload mask : bytes) : ctl R bytes :=
  mask_from mask 0 payload [].

(** ** The three decoders and the two encoders *)

(** [parse_websocket_frame] ([WS_Server.py], lines 42-95). The source returns
    a pair, either [(None, None)] or [(opcode, payload)]: [None] stands for
    the first and [Some (opcode, payload)] for the second. *)
Definition parse_websocket_frame (data : bytes) : exc (option (Z * bytes)) :=
  run (
    if len data <? 2 then Return None else
    do first_byte <- index data 0 ;;
    let fin := Z.land (Z.shiftr first_byte 7) 1 in
    let opcode := Z.land first_byte 15 in
    do second_byte <- index data 1 ;;
    let masked := Z.land (Z.shiftr second_byte 7) 1 in
    let payload_length := Z.land second_byte 127 in
    let offset := 2 in
    do (payload_length, offset) <-
      (if payload_length =? 126 then
         if len data <? offset + 2 then Return None else
         do payload_length <- unpack_be 2 (slice data offset (offset + 2)) ;;
         Next (payload_length, offset + 2)
       else if payload_length =? 127 then
         if len data <? offset + 8 then Return None else
         do payload_length <- unpack_be 8 (slice data offset (offset + 8)) ;;
         Next (payload_length, offset + 8)
       else Next (payload_length, offset)) ;;
    do (masking_key, offset) <-
      (if negb (masked =? 0) then
         if len data <? offset + 4 then Return None else
         Next (Some (slice data offset (offset + 4)), offset + 4)
       else Next (None, offset)) ;;
    if len data <? offset + payload_length then Return None else
    let payload := slice data offset (offset + payload_length) in
    do payload <-
      (match masking_key with
       | Some key =>
           if negb (masked =? 0) && negb (len key =? 0)
           then unmask payload key else Next payload
       | None => Next payload
       end) ;;
    Return (Some (opcode, payload))).

(** The dictionary returned by the two [decode_frame] methods. *)
Record frame_dict : Type := FrameDict {
  fd_fin : Z;
  fd_opcode : Z;
  fd_payload : bytes;
  fd_payload_length : Z
}.

(** [SimpleWebSocketServer.decode_frame] ([simple_ws_server.py], lines 68-124). *)
Definition server_decode_frame (data : bytes) : exc (option frame_dict) :=
  run (
    if len data <? 2 then Return None else
    do first_byte <- index data 0 ;;
    let fin := Z.land (Z.shiftr first_byte 7) 1 in
    let opcode := Z.land first_byte 15 in
    do second_byte <- index data 1 ;;
    let masked := Z.land (Z.shiftr second_byte 7) 1 in
    let payload_length := Z.land second_byte 127 in
    let header_length := 2 in
    do (payload_length, header_length) <-
      (if payload_length =? 126 then
         if len data <? 4 then Return None else
         do payload_length <- unpack_be 2 (slice data 2 4) ;;
         Next (payload_length, 4)
       else if payload_length =? 127 then
         if len data <? 10 then Return None else
         do payload_length <- unpack_be 8 (slice data 2 10) ;;
         Next (payload_length, 10)
       else Next (payload_length, header_length)) ;;
    do (mask, header_length) <-
      (if negb (masked =? 0) then
         if len data <? header_length + 4 then Return None else
         Next (slice data header_length (header_length + 4), header_length + 4)
       else Next ([], header_length)) ;;
    if len data <? header_length + payload_length then Return None else
    let payload := slice data header_length (header_length + payload_length) in
    do payload <- (if negb (masked =? 0) then unmask payload mask else Next payload) ;;
    Return (Some (FrameDict fin opcode payload payload_length))).

(** [SimpleWebSocketClient.decode_frame] ([simple_ws_client.py], lines
    135-181): the mask bit is read and then never used. *)
Definition client_decode_frame (data : bytes) : exc (option frame_dict) :=
  run (
    if len data <? 2 then Return None else
    do first_byte <- index data 0 ;;
    let fin := Z.land (Z.shiftr first_byte 7) 1 in
    let opcode := Z.land first_byte 15 in
    do second_byte <- index data 1 ;;
    let masked := Z.land (Z.shiftr second_byte 7) 1 in
    let payload_length := Z.land second_byte 127 in
    let header_length := 2 in
    do (payload_length, header_length) <-
      (if payload_length =? 126 then
         if len data <? 4 then Return None else
         do payload_length <- unpack_be 2 (slice data 2 4) ;;
         Next (payload_length, 4)
       else if payload_length =? 127 then
         if len data <? 10 then Return None else
         do payload_length <- unpack_be 8 (slice data 2 10) ;;
         Next (payload_length, 10)
       else Next (payload_length, header_length)) ;;
    if len data <? header_length + payload_length then Return None else
    let payload := slice data header_length (header_length + payload_length) in
    Return (Some (FrameDict fin opcode payload payload_length))).

(** [create_websocket_frame] ([WS_Server.py], lines 97-118). *)
Definition create_websocket_frame (opcode : Z) (payload : bytes) : exc bytes :=
  run (
    let frame := [] in
    do frame <- append_byte frame (Z.lor 128 opcode) ;;
    let payload_length := len payload in
    do frame <-
      (if payload_length <? 126 then
         append_byte frame payload_length
       else if payload_length <? 65536 then
         do frame <- append_byte frame 126 ;;
         do ext <- pack_be 2 payload_length ;;
         Next (frame ++ ext)
       else
         do frame <- append_byte frame 127 ;;
         do ext <- pack_be 8 payload_length ;;
         Next (frame ++ ext)) ;;
    let frame := frame ++ payload in
    Return frame).

(** [SimpleWebSocketClient.create_frame] ([simple_ws_client.py], lines
    89-133) on an already encoded payload; [rnd] is the value drawn by
    [random.randint(0, 0xFFFFFFFF)]. Every exception is caught and turned
    into [None]. *)
Definition create_frame_body (payload : bytes) (opcode : Z) (rnd : Z) : exc bytes :=
  run (
    let payload_length := len payload in
    let first_byte := Z.lor 128 opcode in
    do mask <- pack_be 4 rnd ;;
    do header <-
      (if payload_length <? 126 then
         do b1 <- pack_B first_byte ;;
         do b2 <- pack_B (Z.lor 128 payload_length) ;;
         Next (b1 ++ b2)
       else if payload_length <? 65536 then
         do b1 <- pack_B first_byte ;;
         do b2 <- pack_B (Z.lor 128 126) ;;
         do ext <- pack_be 2 payload_length ;;
         Next (b1 ++ b2 ++ ext)
       else
         do b1 <- pack_B first_byte ;;
         do b2 <- pack_B (Z.lor 128 127) ;;
         do ext <- pack_be 8 payload_length ;;
         Next (b1 ++ b2 ++ ext)) ;;
    do masked_payload <- mask_payload payload mask ;;
    Return (header ++ mask ++ masked_payload)).

Definition create_frame (payload : bytes) (opcode : Z) (rnd : Z) : option bytes :=
  match create_frame_body payload opcode rnd with
  | Ok frame => Some frame
  | Exn _ => None
  end.

(** ** The accept key *)

(** [hashlib.sha1(m).digest()], after FIPS 180-4: 32-bit words are [Z]
    reduced modulo [2^32]. *)
Module SHA1.

Definition w32 (x : Z) : Z := x mod 2 ^ 32.

Definition rotl (n x : Z) : Z :=
  w32 (Z.lor (Z.shiftl x n) (Z.shiftr x (32 - n))).

Definition lnot32 (x : Z) : Z := Z.lxor x 0xFFFFFFFF.

(** Message, the bit [1], zeros up to 56 modulo 64, the bit length on 8 bytes. *)
Definition pad (m : bytes) : bytes :=
  let l := len m in
  m ++ [byte_of_Z 128]
    ++ repeat x00 (Z.to_nat ((55 - l) mod 64))
    ++ be_bytes 8 (8 * l).

Fixpoint chunks {A} (fuel : nat) (size : nat) (l : list A) : list (list A) :=
  match fuel with
  | O => []
  | S fuel' =>
      match l with
      | [] => []
      | _ => firstn size l :: chunks fuel' size (skipn size l)
      end
  end.

Definition words (block : bytes) : list Z :=
  map be_int (chunks 16 4 block).

(** The schedule, newest word first: [W_t = rotl 1 (W_(t-3) xor W_(t-8)
    xor W_(t-14) xor W_(t-16))]. *)
Fixpoint extend (n : nat) (rev_ws : list Z) : list Z :=
  match n with
  | O => rev_ws
  | S n' =>
      let w := rotl 1 (Z.lxor (Z.lxor (nth 2 rev_ws 0) (nth 7 rev_ws 0))
                              (Z.lxor (nth 13 rev_ws 0) (nth 15 rev_ws 0))) in
      extend n' (w :: rev_ws)
  end.

Definition schedule (block : bytes) : list Z :=
  rev (extend 64 (rev (words block))).

Definition f_k (t : Z) (b c d : Z) : Z * Z :=
  if t <? 20 then (Z.lor (Z.land b c) (Z.land (lnot32 b) d), 0x5A827999)
  else if t <? 40 then (Z.lxor (Z.lxor b c) d, 0x6ED9EBA1)
  else if t <? 60 then
    (Z.lor (Z.lor (Z.land b c) (Z.land b d)) (Z.land c d), 0x8F1BBCDC)
  else (Z.lxor (Z.lxor b c) d, 0xCA62C1D6).

Definition regs : Type := Z * Z * Z * Z * Z.

Definition round (st : Z * regs) (w : Z) : Z * regs :=
  let '(t, (a, b, c, d, e)) := st in
  let '(f, k) := f_k t b c d in
  let temp := w32 (rotl 5 a + f + e + k + w) in
  (t + 1, (temp, a, rotl 30 b, c, d)).

Definition compress (h : regs) (block : bytes) : regs :=
  let '(h0, h1, h2, h3, h4) := h in
  let '(_, (a, b, c, d, e)) := fold_left round (schedule block) (0, h) in
  (w32 (h0 + a), w32 (h1 + b), w32 (h2 + c), w32 (h3 + d), w32 (h4 + e)).

Definition init : regs :=
  (0x67452301, 0xEFCDAB89, 0x98BADCFE, 0x10325476, 0xC3D2E1F0).

Definition digest (m : bytes) : bytes :=
  let p := pad m in
  let '(h0, h1, h2, h3, h4) :=
    fold_left compress (chunks (length p) 64 p) init in
  be_bytes 4 h0 ++ be_bytes 4 h1 ++ be_bytes 4 h2 ++ be_bytes 4 h3 ++ be_bytes 4 h4.

End SHA1.

(** [base64.b64encode(b).decode('utf-8')]: the standard alphabet, [=] padding. *)
Module Base64.

Definition alphabet : string :=
  "ABCDEFGHIJKLMNOPQRSTUVWXYZabcdefghijklmnopqrstuvwxyz0123456789+/".

Definition digit (n : Z) : ascii :=
  match String.get (Z.to_nat n) alphabet with
  | Some c => c
  | None => "="%char
  end.

Fixpoint b64encode (b : bytes) : string :=
  match b with
  | [] => EmptyString
  | [x] =>
      let n := ord x * 65536 in
      String (digit (n / 262144)) (String (digit (n / 4096 mod 64)) "==")
  | [x; y] =>
      let n := ord x * 65536 + ord y * 256 in
      String (digit (n / 262144)) (String (digit (n / 4096 mod 64))
        (String (digit (n / 64 mod 64)) "="))
  | x :: y :: z :: rest =>
      let n := ord x * 65536 + ord y * 256 + ord z in
      String (digit (n / 262144)) (String (digit (n / 4096 mod 64))
        (String (digit (n / 64 mod 64)) (String (digit (n mod 64))
          (b64encode rest))))
  end.

End Base64.

(** [s.encode('utf-8')]: a [str] is kept as its UTF-8 encoding. *)
Definition encode_utf8 (s : string) : bytes := list_byte_of_string s.

(** [create_websocket_accept_key] ([WS_Server.py], lines 36-40). *)
Definition create_websocket_accept_key (websocket_key : string) : string :=
  let accept_key := (websocket_key ++ WS_MAGIC_STRING)%string in
  let sha1_hash := SHA1.digest (encode_utf8 accept_key) in
  Base64.b64encode sha1_hash.

(** [SimpleWebSocketServer.generate_accept_key] ([simple_ws_server.py],
    lines 24-29). [self] is the server object the method is called on. *)
Record simple_server : Type := SimpleServer {
  ss_host : string;
  ss_port : Z;
  ss_running : bool;
  ss_clients : list nat
}.

Definition generate_accept_key (self : simple_server) (websocket_key : string) : string :=
  let magic_string := "258EAFA5-E914-47DA-95CA-C5AB0DC85B11"%string in
  let combined := (websocket_key ++ magic_string)%string in
  let sha1_hash := SHA1.digest (encode_utf8 combined) in
  Base64.b64encode sha1_hash.

(** The expected key recomputed by
    [SimpleWebSocketClient.verify_handshake_response] ([simple_ws_client.py],
    lines 75-77). *)
Definition expected_accept (websocket_key : string) : string :=
  let magic_string := "258EAFA5-E914-47DA-95CA-C5AB0DC85B11"%string in
  let combined := (websocket_key ++ magic_string)%string in
  Base64.b64encode (SHA1.digest (encode_utf8 combined)).

(** ** Text: the [str] methods the handshake uses

    [lower] and [strip] are those of Python on ASCII text, which is what an
    HTTP request head is made of; the statements about the handshake are made
    for ASCII requests. *)

Definition CR : ascii := ascii_of_nat 13.
Definition LF : ascii := ascii_of_nat 10.
Definition CRLF : string := String CR (String LF EmptyString).

Definition is_ascii_char (c : ascii) : bool := (nat_of_ascii c <? 128)%nat.

Fixpoint is_ascii (s : string) : bool :=
  match s with
  | EmptyString => true
  | String c s' => is_ascii_char c && is_ascii s'
  end.

Definition lower_char (c : ascii) : ascii :=
  let n := nat_of_ascii c in
  if (65 <=? n)%nat && (n <=? 90)%nat then ascii_of_nat (n + 32) else c.

(** [s.lower()]. *)
Fixpoint lower (s : string) : string :=
  match s with
  | EmptyString => EmptyString
  | String c s' => String (lower_char c) (lower s')
  end.

(** [s.startswith(p)]. *)
Definition startswith (s p : string) : bool := String.prefix p s.

Fixpoint string_drop (n : nat) (s : string) : string :=
  match n, s with
  | O, _ => s
  | S n', EmptyString => EmptyString
  | S n', String _ s' => string_drop n' s'
  end.

(** [s.split(sep)] for a non-empty [sep]: [skip] counts the characters of a
    separator just matched that are still to be passed over, [cur] is the
    piece being collected. *)
Fixpoint split_from (sep : string) (skip : nat) (s : string) (cur : string) : list string :=
  match s with
  | EmptyString => [cur]
  | String c s' =>
      match skip with
      | S k => split_from sep k s' cur
      | O =>
          if String.prefix sep s
          then cur :: split_from sep (String.length sep - 1) s' EmptyString
          else split_from sep O s' (cur ++ String c EmptyString)%string
      end
  end.

Definition split (s sep : string) : list string := split_from sep 0 s EmptyString.

(** [s.split(sep, 1)]. *)
Fixpoint split1_from (sep : string) (s : string) (cur : string) : list string :=
  match s with
  | EmptyString => [cur]
  | String c s' =>
      if String.prefix sep s
      then [cur; string_drop (String.length sep) s]
      else split1_from sep s' (cur ++ String c EmptyString)%string
  end.

Definition split1 (s sep : string) : list string := split1_from sep s EmptyString.

(** [parts[i]] on a list of strings. *)
Definition item {R} (parts : list string) (i : nat) : ctl R string :=
  match nth_error parts i with
  | Some x => Next x
  | None => Raise IndexError
  end.

(** Whitespace for [str.strip()] within ASCII: TAB, LF, VT, FF, CR, the four
    separators [0x1c]-[0x1f], and the space. *)
Definition is_space (c : ascii) : bool :=
  let n := nat_of_ascii c in
  ((9 <=? n) && (n <=? 13) || (28 <=? n) && (n <=? 32))%nat.

Fixpoint lstrip (s : string) : string :=
  match s with
  | EmptyString => EmptyString
  | String c s' => if is_space c then lstrip s' else s
  end.

Fixpoint rstrip (s : string) : string :=
  match s with
  | EmptyString => EmptyString
  | String c s' =>
      match rstrip s' with
      | EmptyString => if is_space c then EmptyString else String c EmptyString
      | r => String c r
      end
  end.

(** [s.strip()]. *)
Definition strip (s : string) : string := rstrip (lstrip s).

(** Well-formed UTF-8 (Unicode, table 3-7), as the strict codec of
    [bytes.decode('utf-8')] checks it. *)
Definition in_rng (lo hi : Z) (b : byte) : bool := (lo <=? ord b) && (ord b <=? hi).

Fixpoint utf8_valid (b : bytes) : bool :=
  match b with
  | [] => true
  | b0 :: r =>
      let x := ord b0 in
      if x <? 0x80 then utf8_valid r
      else if (0xC2 <=? x) && (x <=? 0xDF) then
        match r with
        | b1 :: r' => in_rng 0x80 0xBF b1 && utf8_valid r'
        | _ => false
        end
      else if (0xE0 <=? x) && (x <=? 0xEF) then
        match r with
        | b1 :: b2 :: r' =>
            (if x =? 0xE0 then in_rng 0xA0 0xBF b1
             else if x =? 0xED then in_rng 0x80 0x9F b1
             else in_rng 0x80 0xBF b1)
            && in_rng 0x80 0xBF b2 && utf8_valid r'
        | _ => false
        end
      else if (0xF0 <=? x) && (x <=? 0xF4) then
        match r with
        | b1 :: b2 :: b3 :: r' =>
            (if x =? 0xF0 then in_rng 0x90 0xBF b1
             else if x =? 0xF4 then in_rng 0x80 0x8F b1
             else in_rng 0x80 0xBF b1)
            && in_rng 0x80 0xBF b2 && in_rng 0x80 0xBF b3 && utf8_valid r'
        | _ => false
        end
      else false
  end.

(** [b.decode('utf-8')]. *)
Definition decode_utf8 {R} (b : bytes) : ctl R string :=
  if utf8_valid b then Next (string_of_list_byte b) else Raise UnicodeDecodeError.

(** ** The transport, seen from one handler *)

(** A connection is known by the identity of its socket object. *)
Definition sock := nat.

(** What one call of [client_socket.recv(n)] gives: bytes (none at all when
    the peer has closed), a timeout, or another socket error. Writing to the
    socket is taken to succeed. *)
Inductive recv_outcome : Type :=
| RecvData (data : bytes)
| RecvTimeout
| RecvError.

Definition http_101 (accept_key : string) : string :=
  ("HTTP/1.1 101 Switching Protocols" ++ CRLF ++
   "Upgrade: websocket" ++ CRLF ++
   "Connection: Upgrade" ++ CRLF ++
   "Sec-WebSocket-Accept: " ++ accept_key ++ CRLF ++
   CRLF)%string.

(** ** [WS_Server.py]: handshake, registry and read loop *)
Module WSServer.

Inductive level : Set := INFO | WARNING | ERROR.

(** The lines written to the log or printed, by what they report. *)
Inductive message : Type :=
| HandshakeRequest (head : string)
| NoKeyFound
| HandshakeCompleted
| HandshakeFailed
| HandshakeFailedForClient
| ClientConnected
| ClientDisconnected
| CurrentConnections (n : nat)
| InvalidFrame
| StreamMessage (payload : bytes)
| TextDecodeFailed
| BinaryStream (payload : bytes)
| PongSent
| ErrorSendingPong
| PongReceived
| CloseFrameReceived
| UnknownOpcode (opcode : Z)
| ConnectionClosed
| FrameProcessingError.

Inductive event : Type :=
| Send (c : sock) (data : bytes)
| Close (c : sock)
| Log (lv : level) (m : message)
| Print (m : message).

(** The [for line in request.split('\r\n')] loop of
    [perform_websocket_handshake] (lines 135-139). *)
Fixpoint find_websocket_key {R} (lines : list string) : ctl R (option string) :=
  match lines with
  | [] => Next None
  | line :: rest =>
      if startswith (lower line) "sec-websocket-key:" then
        do value <- item (split1 line ":") 1 ;;
        Next (Some (strip value))
      else find_websocket_key rest
  end.

(** [if not websocket_key]. *)
Definition key_missing (websocket_key : option string) : bool :=
  match websocket_key with
  | None => true
  | Some EmptyString => true
  | Some _ => false
  end.

(** [perform_websocket_handshake] (lines 127-163): the value returned and
    what was sent and logged. [except Exception] covers the whole body.
    Writing to the socket is taken to succeed, and the text is ASCII where a
    statement depends on [lower], [strip] or the 200 characters of the head
    that is logged. *)
Definition perform_websocket_handshake (c : sock) (r : recv_outcome)
  : bool * list event :=
  match r with
  | RecvData raw =>
      match run (decode_utf8 raw) with
      | Exn _ => (false, [Log ERROR HandshakeFailed])
      | Ok request =>
          let seen := [Log INFO (HandshakeRequest (substring 0 200 request))] in
          match run (find_websocket_key (split request CRLF)) with
          | Exn _ => (false, seen ++ [Log ERROR HandshakeFailed])
          | Ok websocket_key =>
              if key_missing websocket_key then
                (false, seen ++ [Log ERROR NoKeyFound])
              else
                let accept_key :=
                  create_websocket_accept_key (default EmptyString websocket_key) in
                let response := http_101 accept_key in
                (true, seen ++ [Send c (encode_utf8 response);
                                Log INFO HandshakeCompleted])
          end
      end
  | RecvTimeout | RecvError => (false, [Log ERROR HandshakeFailed])
  end.

(** [register_client] (lines 165-171) on the global [connected_clients]. *)
Definition register_client (c : sock) (connected_clients : gset sock)
  : gset sock * list event :=
  let connected_clients := connected_clients ∪ {[c]} in
  (connected_clients,
   [Log INFO ClientConnected; Log INFO (CurrentConnections (size connected_clients))]).

(** [unregister_client] (lines 173-179): [set.discard]. *)
Definition unregister_client (c : sock) (connected_clients : gset sock)
  : gset sock * list event :=
  let connected_clients := connected_clients ∖ {[c]} in
  (connected_clients,
   [Log INFO ClientDisconnected; Log INFO (CurrentConnections (size connected_clients))]).

(** [send_pong] (lines 181-188). *)
Definition send_pong (c : sock) (payload : bytes) : list event :=
  match create_websocket_frame WS_OPCODE_PONG payload with
  | Ok pong_frame => [Send c pong_frame; Log INFO PongSent]
  | Exn _ => [Log ERROR ErrorSendingPong]
  end.

(** The [if]/[elif] chain of lines 217-247: what one decoded frame causes,
    and whether the loop goes on ([true]) or is left by [break]. *)
Definition dispatch (c : sock) (opcode : Z) (payload : bytes) : list event * bool :=
  if opcode =? WS_OPCODE_TEXT then
    if utf8_valid payload
    then ([Print (StreamMessage payload); Log INFO (StreamMessage payload)], true)
    else ([Log ERROR TextDecodeFailed], true)
  else if opcode =? WS_OPCODE_BINARY then
    ([Print (BinaryStream payload); Log INFO (BinaryStream payload)], true)
  else if opcode =? WS_OPCODE_PING then
    (send_pong c payload, true)
  else if opcode =? WS_OPCODE_PONG then
    ([Log INFO PongReceived], true)
  else if opcode =? WS_OPCODE_CLOSE then
    ([Log INFO CloseFrameReceived], false)
  else
    ([Log WARNING (UnknownOpcode opcode)], true).

(** The [while self.running] loop of [handle_client] (lines 203-254). Each
    element of [reads] is the outcome of the [recv] of one iteration; the
    list ends where [self.running] was found false. *)
Fixpoint read_loop (c : sock) (reads : list recv_outcome) : list event :=
  match reads with
  | [] => []
  | RecvData data :: rest =>
      if len data =? 0 then []
      else
        match parse_websocket_frame data with
        | Exn _ => [Log ERROR FrameProcessingError]
        | Ok None => Log WARNING InvalidFrame :: read_loop c rest
        | Ok (Some (opcode, payload)) =>
            let '(evs, continue) := dispatch c opcode payload in
            if continue then evs ++ read_loop c rest else evs
        end
  | (RecvTimeout | RecvError) :: _ => [Log INFO ConnectionClosed]
  end.

(** [handle_client] (lines 190-263). The [finally] clause runs on every
    way out, the early [return] included. *)
Definition handle_client (c : sock) (request : recv_outcome)
    (reads : list recv_outcome) (connected_clients : gset sock)
  : gset sock * list event :=
  let '(ok, hs) := perform_websocket_handshake c request in
  let '(connected_clients, body) :=
    if negb ok then
      (connected_clients, hs ++ [Log ERROR HandshakeFailedForClient; Close c])
    else
      let '(connected_clients, reg) := register_client c connected_clients in
      (connected_clients, hs ++ reg ++ read_loop c reads) in
  let '(connected_clients, unreg) := unregister_client c connected_clients in
  (connected_clients, body ++ unreg ++ [Close c]).



End WSServer.

(** ** [simple_ws_server.py]: handshake and read loop *)
Module SimpleServer.

Inductive notice : Type :=
| HandshakeRequest (request : string)
| KeyNotFound
| HandshakeCompleted
| HandshakeFailed
| NewClient
| ReceivedMessage (payload : bytes)
| ReceivedBinary (n : Z)
| CloseRequested
| ReceivedPing
| ReceivedPong
| ProcessingError
| Disconnected.

Inductive event : Type :=
| Send (c : sock) (data : bytes)
| Close (c : sock)
| Print (m : notice).

(** The [for line in lines] loop of [perform_handshake] (lines 40-44). *)
Fixpoint find_websocket_key {R} (lines : list string) : ctl R (option string) :=
  match lines with
  | [] => Next None
  | line :: rest =>
      if startswith line "Sec-WebSocket-Key:" then
        do value <- item (split line ": ") 1 ;;
        Next (Some value)
      else find_websocket_key rest
  end.

Definition key_missing (websocket_key : option string) : bool :=
  match websocket_key with
  | None => true
  | Some EmptyString => true
  | Some _ => false
  end.

(** [perform_handshake] (lines 31-66). *)
Definition perform_handshake (self : simple_server) (c : sock) (r : recv_outcome)
  : bool * list event :=
  match r with
  | RecvData raw =>
      match run (decode_utf8 raw) with
      | Exn _ => (false, [Print HandshakeFailed])
      | Ok request =>
          let seen := [Print (HandshakeRequest request)] in
          match run (find_websocket_key (split request CRLF)) with
          | Exn _ => (false, seen ++ [Print HandshakeFailed])
          | Ok websocket_key =>
              if key_missing websocket_key then
                (false, seen ++ [Print KeyNotFound])
              else
                let accept_key :=
                  generate_accept_key self (default EmptyString websocket_key) in
                let response := http_101 accept_key in
                (true, seen ++ [Send c (encode_utf8 response);
                                Print HandshakeCompleted])
          end
      end
  | RecvTimeout | RecvError => (false, [Print HandshakeFailed])
  end.

(** The [if]/[elif] chain of lines 148-159; it has no final [else].
    [payload.decode('utf-8')] of a text frame can raise, which the
    [except Exception] of the loop turns into a [break]. *)
Definition dispatch (c : sock) (frame : frame_dict) : list event * bool :=
  let opcode := fd_opcode frame in
  if opcode =? 1 then
    if utf8_valid (fd_payload frame)
    then ([Print (ReceivedMessage (fd_payload frame))], true)
    else ([Print ProcessingError], false)
  else if opcode =? 2 then
    ([Print (ReceivedBinary (len (fd_payload frame)))], true)
  else if opcode =? 8 then
    ([Print CloseRequested], false)
  else if opcode =? 9 then
    ([Print ReceivedPing], true)
  else if opcode =? 10 then
    ([Print ReceivedPong], true)
  else
    ([], true).

(** The [while self.running] loop of [handle_client] (lines 139-165). *)
Fixpoint read_loop (c : sock) (reads : list recv_outcome) : list event :=
  match reads with
  | [] => []
  | RecvData data :: rest =>
      if len data =? 0 then []
      else
        match server_decode_frame data with
        | Exn _ => [Print ProcessingError]
        | Ok None => read_loop c rest
        | Ok (Some frame) =>
            let '(evs, continue) := dispatch c frame in
            if continue then evs ++ read_loop c rest else evs
        end
  | RecvTimeout :: rest => read_loop c rest
  | RecvError :: _ => [Print ProcessingError]
  end.

(** [self.clients.remove(c)]: the first occurrence goes. *)
Fixpoint remove_first (c : sock) (clients : list sock) : list sock :=
  match clients with
  | [] => []
  | x :: rest => if Nat.eqb x c then rest else x :: remove_first c rest
  end.

(** [handle_client] (lines 126-174) on the list [self.clients]. *)
Definition handle_client (self : simple_server) (c : sock) (request : recv_outcome)
    (reads : list recv_outcome) : list sock * list event :=
  let clients := ss_clients self in
  let '(ok, hs) := perform_handshake self c request in
  let '(clients, body) :=
    if negb ok then (clients, Print NewClient :: hs ++ [Close c])
    else (clients ++ [c], Print NewClient :: hs ++ read_loop c reads) in
  let clients :=
    if existsb (Nat.eqb c) clients then remove_first c clients else clients in
  (clients, body ++ [Close c; Print Disconnected]).

End SimpleServer.

(** ** [simple_ws_client.py]: handshake, sending and the receive loop *)
Module SimpleClient.

(** [string.ascii_letters + string.digits]. *)
Definition pool : string :=
  "abcdefghijklmnopqrstuvwxyzABCDEFGHIJKLMNOPQRSTUVWXYZ0123456789".

(** [random.choice(pool)], [i] being the index drawn (always below 62). *)
Definition choice (i : nat) : ascii :=
  match String.get i pool with
  | Some ch => ch
  | None => "a"%char
  end.

(** [generate_websocket_key] (lines 35-38); [draw k] is the index drawn at
    the [k]-th turn of [for _ in range(16)]. *)
Definition generate_websocket_key (draw : nat -> nat) : string :=
  let key_bytes := string_of_list_ascii (map (fun k => choice (draw k)) (seq 0 16)) in
  Base64.b64encode (encode_utf8 key_bytes).

(** ["{}".format(n)] for an integer. *)
Definition str_of_int (n : Z) : string :=
  DecimalString.NilEmpty.string_of_int (Z.to_int n).

(** [create_handshake_request] (lines 40-51). *)
Definition create_handshake_request (host : string) (port : Z) (websocket_key : string)
  : string :=
  ("GET / HTTP/1.1" ++ CRLF ++
   "Host: " ++ host ++ ":" ++ str_of_int port ++ CRLF ++
   "Upgrade: websocket" ++ CRLF ++
   "Connection: Upgrade" ++ CRLF ++
   "Sec-WebSocket-Key: " ++ websocket_key ++ CRLF ++
   "Sec-WebSocket-Version: 13" ++ CRLF ++
   CRLF)%string.

(** The [for line in lines] loop of [verify_handshake_response] (lines 64-68). *)
Fixpoint find_accept_key {R} (lines : list string) : ctl R (option string) :=
  match lines with
  | [] => Next None
  | line :: rest =>
      if startswith line "Sec-WebSocket-Accept:" then
        do value <- item (split line ": ") 1 ;;
        Next (Some value)
      else find_accept_key rest
  end.

(** [if not accept_key]. *)
Definition key_missing (accept_key : option string) : bool :=
  match accept_key with
  | None => true
  | Some EmptyString => true
  | Some _ => false
  end.

Inductive notice : Type :=
| Connecting
| SendingHandshake
| HandshakeResponse (response : string)
| Established
| InvalidStatus
| NoAcceptKey
| InvalidAcceptKey
| VerificationError
| VerificationFailed
| ConnectionError
| NotConnected
| MessageSent (message : string)
| FrameCreationFailed
| SendError
| ServerClosed
| ReceivedText (payload : bytes)
| ReceivedBinary (n : Z)
| CloseRequested
| ReceivedPing
| ReceivedPong
| ReceiveError
| Disconnecting
| Disconnected.

Inductive event : Type :=
| Send (data : bytes)
| Close
| Print (m : notice).

(** [verify_handshake_response] (lines 53-87): the answer and what is
    printed; every exception gives [False]. *)
Definition verify_handshake_response (response websocket_key : string)
  : bool * list event :=
  match
    run (
      let lines := split response CRLF in
      do status <- item lines 0 ;;
      if negb (startswith status "HTTP/1.1 101")
      then Return (false, [Print InvalidStatus]) else
      do accept_key <- find_accept_key lines ;;
      if key_missing accept_key then Return (false, [Print NoAcceptKey]) else
      let magic_string := "258EAFA5-E914-47DA-95CA-C5AB0DC85B11"%string in
      let combined := (websocket_key ++ magic_string)%string in
      let expected_accept := Base64.b64encode (SHA1.digest (encode_utf8 combined)) in
      if negb (String.eqb (default EmptyString accept_key) expected_accept)
      then Return (false, [Print InvalidAcceptKey])
      else Return (true, []))
  with
  | Ok answer => answer
  | Exn _ => (false, [Print VerificationError])
  end.

(** The fields of the client object that the methods below read and set. *)
Record client : Type := Client {
  cl_host : string;
  cl_port : Z;
  cl_connected : bool;
  cl_running : bool
}.

(** [connect] (lines 183-220), the TCP connection being made; [r] is what
    [recv(1024)] gives for the response. *)
Definition connect (self : client) (draw : nat -> nat) (r : recv_outcome)
  : client * bool * list event :=
  let websocket_key := generate_websocket_key draw in
  let handshake_request :=
    create_handshake_request (cl_host self) (cl_port self) websocket_key in
  let sent := [Print Connecting; Print SendingHandshake;
               Send (encode_utf8 handshake_request)] in
  match r with
  | RecvData raw =>
      match run (decode_utf8 raw) with
      | Exn _ => (self, false, sent ++ [Print ConnectionError; Close])
      | Ok response =>
          let '(verified, said) := verify_handshake_response response websocket_key in
          if verified then
            (Client (cl_host self) (cl_port self) true true, true,
             sent ++ [Print (HandshakeResponse response)] ++ said ++ [Print Established])
          else
            (self, false,
             sent ++ [Print (HandshakeResponse response)] ++ said
                  ++ [Print VerificationFailed; Close])
      end
  | RecvTimeout | RecvError => (self, false, sent ++ [Print ConnectionError; Close])
  end.

(** [send_message] (lines 222-240) for a text [message]; [rnd] is the number
    drawn for the mask. *)
Definition send_message (self : client) (message : string) (rnd : Z)
  : bool * list event :=
  if negb (cl_connected self) then (false, [Print NotConnected]) else
  match create_frame (encode_utf8 message) 1 rnd with
  | Some frame => (true, [Send frame; Print (MessageSent message)])
  | None => (false, [Print FrameCreationFailed])
  end.

(** The [if]/[elif] chain of [receive_messages] (lines 253-264); it has no
    final [else]. *)
Definition dispatch (frame : frame_dict) : list event * bool :=
  let opcode := fd_opcode frame in
  if opcode =? 1 then
    if utf8_valid (fd_payload frame)
    then ([Print (ReceivedText (fd_payload frame))], true)
    else ([Print ReceiveError], false)
  else if opcode =? 2 then
    ([Print (ReceivedBinary (len (fd_payload frame)))], true)
  else if opcode =? 8 then
    ([Print CloseRequested], false)
  else if opcode =? 9 then
    ([Print ReceivedPing], true)
  else if opcode =? 10 then
    ([Print ReceivedPong], true)
  else
    ([], true).

(** The loop of [receive_messages] (lines 244-270). Each element of [reads]
    is the outcome of the [recv] of one turn; the list ends where
    [self.running and self.connected] was found false. *)
Fixpoint receive_loop (reads : list recv_outcome) : list event :=
  match reads with
  | [] => []
  | RecvData data :: rest =>
      if len data =? 0 then [Print ServerClosed]
      else
        match client_decode_frame data with
        | Exn _ => [Print ReceiveError]
        | Ok None => receive_loop rest
        | Ok (Some frame) =>
            let '(evs, continue) := dispatch frame in
            if continue then evs ++ receive_loop rest else evs
        end
  | RecvTimeout :: rest => receive_loop rest
  | RecvError :: _ => [Print ReceiveError]
  end.

(** [receive_messages] (lines 242-272): the loop, then [self.connected = False]. *)
Definition receive_messages (self : client) (reads : list recv_outcome)
  : client * list event :=
  let trace := if cl_running self && cl_connected self then receive_loop reads else [] in
  (Client (cl_host self) (cl_port self) false (cl_running self), trace).

(** [disconnect] (lines 274-290) on an open socket; [rnd] is the number drawn
    for the mask of the close frame. *)
Definition disconnect (self : client) (rnd : Z) : client * list event :=
  let self' := Client (cl_host self) (cl_port self) false false in
  match create_frame (encode_utf8 EmptyString) 8 rnd with
  | Some close_frame =>
      (self', [Print Disconnecting; Send close_frame; Close; Print Disconnected])
  | None => (self', [Print Disconnecting; Close; Print Disconnected])
  end.

End SimpleClient.

(** [SimpleWebSocketServer.stop_server] ([simple_ws_server.py], lines
    209-229): every client socket is closed, the list is emptied. *)
Definition simple_stop_server (self : simple_server) : simple_server * list SimpleServer.event :=
  (SimpleServer (ss_host self) (ss_port self) false [],
   map SimpleServer.Close (ss_clients self)).

(** ** The wire format, as the specification words it

    The definitions of this section follow the text of the specification
    (data model and frame codec), not the code: they are what the decoders
    and encoders above are compared with. *)

(** "each payload byte is produced by XOR-ing with [maskKey[i mod 4]] for
    byte index [i]"; [i] is the index of the head of [payload]. *)
Fixpoint xor_cycle (key : bytes) (i : Z) (payload : bytes) : bytes :=
  match payload with
  | [] => []
  | b :: rest =>
      byte_of_Z (Z.lxor (ord b) (ord (nth (Z.to_nat (i mod 4)) key x00)))
        :: xor_cycle key (i + 1) rest
  end.

(** "values <126 use the 7-bit field directly; 126 selects a following
    big-endian 16-bit length; 127 selects a following big-endian 64-bit
    length". *)
Inductive length_form : Set := Len7 | Len16 | Len64.

(** A frame as it travels: its first byte (FIN, RSV, opcode), the form of
    its length field, the mask key when the mask bit is set, and the payload
    bytes as they are on the wire (masked if there is a key). *)
Record wire_frame : Type := WireFrame {
  wf_first : byte;
  wf_form : length_form;
  wf_key : option bytes;
  wf_payload : bytes
}.

Definition form_limit (f : length_form) : Z :=
  match f with
  | Len7 => 126
  | Len16 => 65536
  | Len64 => 2 ^ 64
  end.

(** The length fits its field and a key has four bytes. *)
Definition wire_ok (f : wire_frame) : Prop :=
  len (wf_payload f) < form_limit (wf_form f) /\
  match wf_key f with
  | Some key => length key = 4%nat
  | None => True
  end.

Definition mask_bit (f : wire_frame) : Z :=
  match wf_key f with Some _ => 128 | None => 0 end.

Definition length_field (f : wire_frame) : bytes :=
  let n := len (wf_payload f) in
  match wf_form f with
  | Len7 => [byte_of_Z (mask_bit f + n)]
  | Len16 => byte_of_Z (mask_bit f + 126) :: be_bytes 2 n
  | Len64 => byte_of_Z (mask_bit f + 127) :: be_bytes 8 n
  end.

(** The bytes of the frame: first byte, length field, key, payload. *)
Definition wire_bytes (f : wire_frame) : bytes :=
  wf_first f :: length_field f ++ default [] (wf_key f) ++ wf_payload f.

(** The payload the frame carries, unmasked. *)
Definition wire_payload (f : wire_frame) : bytes :=
  match wf_key f with
  | Some key => xor_cycle key 0 (wf_payload f)
  | None => wf_payload f
  end.

Definition wire_opcode (f : wire_frame) : Z := Z.land (ord (wf_first f)) 15.

Definition hex (l : list Z) : bytes := map byte_of_Z l.

(** ** Vocabulary of the statements

    Sample frames and requests, the relations and the event counters the
    statements below are written with, and the case-splitting step of their
    proofs. *)

(** Two decoder results that tell the same: no frame, or a frame of the same
    opcode and payload, or the same exception. *)
Definition same_frame (r1 : exc (option (Z * bytes))) (r2 : exc (option frame_dict)) : Prop :=
  match r1, r2 with
  | Ok None, Ok None => True
  | Ok (Some (opcode, payload)), Ok (Some d) =>
      fd_opcode d = opcode /\ fd_payload d = payload
  | Exn e1, Exn e2 => e1 = e2
  | _, _ => False
  end.

(** One step of a proof by cases on the tests of a decoder. *)
Ltac split_if :=
  cbn [ctl_bind run same_frame fd_opcode fd_payload];
  match goal with
  | |- context [if ?c then _ else _] => destruct c eqn:?
  end.

(** How a 7-bit length marker, the extended length bytes and the payload
    length go together. *)
Definition form_rel (marker L : Z) (extb : bytes) : Prop :=
  0 <= L /\
  ((marker = L /\ L < 126 /\ extb = []) \/
   (marker = 126 /\ L < 65536 /\ extb = be_bytes 2 L) \/
   (marker = 127 /\ L < 2 ^ 64 /\ extb = be_bytes 8 L)).

(** The masked text frame "Hello" of RFC 6455, section 5.7. *)
Definition hello_frame : wire_frame :=
  WireFrame (byte_of_Z 0x81) Len7 (Some (hex [0x37; 0xfa; 0x21; 0x3d]))
            (hex [0x7f; 0x9f; 0x4d; 0x51; 0x58]).

(** The unmasked frame the server-side encoder is meant to produce. *)
Definition server_frame (opcode : Z) (payload : bytes) : wire_frame :=
  WireFrame (byte_of_Z (128 + opcode))
            (if len payload <? 126 then Len7
             else if len payload <? 65536 then Len16 else Len64)
            None payload.

(** The masked frame the client-side encoder is meant to produce, [rnd]
    being the 32-bit number it draws for the key. *)
Definition client_frame (opcode : Z) (rnd : Z) (payload : bytes) : wire_frame :=
  WireFrame (byte_of_Z (128 + opcode))
            (if len payload <? 126 then Len7
             else if len payload <? 65536 then Len16 else Len64)
            (Some (be_bytes 4 rnd))
            (xor_cycle (be_bytes 4 rnd) 0 payload).

(** The test of the header loop of [WS_Server.py]. *)
Definition is_key_line (line : string) : bool :=
  startswith (lower line) "sec-websocket-key:".

(** An upgrade request whose key header is spelt in mixed case and padded
    with blanks; the key is the sample key of RFC 6455. *)
Definition sample_request : string :=
  ("GET /chat HTTP/1.1" ++ CRLF ++
   "Host: server.example.com" ++ CRLF ++
   "Upgrade: websocket" ++ CRLF ++
   "sec-websocket-KEY:  dGhlIHNhbXBsZSBub25jZQ== " ++ CRLF ++
   CRLF)%string.

(** The unmasked text frame "hi". *)
Definition hi_frame : wire_frame :=
  WireFrame (byte_of_Z 0x81) Len7 None (hex [0x68; 0x69]).

(** The opcodes the dispatch chains have a branch for. *)
Definition known_opcode (opcode : Z) : bool :=
  (opcode =? 1) || (opcode =? 2) || (opcode =? 8) || (opcode =? 9) || (opcode =? 10).

(** Events of a trace, by kind. *)
Definition is_send (e : SimpleServer.event) : bool :=
  match e with
  | SimpleServer.Send _ _ => true
  | _ => false
  end.

(** The Ping frame with payload "abc", masked with key [01 02 03 04]. *)
Definition ping_abc : bytes :=
  hex [0x89; 0x83; 0x01; 0x02; 0x03; 0x04; 0x60; 0x60; 0x60].




(** The frame [f] with another first byte. *)
Definition with_first (b : byte) (f : wire_frame) : wire_frame :=
  WireFrame b (wf_form f) (wf_key f) (wf_payload f).

(** The frame [create_websocket_frame] writes for any opcode it accepts. *)
Definition created_frame (opcode : Z) (payload : bytes) : wire_frame :=
  WireFrame (byte_of_Z (Z.lor 128 opcode))
            (if len payload <? 126 then Len7
             else if len payload <? 65536 then Len16 else Len64)
            None payload.

(** [s] has no character [x]. *)
Fixpoint no_char (x : ascii) (s : string) : bool :=
  match s with
  | EmptyString => true
  | String ch s' => negb (Ascii.eqb ch x) && no_char x s'
  end.

(** The characters [base64.b64encode] writes. *)
Definition is_b64_char (ch : ascii) : bool :=
  let n := nat_of_ascii ch in
  ((65 <=? n) && (n <=? 90) || (97 <=? n) && (n <=? 122) || (48 <=? n) && (n <=? 57)
   || (n =? 43) || (n =? 47) || (n =? 61))%nat.

Fixpoint is_b64 (s : string) : bool :=
  match s with
  | EmptyString => true
  | String ch s' => is_b64_char ch && is_b64 s'
  end.

(** Events of the traces, by kind. *)
Definition ws_is_send (e : WSServer.event) : bool :=
  match e with
  | WSServer.Send _ _ => true
  | _ => false
  end.

Definition client_is_send (e : SimpleClient.event) : bool :=
  match e with
  | SimpleClient.Send _ => true
  | _ => false
  end.

(** Lines, each one closed by CR LF. *)
Fixpoint crlf_join (lines : list string) : string :=
  match lines with
  | [] => EmptyString
  | line :: rest => (line ++ CRLF ++ crlf_join rest)%string
  end.

(** The bytes a frame has before its key and payload: two, or four or ten
    with an extended length. *)
Definition header_size (n : Z) : Z :=
  if n <? 126 then 2 else if n <? 65536 then 4 else 10.

(** * Properties *)

(** ** Bytes and integers *)

Lemma ord_range (b : byte) : 0 <= ord b < 256.
Proof.
  unfold ord. pose proof (Byte.to_N_bounded b) as H.
  lia.
Qed.

Lemma byte_of_Z_ord (b : byte) : byte_of_Z (ord b) = b.
Proof.
  unfold byte_of_Z. pose proof (ord_range b) as H.
  rewrite Z.mod_small by exact H.
  unfold ord. rewrite N2Z.id, Byte.of_to_N. reflexivity.
Qed.

Lemma ord_byte_of_Z (z : Z) : 0 <= z < 256 -> ord (byte_of_Z z) = z.
Proof.
  intros H. unfold byte_of_Z, ord. rewrite Z.mod_small by exact H.
  destruct (Byte.of_N (Z.to_N z)) as [b|] eqn:E.
  - apply Byte.to_of_N in E. rewrite E. lia.
  - apply Byte.of_N_None_iff in E. lia.
Qed.

Lemma byte_of_Z_mod (z : Z) : byte_of_Z (z mod 256) = byte_of_Z z.
Proof. unfold byte_of_Z. rewrite Z.mod_mod by lia. reflexivity. Qed.

Lemma in_byte_range_true (z : Z) : 0 <= z < 256 -> in_byte_range z = true.
Proof. intros H. unfold in_byte_range. apply andb_true_intro. split; [apply Z.leb_le | apply Z.ltb_lt]; lia. Qed.

Lemma lxor_byte_range (a b : Z) :
  0 <= a < 256 -> 0 <= b < 256 -> 0 <= Z.lxor a b < 256.
Proof.
  intros Ha Hb. split; [apply Z.lxor_nonneg; lia |].
  destruct (Z.eq_dec (Z.lxor a b) 0) as [E|E]; [lia |].
  assert (Hpos : 0 < Z.lxor a b) by (pose proof (proj2 (Z.lxor_nonneg a b)); lia).
  change 256 with (2 ^ 8). apply Z.log2_lt_pow2; [exact Hpos |].
  pose proof (Z.log2_lxor a b ltac:(lia) ltac:(lia)) as Hl.
  assert (Z.log2 a < 8).
  { destruct (Z.eq_dec a 0) as [->|]; [simpl; lia |]. apply Z.log2_lt_pow2; lia. }
  assert (Z.log2 b < 8).
  { destruct (Z.eq_dec b 0) as [->|]; [simpl; lia |]. apply Z.log2_lt_pow2; lia. }
  lia.
Qed.

Lemma len_nonneg {A} (d : list A) : 0 <= len d.
Proof. unfold len. lia. Qed.

Lemma len_app {A} (a b : list A) : len (a ++ b) = len a + len b.
Proof. unfold len. rewrite length_app. lia. Qed.

Lemma len_cons {A} (x : A) (d : list A) : len (x :: d) = 1 + len d.
Proof. unfold len. cbn [length]. lia. Qed.

Lemma len_firstn {A} (n : nat) (d : list A) :
  (n <= length d)%nat -> len (firstn n d) = Z.of_nat n.
Proof. intros H. unfold len. rewrite length_firstn. lia. Qed.

Lemma be_bytes_length (k : nat) (n : Z) : length (be_bytes k n) = k.
Proof.
  revert n. induction k as [|k IH]; intros n; cbn [be_bytes]; [reflexivity |].
  rewrite length_app, IH. cbn. lia.
Qed.

Lemma be_int_app (s : bytes) (b : byte) : be_int (s ++ [b]) = be_int s * 256 + ord b.
Proof. unfold be_int. rewrite fold_left_app. reflexivity. Qed.

Lemma be_int_be_bytes (k : nat) (n : Z) :
  0 <= n < 256 ^ Z.of_nat k -> be_int (be_bytes k n) = n.
Proof.
  revert n. induction k as [|k IH]; intros n Hn.
  - cbn in *. unfold be_int. cbn. lia.
  - cbn [be_bytes]. rewrite be_int_app.
    rewrite Nat2Z.inj_succ, Z.pow_succ_r in Hn by lia.
    rewrite IH by (split; [apply Z.div_pos; lia | apply Z.div_lt_upper_bound; lia]).
    rewrite <- byte_of_Z_mod, ord_byte_of_Z by (apply Z.mod_pos_bound; lia).
    pose proof (Z.div_mod n 256 ltac:(lia)). lia.
Qed.

(** ** The model at work on concrete values *)

Example parse_text_hi :
  parse_websocket_frame (hex [0x81; 0x02; 0x68; 0x69])
  = Ok (Some (1, hex [0x68; 0x69])).
Proof. reflexivity. Qed.

(** The masked "Hello" of RFC 6455, section 5.7. *)
Example parse_masked_hello :
  parse_websocket_frame
    (hex [0x81; 0x85; 0x37; 0xfa; 0x21; 0x3d; 0x7f; 0x9f; 0x4d; 0x51; 0x58])
  = Ok (Some (1, hex [0x48; 0x65; 0x6c; 0x6c; 0x6f])).
Proof. reflexivity. Qed.

Example create_text_hi :
  create_websocket_frame 1 (hex [0x68; 0x69]) = Ok (hex [0x81; 0x02; 0x68; 0x69]).
Proof. reflexivity. Qed.

Example create_frame_hello :
  create_frame (hex [0x48; 0x65; 0x6c; 0x6c; 0x6f]) 1 0x37fa213d
  = Some (hex [0x81; 0x85; 0x37; 0xfa; 0x21; 0x3d; 0x7f; 0x9f; 0x4d; 0x51; 0x58]).
Proof. reflexivity. Qed.

Example sha1_abc :
  SHA1.digest (encode_utf8 "abc")
  = hex [0xa9; 0x99; 0x3e; 0x36; 0x47; 0x06; 0x81; 0x6a; 0xba; 0x3e;
         0x25; 0x71; 0x78; 0x50; 0xc2; 0x6c; 0x9c; 0xd0; 0xd8; 0x9d].
Proof. vm_compute. reflexivity. Qed.

Example b64_foobar : Base64.b64encode (encode_utf8 "foobar") = "Zm9vYmFy"%string
  /\ Base64.b64encode (encode_utf8 "fooba") = "Zm9vYmE="%string
  /\ Base64.b64encode (encode_utf8 "foob") = "Zm9vYg=="%string.
Proof. repeat split; reflexivity. Qed.

Example accept_rfc :
  create_websocket_accept_key "dGhlIHNhbXBsZSBub25jZQ==" = "s3pPLMBiTxaQ9kYGzzhZRbK+xOo="%string.
Proof. vm_compute. reflexivity. Qed.

Example split_crlf :
  split ("a" ++ CRLF ++ CRLF ++ "b: c" ++ CRLF) CRLF = ["a"; ""; "b: c"; ""]%string.
Proof. reflexivity. Qed.

Example split1_colon :
  split1 "Key: a:b" ":" = ["Key"; " a:b"]%string /\ split1 "abc" ":" = ["abc"%string].
Proof. split; reflexivity. Qed.

Example strip_ex : strip "  a b  " = "a b"%string /\ strip "   " = ""%string.
Proof. split; reflexivity. Qed.

Example lower_ex : lower "Sec-WebSocket-Key: AbC" = "sec-websocket-key: abc"%string.
Proof. reflexivity. Qed.

Example utf8_ex :
  utf8_valid (hex [0x68; 0xC3; 0xA9]) = true /\ utf8_valid (hex [0xC0; 0x80]) = false
  /\ utf8_valid (hex [0xED; 0xA0; 0x80]) = false /\ utf8_valid (hex [0xFF]) = false.
Proof. repeat split; reflexivity. Qed.

(** ** The XOR cycle *)

Lemma index_key {R} (key : bytes) (i : Z) :
  length key = 4%nat -> 0 <= i ->
  @index R key (i mod 4) = Next (ord (nth (Z.to_nat (i mod 4)) key x00)).
Proof.
  intros Hk Hi. unfold index.
  pose proof (Z.mod_pos_bound i 4 ltac:(lia)) as Hm.
  rewrite (nth_error_nth' key x00) by lia. reflexivity.
Qed.

Lemma xor_cycle_length (key : bytes) (i : Z) (p : bytes) :
  length (xor_cycle key i p) = length p.
Proof.
  revert i. induction p as [|b p IH]; intros i; cbn [xor_cycle length]; [reflexivity |].
  now rewrite IH.
Qed.

Lemma append_xor {R} (out : bytes) (a b : byte) :
  @append_byte R out (Z.lxor (ord a) (ord b))
  = Next (out ++ [byte_of_Z (Z.lxor (ord a) (ord b))]).
Proof.
  unfold append_byte.
  rewrite in_byte_range_true by (apply lxor_byte_range; apply ord_range).
  reflexivity.
Qed.

(** The unmasking loop of the servers computes the cycle of the specification. *)
Lemma unmask_from_spec {R} (key : bytes) (p : bytes) :
  length key = 4%nat ->
  forall i out, 0 <= i ->
    @unmask_from R key i p out = Next (out ++ xor_cycle key i p).
Proof.
  intros Hk. induction p as [|b p IH]; intros i out Hi; cbn [unmask_from xor_cycle].
  - now rewrite app_nil_r.
  - rewrite index_key by assumption. cbn [ctl_bind].
    rewrite append_xor. cbn [ctl_bind].
    rewrite IH by lia. rewrite <- app_assoc. reflexivity.
Qed.

(** So does the masking loop of the client. *)
Lemma mask_from_spec {R} (key : bytes) (p : bytes) :
  length key = 4%nat ->
  forall i out, 0 <= i ->
    @mask_from R key i p out = Next (out ++ xor_cycle key i p).
Proof.
  intros Hk. induction p as [|b p IH]; intros i out Hi; cbn [mask_from xor_cycle].
  - now rewrite app_nil_r.
  - rewrite index_key by assumption. cbn [ctl_bind].
    rewrite append_xor. cbn [ctl_bind].
    rewrite IH by lia. rewrite <- app_assoc. reflexivity.
Qed.

Lemma xor_byte_twice (a k : byte) :
  byte_of_Z (Z.lxor (ord (byte_of_Z (Z.lxor (ord a) (ord k)))) (ord k)) = a.
Proof.
  rewrite ord_byte_of_Z by (apply lxor_byte_range; apply ord_range).
  rewrite Z.lxor_assoc, Z.lxor_nilpotent, Z.lxor_0_r.
  apply byte_of_Z_ord.
Qed.

Lemma xor_cycle_involutive (key : bytes) (i : Z) (p : bytes) :
  xor_cycle key i (xor_cycle key i p) = p.
Proof.
  revert i. induction p as [|b p IH]; intros i; cbn [xor_cycle]; [reflexivity |].
  rewrite xor_byte_twice, IH. reflexivity.
Qed.

(** C4. Masking involution: for every payload [p] and every 4-byte key [k],
    the masking loop of the client's [create_frame] followed by the unmasking
    loop of the servers' decoders, with the same key, gives [p] back; neither
    loop raises. *)
Theorem masking_involution (R : Type) (p k : bytes) :
  length k = 4%nat ->
  exists m, @mask_payload R p k = Next m /\ @unmask R m k = Next p.
Proof.
  intros Hk. exists (xor_cycle k 0 p). split.
  - unfold mask_payload. now rewrite mask_from_spec by (assumption || lia).
  - unfold unmask. rewrite unmask_from_spec by (assumption || lia).
    cbn [app]. now rewrite xor_cycle_involutive.
Qed.

Lemma masking_involution_witness :
  length (hex [0x37; 0xfa; 0x21; 0x3d]) = 4%nat /\
  exists m, @mask_payload unit (hex [0x48; 0x65; 0x6c; 0x6c; 0x6f]) (hex [0x37; 0xfa; 0x21; 0x3d]) = Next m
            /\ @unmask unit m (hex [0x37; 0xfa; 0x21; 0x3d]) = Next (hex [0x48; 0x65; 0x6c; 0x6c; 0x6f]).
Proof.
  split; [reflexivity |].
  apply (masking_involution unit (hex [0x48; 0x65; 0x6c; 0x6c; 0x6f]) (hex [0x37; 0xfa; 0x21; 0x3d])).
  reflexivity.
Defined.

(** ** Slices and prefixes *)

Lemma index_firstn {R} (n : nat) (d : bytes) (i : Z) :
  0 <= i < Z.of_nat n -> @index R (firstn n d) i = index d i.
Proof.
  intros H. unfold index.
  rewrite nth_error_firstn.
  destruct (Nat.ltb_spec (Z.to_nat i) n); [reflexivity | lia].
Qed.

Lemma index_cons0 {R} (b : byte) (d : bytes) : @index R (b :: d) 0 = Next (ord b).
Proof. reflexivity. Qed.

Lemma index_cons1 {R} (a b : byte) (d : bytes) : @index R (a :: b :: d) 1 = Next (ord b).
Proof. reflexivity. Qed.

Lemma slice_firstn {A} (n : nat) (d : list A) (a b : Z) :
  0 <= a <= b -> b <= Z.of_nat n -> slice (firstn n d) a b = slice d a b.
Proof.
  intros Hab Hb. unfold slice.
  rewrite skipn_firstn_comm, firstn_firstn.
  f_equal. lia.
Qed.

Lemma slice_length {A} (d : list A) (a b : Z) :
  0 <= a <= b -> b <= len d -> length (slice d a b) = Z.to_nat (b - a).
Proof.
  intros Hab Hb. unfold slice, len in *.
  rewrite length_firstn, length_skipn. lia.
Qed.

(** The middle piece of a concatenation, cut out by its offsets. *)
Lemma slice_middle {A} (h m t : list A) (a b : Z) :
  a = len h -> b = len h + len m -> slice (h ++ m ++ t) a b = m.
Proof.
  intros -> ->. unfold slice, len.
  rewrite Nat2Z.id, skipn_app, skipn_all, Nat.sub_diag. cbn [app].
  replace (Z.to_nat _) with (length m) by lia.
  rewrite skipn_O, firstn_app, Nat.sub_diag, firstn_all, firstn_O. now rewrite app_nil_r.
Qed.

(** ** The fields of the second header byte *)

Lemma second_byte_fields (mb l : Z) :
  mb = 0 \/ mb = 128 -> 0 <= l < 128 ->
  Z.land (Z.shiftr (mb + l) 7) 1 = mb / 128 /\ Z.land (mb + l) 127 = l.
Proof.
  intros Hmb Hl.
  change 127 with (Z.ones 7). change 1 with (Z.ones 1) at 1.
  rewrite !Z.land_ones, Z.shiftr_div_pow2 by lia.
  change (2 ^ 7) with 128. change (2 ^ 1) with 2.
  destruct Hmb as [-> | ->]; split.
  - rewrite Z.add_0_l, (Z.div_small l 128) by lia. reflexivity.
  - rewrite Z.add_0_l. apply Z.mod_small. lia.
  - replace (128 + l) with (l + 1 * 128) by lia.
    rewrite Z.div_add, (Z.div_small l 128) by lia. reflexivity.
  - replace (128 + l) with (l + 1 * 128) by lia.
    rewrite Z.mod_add by lia. apply Z.mod_small. lia.
Qed.

(** ** The two server decoders are one function *)

Lemma unmask_total {R} (payload key : bytes) :
  length key = 4%nat -> @unmask R payload key = Next (xor_cycle key 0 payload).
Proof. intros Hk. unfold unmask. now rewrite unmask_from_spec by (assumption || lia). Qed.

Lemma key_slice_length (data : bytes) (off : Z) :
  0 <= off -> (len data <? off + 4) = false ->
  length (slice data off (off + 4)) = 4%nat.
Proof.
  intros H0 H. apply Z.ltb_ge in H.
  rewrite slice_length by lia. lia.
Qed.

Lemma server_decode_frame_parse (data : bytes) :
  same_frame (parse_websocket_frame data) (server_decode_frame data).
Proof.
  unfold parse_websocket_frame, server_decode_frame.
  change (2 + 2) with 4. change (2 + 8) with 10.
  unfold index, unpack_be.
  destruct (len data <? 2) eqn:E2; [exact I |].
  destruct (nth_error data (Z.to_nat 0)) as [b0|]; [| reflexivity].
  destruct (nth_error data (Z.to_nat 1)) as [b1|]; [| reflexivity].
  cbn [ctl_bind].
  repeat split_if.
  all: cbn [ctl_bind run same_frame fd_opcode fd_payload].
  all: try exact I; try reflexivity; try (split; reflexivity).
  all: rewrite ?unmask_total by (apply key_slice_length; [lia | assumption]).
  all: cbn [ctl_bind run same_frame fd_opcode fd_payload]; try (split; reflexivity).
  all: match goal with
       | H : (true && negb (len (slice ?d ?o _) =? 0)) = false |- _ =>
           unfold len in H; rewrite (key_slice_length d o) in H by (lia || assumption);
           discriminate H
       end.
Qed.

(** [parse_websocket_frame] never raises: no index is out of range, no
    [struct.unpack] is given a short string. *)
Lemma parse_websocket_frame_total (data : bytes) :
  exists r, parse_websocket_frame data = Ok r.
Proof.
  unfold parse_websocket_frame.
  change (2 + 2) with 4. change (2 + 8) with 10.
  unfold index, unpack_be.
  destruct (len data <? 2) eqn:E2; [eexists; reflexivity |].
  apply Z.ltb_ge in E2. unfold len in E2.
  destruct (nth_error data (Z.to_nat 0)) as [b0|] eqn:E0;
    [| apply nth_error_None in E0; cbn in E0; lia].
  destruct (nth_error data (Z.to_nat 1)) as [b1|] eqn:E1;
    [| apply nth_error_None in E1; cbn in E1; lia].
  cbn [ctl_bind].
  repeat split_if.
  all: cbn [ctl_bind run].
  all: rewrite ?unmask_total by (apply key_slice_length; [lia | assumption]).
  all: cbn [ctl_bind run]; try (eexists; reflexivity).
  all: match goal with
       | H : Nat.eqb (length (slice ?d ?a ?b)) _ = false,
         H' : (len ?d <? ?b) = false |- _ =>
           apply Nat.eqb_neq in H; apply Z.ltb_ge in H'; exfalso; apply H;
           rewrite slice_length by lia; reflexivity
       end.
Qed.

(** ** Decoding the bytes of a frame, whole or cut short *)

Lemma form_rel_marker (marker L : Z) (extb : bytes) :
  form_rel marker L extb -> 0 <= marker < 128.
Proof. intros [H0 [(-> & H & _) | [(-> & _) | (-> & _)]]]; lia. Qed.

(** The extended-length step, common to the three decoders. *)
Lemma ext_stage_eq {R} (none : R) (data : bytes) (n marker L : Z) (extb : bytes) :
  len data = n -> 2 <= n ->
  form_rel marker L extb ->
  (2 + len extb <= n -> slice data 2 (2 + len extb) = extb) ->
  (if marker =? 126 then
     if len data <? 4 then Return none else
     do payload_length <- unpack_be 2 (slice data 2 4) ;;
     Next (payload_length, 4)
   else if marker =? 127 then
     if len data <? 10 then Return none else
     do payload_length <- unpack_be 8 (slice data 2 10) ;;
     Next (payload_length, 10)
   else Next (marker, 2))
  = if n <? 2 + len extb then @Return R (Z * Z) none else Next (L, 2 + len extb).
Proof.
  intros Hlen Hn2 [H0 Hform] Hslice. rewrite Hlen.
  destruct Hform as [(-> & H7 & ->) | [(-> & H16 & ->) | (-> & H64 & ->)]].
  - rewrite (proj2 (Z.eqb_neq L 126)), (proj2 (Z.eqb_neq L 127)) by lia.
    change (len []) with 0. rewrite Z.add_0_r.
    now rewrite (proj2 (Z.ltb_ge n 2)) by lia.
  - cbn [Z.eqb Pos.eqb].
    assert (Hl : len (be_bytes 2 L) = 2) by (unfold len; now rewrite be_bytes_length).
    rewrite Hl in *. change (2 + 2) with 4 in *.
    destruct (Z.ltb_spec n 4) as [Hlt | Hge]; [reflexivity |].
    rewrite Hslice by lia. unfold unpack_be. rewrite be_bytes_length.
    cbn [Nat.eqb ctl_bind]. rewrite be_int_be_bytes by (change (256 ^ Z.of_nat 2) with 65536; lia).
    reflexivity.
  - cbn [Z.eqb Pos.eqb].
    assert (Hl : len (be_bytes 8 L) = 8) by (unfold len; now rewrite be_bytes_length).
    rewrite Hl in *. change (2 + 8) with 10 in *.
    destruct (Z.ltb_spec n 10) as [Hlt | Hge]; [reflexivity |].
    rewrite Hslice by lia. unfold unpack_be. rewrite be_bytes_length.
    cbn [Nat.eqb ctl_bind]. rewrite be_int_be_bytes by (change (256 ^ Z.of_nat 8) with (2 ^ 64); lia).
    reflexivity.
Qed.

Lemma layout_slices (b0 b1 : byte) (extb keyb payload extra : bytes) :
  let W := b0 :: b1 :: extb ++ keyb ++ payload ++ extra in
  slice W 2 (2 + len extb) = extb /\
  slice W (2 + len extb) (2 + len extb + len keyb) = keyb /\
  slice W (2 + len extb + len keyb) (2 + len extb + len keyb + len payload) = payload.
Proof.
  intros W. repeat split.
  - apply (slice_middle [b0; b1] extb (keyb ++ payload ++ extra)); reflexivity.
  - subst W. change (b0 :: b1 :: extb ++ keyb ++ payload ++ extra)
      with ([b0; b1] ++ extb ++ keyb ++ payload ++ extra).
    rewrite (app_assoc [b0; b1] extb).
    apply slice_middle; rewrite ?len_app; reflexivity.
  - subst W. change (b0 :: b1 :: extb ++ keyb ++ payload ++ extra)
      with ([b0; b1] ++ extb ++ keyb ++ payload ++ extra).
    rewrite (app_assoc [b0; b1] extb), (app_assoc _ keyb).
    apply slice_middle; rewrite ?len_app; reflexivity.
Qed.

(** What [parse_websocket_frame] makes of the first [n] bytes of a stream
    that starts with one frame: nothing until the frame is whole, then its
    opcode and unmasked payload, whatever follows it. *)
Lemma parse_layout (b0 : byte) (mb marker L : Z) (extb keyb payload extra : bytes) (n : nat) :
  let W := b0 :: byte_of_Z (mb + marker) :: extb ++ keyb ++ payload ++ extra in
  (n <= length W)%nat ->
  L = len payload ->
  (mb = 0 /\ keyb = []) \/ (mb = 128 /\ length keyb = 4%nat) ->
  form_rel marker L extb ->
  parse_websocket_frame (firstn n W) =
    if Z.of_nat n <? 2 + len extb + len keyb + L then Ok None
    else Ok (Some (Z.land (ord b0) 15,
                   if mb =? 0 then payload else xor_cycle keyb 0 payload)).
Proof.
  intros W Hn HL Hmask Hform.
  pose proof (form_rel_marker _ _ _ Hform) as Hmk.
  pose proof (len_nonneg extb) as He. pose proof (len_nonneg keyb) as Hk.
  pose proof (len_nonneg payload) as Hp.
  destruct (layout_slices b0 (byte_of_Z (mb + marker)) extb keyb payload extra)
    as (Sext & Skey & Spay). fold W in Sext, Skey, Spay.
  assert (Hlen : len (firstn n W) = Z.of_nat n) by now apply len_firstn.
  unfold parse_websocket_frame.
  destruct (Z.ltb_spec (len (firstn n W)) 2) as [Hlt | Hge].
  { rewrite (proj2 (Z.ltb_lt _ _)) by lia. reflexivity. }
  assert (I0 : forall R, @index R (firstn n W) 0 = Next (ord b0))
    by (intros R; rewrite index_firstn by lia; reflexivity).
  assert (I1 : forall R, @index R (firstn n W) 1 = Next (ord (byte_of_Z (mb + marker))))
    by (intros R; rewrite index_firstn by lia; reflexivity).
  rewrite I0, I1. cbn [ctl_bind].
  rewrite ord_byte_of_Z by (destruct Hmask as [[-> _] | [-> _]]; lia).
  destruct (second_byte_fields mb marker) as [Hm Hl];
    [destruct Hmask as [[-> _] | [-> _]]; auto | lia |].
  rewrite Hm, Hl. change (2 + 2) with 4. change (2 + 8) with 10.
  rewrite (ext_stage_eq None (firstn n W) (Z.of_nat n) marker L extb);
    [| exact Hlen | lia | exact Hform
     | intros H; rewrite slice_firstn by lia; exact Sext].
  destruct (Z.ltb_spec (Z.of_nat n) (2 + len extb)) as [Hlt1 | Hge1].
  { rewrite (proj2 (Z.ltb_lt _ _)) by lia. reflexivity. }
  cbn [ctl_bind]. rewrite Hlen.
  destruct Hmask as [[-> ->] | [-> Hkey]].
  - change (0 / 128) with 0. cbn [Z.eqb negb ctl_bind].
    change (len []) with 0 in *. rewrite Z.add_0_r in *.
    destruct (Z.ltb_spec (Z.of_nat n) (2 + len extb + L)) as [Hlt2 | Hge2];
      [reflexivity |].
    cbn [ctl_bind run]. rewrite slice_firstn by lia.
    subst L. rewrite Spay. reflexivity.
  - change (128 / 128) with 1. cbn [Z.eqb negb ctl_bind].
    assert (Hk4 : len keyb = 4) by (unfold len; lia). rewrite Hk4 in *.
    destruct (Z.ltb_spec (Z.of_nat n) (2 + len extb + 4)) as [Hlt2 | Hge2].
    { rewrite (proj2 (Z.ltb_lt _ _)) by lia. reflexivity. }
    cbn [ctl_bind].
    destruct (Z.ltb_spec (Z.of_nat n) (2 + len extb + 4 + L)) as [Hlt3 | Hge3];
      [reflexivity |].
    rewrite !slice_firstn by lia. subst L. rewrite Skey, Spay.
    rewrite Hk4. cbn [Z.eqb negb andb].
    rewrite unmask_total by exact Hkey. reflexivity.
Qed.

(** The bytes of a frame of the specification have the layout of
    [parse_layout]. *)
Lemma wire_layout (f : wire_frame) :
  wire_ok f ->
  exists mb marker extb keyb,
    wire_bytes f = wf_first f :: byte_of_Z (mb + marker) :: extb ++ keyb ++ wf_payload f /\
    ((mb = 0 /\ keyb = [] /\ wf_key f = None) \/
     (mb = 128 /\ length keyb = 4%nat /\ wf_key f = Some keyb)) /\
    form_rel marker (len (wf_payload f)) extb /\
    len (wire_bytes f) = 2 + len extb + len keyb + len (wf_payload f).
Proof.
  destruct f as [b0 form key payload]. unfold wire_ok, wire_bytes, length_field, mask_bit.
  cbn [wf_first wf_form wf_key wf_payload]. intros [Hlim Hkey].
  pose proof (len_nonneg payload) as Hp.
  exists (match key with Some _ => 128 | None => 0 end).
  exists (match form with Len7 => len payload | Len16 => 126 | Len64 => 127 end).
  exists (match form with Len7 => [] | Len16 => be_bytes 2 (len payload)
                     | Len64 => be_bytes 8 (len payload) end).
  exists (default [] key).
  split; [destruct form; reflexivity |].
  split; [destruct key; cbn; auto |].
  split.
  - split; [exact Hp |]. destruct form; cbn [form_limit] in Hlim; auto 6.
  - assert (L2 : len (be_bytes 2 (len payload)) = 2)
      by (unfold len at 1; now rewrite be_bytes_length).
    assert (L8 : len (be_bytes 8 (len payload)) = 8)
      by (unfold len at 1; now rewrite be_bytes_length).
    destruct form; cbn [app]; rewrite ?len_cons, ?len_app, ?len_cons, ?len_app, ?L2, ?L8;
      change (len (@nil byte)) with 0; lia.
Qed.

Lemma parse_wire_prefix (f : wire_frame) (extra : bytes) (n : nat) :
  wire_ok f -> (n <= length (wire_bytes f ++ extra))%nat ->
  parse_websocket_frame (firstn n (wire_bytes f ++ extra)) =
    if Z.of_nat n <? len (wire_bytes f) then Ok None
    else Ok (Some (wire_opcode f, wire_payload f)).
Proof.
  intros Hok Hn.
  destruct (wire_layout f Hok) as (mb & marker & extb & keyb & HW & Hmask & Hform & Hlen).
  rewrite Hlen. rewrite HW in *. cbn [app] in *. rewrite <- !app_assoc in *.
  rewrite (parse_layout (wf_first f) mb marker (len (wf_payload f)) extb keyb
             (wf_payload f) extra n Hn eq_refl); [| | exact Hform].
  - unfold wire_opcode, wire_payload.
    destruct Hmask as [(-> & -> & ->) | (-> & _ & ->)]; reflexivity.
  - destruct Hmask as [(-> & -> & _) | (-> & ? & _)]; auto.
Qed.

(** A whole frame decodes to its opcode and unmasked payload; the bytes after
    it play no part. *)
Lemma parse_whole_frame (f : wire_frame) (extra : bytes) :
  wire_ok f ->
  parse_websocket_frame (wire_bytes f ++ extra) = Ok (Some (wire_opcode f, wire_payload f)).
Proof.
  intros Hok.
  rewrite <- (firstn_all (wire_bytes f ++ extra)) at 1.
  rewrite parse_wire_prefix by (assumption || lia).
  rewrite length_app, (proj2 (Z.ltb_ge _ _)) by (unfold len; lia). reflexivity.
Qed.

Lemma server_decode_frame_None (data : bytes) :
  parse_websocket_frame data = Ok None -> server_decode_frame data = Ok None.
Proof.
  intros H. pose proof (server_decode_frame_parse data) as S. rewrite H in S.
  unfold same_frame in S.
  destruct (server_decode_frame data) as [[d|]|]; [contradiction | reflexivity | contradiction].
Qed.

Lemma server_decode_frame_Some (data : bytes) (opcode : Z) (payload : bytes) :
  parse_websocket_frame data = Ok (Some (opcode, payload)) ->
  exists d, server_decode_frame data = Ok (Some d) /\
            fd_opcode d = opcode /\ fd_payload d = payload.
Proof.
  intros H. pose proof (server_decode_frame_parse data) as S. rewrite H in S.
  unfold same_frame in S.
  destruct (server_decode_frame data) as [[d|]|]; [| contradiction | contradiction].
  exists d. tauto.
Qed.

(** A frame cut short gives no frame. *)
Lemma parse_strict_prefix (f : wire_frame) (n : nat) :
  wire_ok f -> (n < length (wire_bytes f))%nat ->
  parse_websocket_frame (firstn n (wire_bytes f)) = Ok None.
Proof.
  intros Hok Hn. rewrite <- (app_nil_r (wire_bytes f)).
  rewrite parse_wire_prefix by (rewrite ?length_app; assumption || lia).
  rewrite (proj2 (Z.ltb_lt _ _)) by (unfold len; lia). reflexivity.
Qed.

(** The decoder of [simple_ws_server.py] does not raise either. *)
Lemma server_decode_frame_total (data : bytes) :
  exists r, server_decode_frame data = Ok r.
Proof.
  destruct (parse_websocket_frame_total data) as [[[opcode payload]|] H].
  - destruct (server_decode_frame_Some _ _ _ H) as (d & Hd & _). eauto.
  - rewrite (server_decode_frame_None _ H). eauto.
Qed.

(** C2. Partial-buffer safety: every buffer that stops short of the end of a
    frame, wherever the cut falls (in the two header bytes, inside the 16-bit
    or 64-bit length field, inside the mask key or inside the payload),
    makes [parse_websocket_frame] and [SimpleWebSocketServer.decode_frame]
    return their no-frame result; neither raises. *)
Theorem partial_buffer_needs_more_data (f : wire_frame) (n : nat) :
  wire_ok f -> (n < length (wire_bytes f))%nat ->
  parse_websocket_frame (firstn n (wire_bytes f)) = Ok None /\
  server_decode_frame (firstn n (wire_bytes f)) = Ok None.
Proof.
  intros Hok Hn. split.
  - now apply parse_strict_prefix.
  - apply server_decode_frame_None. now apply parse_strict_prefix.
Qed.

Lemma partial_buffer_needs_more_data_witness :
  wire_ok hello_frame /\ (7 < length (wire_bytes hello_frame))%nat /\
  parse_websocket_frame (firstn 7 (wire_bytes hello_frame)) = Ok None /\
  server_decode_frame (firstn 7 (wire_bytes hello_frame)) = Ok None.
Proof.
  assert (Hok : wire_ok hello_frame) by (split; reflexivity).
  assert (Hn : (7 < length (wire_bytes hello_frame))%nat) by (vm_compute; lia).
  split; [exact Hok | split; [exact Hn |]].
  exact (partial_buffer_needs_more_data hello_frame 7 Hok Hn).
Defined.

(** ** Encoding *)

Lemma lor_128_opcode (opcode : Z) :
  0 <= opcode < 16 -> Z.lor 128 opcode = 128 + opcode /\ Z.land (128 + opcode) 15 = opcode.
Proof.
  intros H.
  assert (C : opcode = 0 \/ opcode = 1 \/ opcode = 2 \/ opcode = 3 \/ opcode = 4 \/
              opcode = 5 \/ opcode = 6 \/ opcode = 7 \/ opcode = 8 \/ opcode = 9 \/
              opcode = 10 \/ opcode = 11 \/ opcode = 12 \/ opcode = 13 \/
              opcode = 14 \/ opcode = 15) by lia.
  repeat (destruct C as [-> | C]; [split; reflexivity |]).
  subst. split; reflexivity.
Qed.

Lemma server_frame_ok (opcode : Z) (payload : bytes) :
  len payload < 2 ^ 64 -> wire_ok (server_frame opcode payload).
Proof.
  intros H. unfold wire_ok, server_frame. cbn [wf_payload wf_form wf_key].
  split; [| exact I].
  destruct (Z.ltb_spec (len payload) 126); [cbn; lia |].
  destruct (Z.ltb_spec (len payload) 65536); cbn [form_limit]; lia.
Qed.

(** [create_websocket_frame] writes exactly that frame, and does not raise. *)
Lemma create_websocket_frame_wire (opcode : Z) (payload : bytes) :
  0 <= opcode < 16 -> len payload < 2 ^ 64 ->
  create_websocket_frame opcode payload = Ok (wire_bytes (server_frame opcode payload)).
Proof.
  intros Hop Hlen. pose proof (len_nonneg payload) as Hp.
  destruct (lor_128_opcode opcode Hop) as [Hlor _].
  unfold create_websocket_frame, wire_bytes, server_frame, length_field, mask_bit.
  cbn [wf_first wf_form wf_key wf_payload default].
  rewrite Hlor. unfold append_byte at 1.
  rewrite in_byte_range_true by lia. cbn [ctl_bind app].
  destruct (Z.ltb_spec (len payload) 126) as [H7 | H7].
  - unfold append_byte. rewrite in_byte_range_true by lia. reflexivity.
  - destruct (Z.ltb_spec (len payload) 65536) as [H16 | H16].
    + unfold append_byte, pack_be. cbn [in_byte_range Z.leb Z.ltb Z.compare Pos.compare Pos.compare_cont andb ctl_bind].
      change (256 ^ Z.of_nat 2) with 65536.
      rewrite (proj2 (Z.leb_le 0 _)), (proj2 (Z.ltb_lt _ 65536)) by lia.
      reflexivity.
    + unfold append_byte, pack_be. cbn [in_byte_range Z.leb Z.ltb Z.compare Pos.compare Pos.compare_cont andb ctl_bind].
      change (256 ^ Z.of_nat 8) with (2 ^ 64).
      rewrite (proj2 (Z.leb_le 0 _)), (proj2 (Z.ltb_lt _ (2 ^ 64))) by lia.
      reflexivity.
Qed.

(** The frame written by [create_websocket_frame] decodes to what was
    encoded. *)
Lemma parse_created_frame (opcode : Z) (payload : bytes) :
  0 <= opcode < 16 -> len payload < 2 ^ 64 ->
  parse_websocket_frame (wire_bytes (server_frame opcode payload))
  = Ok (Some (opcode, payload)).
Proof.
  intros Hop Hlen. destruct (lor_128_opcode opcode Hop) as [_ Hland].
  rewrite <- (app_nil_r (wire_bytes _)).
  rewrite parse_whole_frame by now apply server_frame_ok.
  unfold wire_opcode, wire_payload, server_frame. cbn [wf_first wf_key wf_payload].
  rewrite ord_byte_of_Z by lia. now rewrite Hland.
Qed.

(** C3. Round trip: for every opcode of four bits and every payload (shorter
    than [2^64] bytes), [create_websocket_frame] returns a frame that
    [parse_websocket_frame] decodes to the same opcode and payload; the frame
    carries its length in the 7-bit field below 126, after the marker 126 on
    16 big-endian bits below 65536, after the marker 127 on 64 big-endian
    bits otherwise. *)
Theorem encode_decode_roundtrip (opcode : Z) (payload : bytes) :
  0 <= opcode < 16 -> len payload < 2 ^ 64 ->
  exists frame,
    create_websocket_frame opcode payload = Ok frame /\
    parse_websocket_frame frame = Ok (Some (opcode, payload)) /\
    frame = byte_of_Z (Z.lor 128 opcode)
              :: (if len payload <? 126 then [byte_of_Z (len payload)]
                  else if len payload <? 65536
                       then byte_of_Z 126 :: be_bytes 2 (len payload)
                       else byte_of_Z 127 :: be_bytes 8 (len payload))
              ++ payload.
Proof.
  intros Hop Hlen. exists (wire_bytes (server_frame opcode payload)).
  destruct (lor_128_opcode opcode Hop) as [Hlor Hland].
  split; [now apply create_websocket_frame_wire |]. split.
  - now apply parse_created_frame.
  - rewrite Hlor. unfold wire_bytes, server_frame, length_field, mask_bit.
    cbn [wf_first wf_form wf_key wf_payload default app].
    destruct (len payload <? 126); [reflexivity |].
    destruct (len payload <? 65536); reflexivity.
Qed.

Lemma encode_decode_roundtrip_witness :
  0 <= 1 < 16 /\ len (hex [0x68; 0x69]) < 2 ^ 64 /\
  exists frame,
    create_websocket_frame 1 (hex [0x68; 0x69]) = Ok frame /\
    parse_websocket_frame frame = Ok (Some (1, hex [0x68; 0x69])) /\
    frame = byte_of_Z (Z.lor 128 1)
              :: (if len (hex [0x68; 0x69]) <? 126 then [byte_of_Z (len (hex [0x68; 0x69]))]
                  else if len (hex [0x68; 0x69]) <? 65536
                       then byte_of_Z 126 :: be_bytes 2 (len (hex [0x68; 0x69]))
                       else byte_of_Z 127 :: be_bytes 8 (len (hex [0x68; 0x69])))
              ++ hex [0x68; 0x69].
Proof.
  assert (H1 : 0 <= 1 < 16) by lia.
  assert (H2 : len (hex [0x68; 0x69]) < 2 ^ 64) by reflexivity.
  split; [exact H1 | split; [exact H2 |]].
  exact (encode_decode_roundtrip 1 (hex [0x68; 0x69]) H1 H2).
Defined.

(** ** From the client's encoder to the server's decoder *)

Lemma lor_128_small (l : Z) : 0 <= l < 128 -> Z.lor 128 l = 128 + l.
Proof.
  intros H.
  assert (Hland : Z.land 128 l = 0).
  { apply Z.bits_inj'. intros n Hn. rewrite Z.land_spec, Z.bits_0.
    change 128 with (2 ^ 7). rewrite Z.pow2_bits_eqb by lia.
    destruct (Z.eqb_spec 7 n) as [<- | Hne]; [| reflexivity].
    cbn [andb]. destruct (Z.eq_dec l 0) as [-> | Hl0]; [reflexivity |].
    apply Z.bits_above_log2; [lia |]. apply Z.log2_lt_pow2; lia. }
  rewrite <- Z.lxor_lor by exact Hland.
  symmetry. now apply Z.add_nocarry_lxor.
Qed.

Lemma client_frame_ok (opcode rnd : Z) (payload : bytes) :
  len payload < 2 ^ 64 -> wire_ok (client_frame opcode rnd payload).
Proof.
  intros H. unfold wire_ok, client_frame. cbn [wf_payload wf_form wf_key].
  assert (E : len (xor_cycle (be_bytes 4 rnd) 0 payload) = len payload)
    by (unfold len; now rewrite xor_cycle_length).
  rewrite E. split; [| apply be_bytes_length].
  destruct (Z.ltb_spec (len payload) 126); [cbn; lia |].
  destruct (Z.ltb_spec (len payload) 65536); cbn [form_limit]; lia.
Qed.

(** [SimpleWebSocketClient.create_frame] writes exactly that frame. *)
Lemma create_frame_wire (payload : bytes) (opcode rnd : Z) :
  0 <= opcode < 16 -> 0 <= rnd < 2 ^ 32 -> len payload < 2 ^ 64 ->
  create_frame payload opcode rnd = Some (wire_bytes (client_frame opcode rnd payload)).
Proof.
  intros Hop Hrnd Hlen. pose proof (len_nonneg payload) as Hp.
  destruct (lor_128_opcode opcode Hop) as [Hlor _].
  assert (E : len (xor_cycle (be_bytes 4 rnd) 0 payload) = len payload)
    by (unfold len; now rewrite xor_cycle_length).
  unfold create_frame, create_frame_body, wire_bytes, client_frame, length_field, mask_bit.
  cbn [wf_first wf_form wf_key wf_payload default].
  rewrite Hlor, E. unfold pack_be at 1. change (256 ^ Z.of_nat 4) with (2 ^ 32).
  rewrite (proj2 (Z.leb_le 0 rnd)), (proj2 (Z.ltb_lt rnd (2 ^ 32))) by lia.
  cbn [andb ctl_bind]. unfold mask_payload.
  rewrite mask_from_spec by (apply be_bytes_length || lia). cbn [app].
  unfold pack_B, pack_be. rewrite (in_byte_range_true (128 + opcode)) by lia.
  destruct (Z.ltb_spec (len payload) 126) as [H7 | H7].
  - rewrite lor_128_small by lia.
    rewrite in_byte_range_true by lia. reflexivity.
  - destruct (Z.ltb_spec (len payload) 65536) as [H16 | H16].
    + change (256 ^ Z.of_nat 2) with 65536.
      rewrite (proj2 (Z.leb_le 0 _)), (proj2 (Z.ltb_lt _ 65536)) by lia.
      reflexivity.
    + change (256 ^ Z.of_nat 8) with (2 ^ 64).
      rewrite (proj2 (Z.leb_le 0 _)), (proj2 (Z.ltb_lt _ (2 ^ 64))) by lia.
      reflexivity.
Qed.

(** What the client masks and sends, the decoder of [WS_Server.py] unmasks
    and returns. *)
Lemma client_to_server_roundtrip (payload : bytes) (opcode rnd : Z) :
  0 <= opcode < 16 -> 0 <= rnd < 2 ^ 32 -> len payload < 2 ^ 64 ->
  exists frame,
    create_frame payload opcode rnd = Some frame /\
    parse_websocket_frame frame = Ok (Some (opcode, payload)).
Proof.
  intros Hop Hrnd Hlen. exists (wire_bytes (client_frame opcode rnd payload)).
  split; [now apply create_frame_wire |].
  rewrite <- (app_nil_r (wire_bytes _)).
  rewrite parse_whole_frame by now apply client_frame_ok.
  destruct (lor_128_opcode opcode Hop) as [_ Hland].
  unfold wire_opcode, wire_payload, client_frame. cbn [wf_first wf_key wf_payload].
  rewrite ord_byte_of_Z, Hland, xor_cycle_involutive by lia. reflexivity.
Qed.

(** ** The client decoder *)

(** [SimpleWebSocketClient.decode_frame] on a buffer that holds a header and
    at least as many bytes after it as the header declares: those bytes are
    the payload, mask bit or not. *)
Lemma client_decode_layout (b0 : byte) (mb marker L : Z) (extb rest : bytes) :
  mb = 0 \/ mb = 128 ->
  form_rel marker L extb ->
  L <= len rest ->
  client_decode_frame (b0 :: byte_of_Z (mb + marker) :: extb ++ rest) =
    Ok (Some (FrameDict (Z.land (Z.shiftr (ord b0) 7) 1) (Z.land (ord b0) 15)
                        (firstn (Z.to_nat L) rest) L)).
Proof.
  intros Hmb Hform HL.
  pose proof (form_rel_marker _ _ _ Hform) as Hmk.
  pose proof (len_nonneg extb) as He. destruct Hform as [H0 Hf].
  set (W := b0 :: byte_of_Z (mb + marker) :: extb ++ rest).
  assert (Hlen : len W = 2 + len extb + len rest)
    by (unfold W; rewrite !len_cons, len_app; lia).
  unfold client_decode_frame.
  destruct (Z.ltb_spec (len W) 2) as [Hlt | _]; [lia |].
  unfold W at 1 2. rewrite index_cons0, index_cons1. cbn [ctl_bind].
  rewrite ord_byte_of_Z by (destruct Hmb as [-> | ->]; lia).
  destruct (second_byte_fields mb marker Hmb Hmk) as [_ Hl]. rewrite Hl.
  rewrite (ext_stage_eq None W (len W) marker L extb);
    [| reflexivity | lia | split; assumption
     | intros _; apply (slice_middle [b0; byte_of_Z (mb + marker)] extb rest); reflexivity].
  rewrite (proj2 (Z.ltb_ge _ _)) by lia. cbn [ctl_bind].
  rewrite (proj2 (Z.ltb_ge _ _)) by lia. cbn [run].
  do 3 f_equal. unfold slice.
  replace (Z.to_nat (2 + len extb)) with (length ([b0; byte_of_Z (mb + marker)] ++ extb))
    by (rewrite length_app; cbn [length]; unfold len; lia).
  unfold W. change (b0 :: byte_of_Z (mb + marker) :: extb ++ rest)
    with (([b0; byte_of_Z (mb + marker)] ++ extb) ++ rest) at 1.
  rewrite skipn_app, skipn_all, Nat.sub_diag, skipn_O. cbn [app].
  f_equal. lia.
Qed.

(** When the mask bit is clear the client decoder and the decoder of
    [simple_ws_server.py] are the same function. *)
Lemma client_decode_unmasked (data : bytes) :
  (forall b1, nth_error data 1 = Some b1 -> Z.land (Z.shiftr (ord b1) 7) 1 = 0) ->
  client_decode_frame data = server_decode_frame data.
Proof.
  intros Hbit. unfold client_decode_frame, server_decode_frame.
  unfold index.
  destruct (len data <? 2) eqn:E2; [reflexivity |].
  destruct (nth_error data (Z.to_nat 0)) as [b0|]; [| reflexivity].
  change (Z.to_nat 1) with 1%nat.
  destruct (nth_error data 1) as [b1|]; [| reflexivity].
  cbn [ctl_bind]. rewrite (Hbit b1 eq_refl). cbn [Z.eqb negb].
  repeat split_if; reflexivity.
Qed.

Lemma client_decode_wire (f : wire_frame) :
  wire_ok f ->
  client_decode_frame (wire_bytes f) =
    Ok (Some (FrameDict (Z.land (Z.shiftr (ord (wf_first f)) 7) 1) (wire_opcode f)
                (firstn (length (wf_payload f)) (default [] (wf_key f) ++ wf_payload f))
                (len (wf_payload f)))).
Proof.
  intros Hok.
  destruct (wire_layout f Hok) as (mb & marker & extb & keyb & HW & Hmask & Hform & Hlen).
  rewrite HW.
  rewrite (client_decode_layout (wf_first f) mb marker (len (wf_payload f)) extb
             (keyb ++ wf_payload f)); [| | exact Hform |].
  - unfold len. rewrite Nat2Z.id.
    destruct Hmask as [(_ & -> & ->) | (_ & _ & ->)]; reflexivity.
  - destruct Hmask as [(-> & _) | (-> & _)]; auto.
  - rewrite len_app. pose proof (len_nonneg keyb). lia.
Qed.

(** C10, as amended. On the bytes of a whole frame the three decoders agree
    on the opcode. On an unmasked frame they agree on the payload too. On a
    masked frame the two server decoders return the unmasked payload, while
    the client's [decode_frame] returns the bytes that follow the length
    field, as many as the declared length: the mask key, then masked payload
    bytes. That differs from the servers' payload at least whenever the
    payload is not empty and its first byte, unmasked, is not the first byte
    of the key. *)
Theorem decoders_compared (f : wire_frame) :
  wire_ok f ->
  exists ds dc,
    parse_websocket_frame (wire_bytes f) = Ok (Some (wire_opcode f, wire_payload f)) /\
    server_decode_frame (wire_bytes f) = Ok (Some ds) /\
    fd_opcode ds = wire_opcode f /\ fd_payload ds = wire_payload f /\
    client_decode_frame (wire_bytes f) = Ok (Some dc) /\
    fd_opcode dc = wire_opcode f /\
    fd_payload dc = firstn (length (wf_payload f)) (default [] (wf_key f) ++ wf_payload f) /\
    (wf_key f = None -> fd_payload dc = wire_payload f) /\
    (forall key b rest,
        wf_key f = Some key -> wire_payload f = b :: rest -> nth 0 key x00 <> b ->
        fd_payload dc <> wire_payload f).
Proof.
  intros Hok.
  assert (P : parse_websocket_frame (wire_bytes f) = Ok (Some (wire_opcode f, wire_payload f))).
  { rewrite <- (app_nil_r (wire_bytes f)). now apply parse_whole_frame. }
  destruct (server_decode_frame_Some _ _ _ P) as (ds & Hs & Hso & Hsp).
  eexists ds, _. split; [exact P |]. split; [exact Hs |].
  split; [exact Hso |]. split; [exact Hsp |].
  split; [now apply client_decode_wire |]. cbn [fd_opcode fd_payload].
  split; [reflexivity |]. split; [reflexivity |]. split.
  - intros Hk. unfold wire_payload. rewrite Hk. cbn [default app]. apply firstn_all.
  - intros key b rest Hk Hp Hne Heq. rewrite Hk in Heq. cbn [default] in Heq.
    destruct Hok as [_ Hkey]. rewrite Hk in Hkey.
    assert (Hl : length (wf_payload f) = S (length rest)).
    { unfold wire_payload in Hp. rewrite Hk in Hp.
      rewrite <- (xor_cycle_length key 0 (wf_payload f)), Hp. reflexivity. }
    rewrite Hl, Hp in Heq.
    destruct key as [|k0 key']; [discriminate Hkey |].
    cbn [app firstn nth] in *. injection Heq as E _. contradiction.
Qed.

Lemma decoders_compared_witness :
  wire_ok hello_frame /\
  exists ds dc,
    parse_websocket_frame (wire_bytes hello_frame)
      = Ok (Some (wire_opcode hello_frame, wire_payload hello_frame)) /\
    server_decode_frame (wire_bytes hello_frame) = Ok (Some ds) /\
    fd_opcode ds = wire_opcode hello_frame /\ fd_payload ds = wire_payload hello_frame /\
    client_decode_frame (wire_bytes hello_frame) = Ok (Some dc) /\
    fd_opcode dc = wire_opcode hello_frame /\
    fd_payload dc = firstn (length (wf_payload hello_frame))
                      (default [] (wf_key hello_frame) ++ wf_payload hello_frame) /\
    (wf_key hello_frame = None -> fd_payload dc = wire_payload hello_frame) /\
    (forall key b rest,
        wf_key hello_frame = Some key -> wire_payload hello_frame = b :: rest ->
        nth 0 key x00 <> b -> fd_payload dc <> wire_payload hello_frame).
Proof.
  assert (Hok : wire_ok hello_frame) by (split; reflexivity).
  split; [exact Hok |]. exact (decoders_compared hello_frame Hok).
Defined.

(** C10, as first stated, fails: key [01 02 03 04] masks the one-byte payload
    [01] into [00], so masking alters the bytes, yet the client decoder,
    reading the first key byte as the payload, returns [01] as the servers do. *)
Lemma client_payload_may_coincide :
  ~ (forall (f : wire_frame) (key : bytes) (d : frame_dict),
        wire_ok f -> wf_key f = Some key ->
        wire_payload f <> wf_payload f ->
        client_decode_frame (wire_bytes f) = Ok (Some d) ->
        parse_websocket_frame (wire_bytes f) <> Ok (Some (fd_opcode d, fd_payload d))).
Proof.
  intros H.
  apply (H (WireFrame (byte_of_Z 0x81) Len7 (Some (hex [1; 2; 3; 4])) (hex [0]))
           (hex [1; 2; 3; 4]) (FrameDict 1 1 (hex [1]) 1)).
  - split; reflexivity.
  - reflexivity.
  - cbv. discriminate.
  - reflexivity.
  - reflexivity.
Qed.

(** ** The accept key *)

(** C5. The accept key is [base64(sha1(key + GUID))] in the three places that
    compute it, it does not depend on the object the method is called on, and
    the sample key of RFC 6455 gives the sample accept key. *)
Theorem accept_key_function :
  (forall key,
      create_websocket_accept_key key
      = Base64.b64encode
          (SHA1.digest (encode_utf8 (key ++ "258EAFA5-E914-47DA-95CA-C5AB0DC85B11")))) /\
  (forall self key, generate_accept_key self key = create_websocket_accept_key key) /\
  (forall self1 self2 key, generate_accept_key self1 key = generate_accept_key self2 key) /\
  (forall key, expected_accept key = create_websocket_accept_key key) /\
  create_websocket_accept_key "dGhlIHNhbXBsZSBub25jZQ==" = "s3pPLMBiTxaQ9kYGzzhZRbK+xOo="%string /\
  (forall self,
      generate_accept_key self "dGhlIHNhbXBsZSBub25jZQ==" = "s3pPLMBiTxaQ9kYGzzhZRbK+xOo="%string) /\
  expected_accept "dGhlIHNhbXBsZSBub25jZQ==" = "s3pPLMBiTxaQ9kYGzzhZRbK+xOo="%string.
Proof.
  assert (V : create_websocket_accept_key "dGhlIHNhbXBsZSBub25jZQ=="
              = "s3pPLMBiTxaQ9kYGzzhZRbK+xOo="%string) by (vm_compute; reflexivity).
  repeat split; try reflexivity; try exact V; intros self; exact V.
Qed.

(** ** The server handshake *)

Lemma ascii_byte_small (c : ascii) :
  is_ascii_char c = true -> (ord (byte_of_ascii c) <? 128) = true.
Proof.
  destruct c as [[] [] [] [] [] [] [] []]; vm_compute; intros H; congruence.
Qed.

Lemma utf8_valid_ascii (s : string) :
  is_ascii s = true -> utf8_valid (list_byte_of_string s) = true.
Proof.
  induction s as [|c s IH]; [reflexivity |].
  cbn [is_ascii]. intros H. apply andb_prop in H as [Hc Hs].
  change (list_byte_of_string (String c s))
    with (byte_of_ascii c :: list_byte_of_string s).
  cbn [utf8_valid]. rewrite (ascii_byte_small c Hc). now apply IH.
Qed.

Lemma decode_encode_ascii {R} (s : string) :
  is_ascii s = true -> @decode_utf8 R (encode_utf8 s) = Next s.
Proof.
  intros H. unfold decode_utf8, encode_utf8.
  now rewrite utf8_valid_ascii, string_of_list_byte_of_string.
Qed.

Lemma prefix_empty (s : string) : String.prefix EmptyString s = true.
Proof. destruct s; reflexivity. Qed.

Lemma lower_char_colon (c : ascii) : lower_char c = ":"%char -> c = ":"%char.
Proof.
  destruct c as [[] [] [] [] [] [] [] []]; vm_compute; intros H; congruence.
Qed.

(** A line that passes the test of the loop has its first colon right after
    the seventeen characters of the header name: [line.split(':', 1)[1]] is
    the rest of the line and never raises. *)
Lemma key_line_shape (line : string) :
  startswith (lower line) "sec-websocket-key:" = true ->
  split1 line ":" = [substring 0 17 line; string_drop 18 line].
Proof.
  unfold startswith. intros H.
  do 17 (destruct line as [|?c line]; [discriminate H |];
         cbn [lower String.prefix] in H;
         match type of H with
         | match ascii_dec ?a ?b with _ => _ end = _ =>
             destruct (ascii_dec a b) as [?E | ?E]; [| discriminate H]
         end).
  destruct line as [|c17 line]; [discriminate H |].
  cbn [lower String.prefix] in H.
  destruct (ascii_dec ":" (lower_char c17)) as [E17 | E17]; [| discriminate H].
  symmetry in E17. apply lower_char_colon in E17. subst c17.
  unfold split1.
  repeat (cbn [split1_from String.prefix];
          match goal with
          | E : _ = lower_char ?c |- context [ascii_dec ":"%char ?c] =>
              destruct (ascii_dec ":" c) as [<- | _];
              [vm_compute in E; discriminate E | clear E]
          end).
  cbn [split1_from String.prefix].
  destruct (ascii_dec ":" ":") as [_ | Hcolon]; [| now contradiction Hcolon].
  rewrite prefix_empty. reflexivity.
Qed.

Lemma find_websocket_key_spec {R} (lines : list string) :
  @WSServer.find_websocket_key R lines
  = Next (option_map (fun line => strip (string_drop 18 line)) (find is_key_line lines)).
Proof.
  induction lines as [|line lines IH]; [reflexivity |].
  cbn [WSServer.find_websocket_key find]. fold (is_key_line line).
  destruct (is_key_line line) eqn:E; [| exact IH].
  rewrite (key_line_shape line E). reflexivity.
Qed.

(** C6, as amended. For an ASCII request text, [perform_websocket_handshake]
    of [WS_Server.py] takes the first line that starts, whatever the letter
    case, with [sec-websocket-key:], and as key what follows that colon,
    stripped. It returns [False], having sent nothing, exactly when there is
    no such line or when the key so obtained is empty; otherwise it sends
    the 101 response with the accept key of that key and returns [True]. *)
Theorem handshake_outcome (c : sock) (request : string) :
  is_ascii request = true ->
  WSServer.perform_websocket_handshake c (RecvData (encode_utf8 request)) =
    let seen := WSServer.Log WSServer.INFO
                  (WSServer.HandshakeRequest (substring 0 200 request)) in
    let refused := (false, [seen; WSServer.Log WSServer.ERROR WSServer.NoKeyFound]) in
    match find is_key_line (split request CRLF) with
    | None => refused
    | Some line =>
        match strip (string_drop 18 line) with
        | EmptyString => refused
        | key =>
            (true,
             [seen;
              WSServer.Send c
                (encode_utf8
                   ("HTTP/1.1 101 Switching Protocols" ++ CRLF ++
                    "Upgrade: websocket" ++ CRLF ++
                    "Connection: Upgrade" ++ CRLF ++
                    "Sec-WebSocket-Accept: " ++ create_websocket_accept_key key ++ CRLF ++
                    CRLF)%string);
              WSServer.Log WSServer.INFO WSServer.HandshakeCompleted])
        end
    end.
Proof.
  intros Hascii. unfold WSServer.perform_websocket_handshake.
  rewrite decode_encode_ascii by exact Hascii. cbn [run].
  rewrite find_websocket_key_spec. cbn [run].
  destruct (find is_key_line (split request CRLF)) as [line|]; [| reflexivity].
  cbn [option_map WSServer.key_missing].
  destruct (strip (string_drop 18 line)); reflexivity.
Qed.

Lemma handshake_outcome_witness :
  is_ascii sample_request = true /\
  WSServer.perform_websocket_handshake 7%nat (RecvData (encode_utf8 sample_request)) =
    (true,
     [WSServer.Log WSServer.INFO (WSServer.HandshakeRequest sample_request);
      WSServer.Send 7%nat
        (encode_utf8
           ("HTTP/1.1 101 Switching Protocols" ++ CRLF ++
            "Upgrade: websocket" ++ CRLF ++
            "Connection: Upgrade" ++ CRLF ++
            "Sec-WebSocket-Accept: s3pPLMBiTxaQ9kYGzzhZRbK+xOo=" ++ CRLF ++
            CRLF)%string);
      WSServer.Log WSServer.INFO WSServer.HandshakeCompleted]).
Proof.
  assert (H : is_ascii sample_request = true) by reflexivity.
  split; [exact H |].
  rewrite (handshake_outcome 7%nat sample_request H).
  vm_compute. reflexivity.
Defined.

(** C6, as first stated, fails: a request can carry the header, in the very
    spelling [Sec-WebSocket-Key], and still be refused, because the value
    after the colon is blank. *)
Lemma handshake_refused_with_header_present :
  let request := ("GET / HTTP/1.1" ++ CRLF ++ "Sec-WebSocket-Key: " ++ CRLF ++ CRLF)%string in
  In "Sec-WebSocket-Key: "%string (split request CRLF) /\
  is_key_line "Sec-WebSocket-Key: " = true /\
  WSServer.perform_websocket_handshake 0%nat (RecvData (encode_utf8 request))
  = (false, [WSServer.Log WSServer.INFO (WSServer.HandshakeRequest request);
             WSServer.Log WSServer.ERROR WSServer.NoKeyFound]).
Proof.
  cbv zeta. split; [| split].
  - vm_compute. right. left. reflexivity.
  - reflexivity.
  - vm_compute. reflexivity.
Qed.

(** [SimpleWebSocketServer.perform_handshake] compares the header name as it
    is spelt: the request that [WS_Server.py] accepts above is refused. *)
Lemma simple_handshake_case_sensitive (self : simple_server) :
  fst (SimpleServer.perform_handshake self 7%nat (RecvData (encode_utf8 sample_request))) = false.
Proof. vm_compute. reflexivity. Qed.

(** ** The read loops *)

Lemma wire_bytes_not_empty (f : wire_frame) (extra : bytes) :
  (len (wire_bytes f ++ extra) =? 0) = false.
Proof.
  unfold wire_bytes. cbn [app]. rewrite len_cons.
  apply Z.eqb_neq. pose proof (len_nonneg ((length_field f ++ default [] (wf_key f) ++ wf_payload f) ++ extra)). lia.
Qed.

(** A read that starts with a whole frame: [WS_Server.py] dispatches that
    frame; what follows it in the same read is not looked at. *)
Lemma ws_read_whole_frame (c : sock) (f : wire_frame) (extra : bytes)
    (rest : list recv_outcome) :
  wire_ok f ->
  WSServer.read_loop c (RecvData (wire_bytes f ++ extra) :: rest) =
    let '(evs, continue) := WSServer.dispatch c (wire_opcode f) (wire_payload f) in
    if continue then evs ++ WSServer.read_loop c rest else evs.
Proof.
  intros Hok. cbn [WSServer.read_loop].
  rewrite wire_bytes_not_empty, parse_whole_frame by exact Hok. reflexivity.
Qed.





(** ** Dispatch *)

Lemma wire_payload_length (f : wire_frame) : len (wire_payload f) = len (wf_payload f).
Proof.
  unfold wire_payload, len. destruct (wf_key f); [| reflexivity].
  now rewrite xor_cycle_length.
Qed.

Lemma wire_payload_bound (f : wire_frame) : wire_ok f -> len (wire_payload f) < 2 ^ 64.
Proof.
  intros [H _]. rewrite wire_payload_length.
  destruct (wf_form f); cbn [form_limit] in H; lia.
Qed.

(** [WS_Server.py] answers a Ping that it has decoded with a Pong frame that
    carries the same payload, and goes on reading. *)
Lemma ws_server_ping_pong (c : sock) (f : wire_frame) (extra : bytes)
    (rest : list recv_outcome) :
  wire_ok f -> wire_opcode f = WS_OPCODE_PING ->
  exists pong,
    create_websocket_frame WS_OPCODE_PONG (wire_payload f) = Ok pong /\
    parse_websocket_frame pong = Ok (Some (WS_OPCODE_PONG, wire_payload f)) /\
    WSServer.read_loop c (RecvData (wire_bytes f ++ extra) :: rest)
      = WSServer.Send c pong :: WSServer.Log WSServer.INFO WSServer.PongSent
          :: WSServer.read_loop c rest.
Proof.
  intros Hok Hop.
  pose proof (wire_payload_bound f Hok) as Hb.
  assert (H10 : 0 <= WS_OPCODE_PONG < 16) by (unfold WS_OPCODE_PONG; lia).
  pose proof (create_websocket_frame_wire _ _ H10 Hb) as Hc.
  pose proof (parse_created_frame _ _ H10 Hb) as Hp.
  eexists. split; [exact Hc |]. split; [exact Hp |].
  rewrite ws_read_whole_frame by exact Hok. rewrite Hop.
  unfold WSServer.dispatch, WSServer.send_pong. cbn [Z.eqb WS_OPCODE_PING WS_OPCODE_TEXT WS_OPCODE_BINARY Pos.eqb].
  rewrite Hc. reflexivity.
Qed.

(** [WS_Server.py] reports a decoded frame of any other opcode, the
    continuation opcode 0 included, with a warning, and goes on reading. *)
Lemma ws_server_unknown_opcode (c : sock) (f : wire_frame) (extra : bytes)
    (rest : list recv_outcome) :
  wire_ok f -> known_opcode (wire_opcode f) = false ->
  WSServer.read_loop c (RecvData (wire_bytes f ++ extra) :: rest)
    = WSServer.Log WSServer.WARNING (WSServer.UnknownOpcode (wire_opcode f))
        :: WSServer.read_loop c rest.
Proof.
  intros Hok Hop. rewrite ws_read_whole_frame by exact Hok.
  unfold known_opcode in Hop.
  repeat (apply orb_false_elim in Hop as [Hop ?]).
  unfold WSServer.dispatch, WS_OPCODE_TEXT, WS_OPCODE_BINARY, WS_OPCODE_PING,
    WS_OPCODE_PONG, WS_OPCODE_CLOSE.
  repeat match goal with H : (_ =? _) = false |- _ => rewrite H; clear H end.
  reflexivity.
Qed.

Lemma simple_read_whole_frame (c : sock) (f : wire_frame) (extra : bytes)
    (rest : list recv_outcome) :
  wire_ok f ->
  exists d, fd_opcode d = wire_opcode f /\ fd_payload d = wire_payload f /\
    SimpleServer.read_loop c (RecvData (wire_bytes f ++ extra) :: rest) =
      let '(evs, continue) := SimpleServer.dispatch c d in
      if continue then evs ++ SimpleServer.read_loop c rest else evs.
Proof.
  intros Hok.
  destruct (server_decode_frame_Some _ _ _ (parse_whole_frame f extra Hok))
    as (d & Hd & Ho & Hp).
  exists d. split; [exact Ho |]. split; [exact Hp |].
  cbn [SimpleServer.read_loop]. rewrite wire_bytes_not_empty, Hd. reflexivity.
Qed.

(** [simple_ws_server.py] only prints that a Ping came. *)
Lemma simple_server_ping (c : sock) (f : wire_frame) (extra : bytes)
    (rest : list recv_outcome) :
  wire_ok f -> wire_opcode f = 9 ->
  SimpleServer.read_loop c (RecvData (wire_bytes f ++ extra) :: rest)
    = SimpleServer.Print SimpleServer.ReceivedPing :: SimpleServer.read_loop c rest.
Proof.
  intros Hok Hop.
  destruct (simple_read_whole_frame c f extra rest Hok) as (d & Ho & _ & ->).
  unfold SimpleServer.dispatch. rewrite Ho, Hop. reflexivity.
Qed.

(** [simple_ws_server.py] lets a frame of unknown opcode pass without a word:
    the loop goes on as if the read had not been. *)
Lemma simple_server_unknown_opcode (c : sock) (f : wire_frame) (extra : bytes)
    (rest : list recv_outcome) :
  wire_ok f -> known_opcode (wire_opcode f) = false ->
  SimpleServer.read_loop c (RecvData (wire_bytes f ++ extra) :: rest)
    = SimpleServer.read_loop c rest.
Proof.
  intros Hok Hop.
  destruct (simple_read_whole_frame c f extra rest Hok) as (d & Ho & _ & ->).
  unfold known_opcode in Hop.
  repeat (apply orb_false_elim in Hop as [Hop ?]).
  unfold SimpleServer.dispatch. rewrite Ho.
  repeat match goal with H : (_ =? _) = false |- _ => rewrite H; clear H end.
  reflexivity.
Qed.

(** Nothing is ever written to the socket by the read loop of
    [simple_ws_server.py]. *)
Lemma simple_read_loop_never_sends (c : sock) (reads : list recv_outcome) :
  existsb is_send (SimpleServer.read_loop c reads) = false.
Proof.
  induction reads as [|r rest IH]; [reflexivity |].
  destruct r as [data | |]; cbn [SimpleServer.read_loop]; [| exact IH | reflexivity].
  destruct (len data =? 0); [reflexivity |].
  destruct (server_decode_frame data) as [[d|]|]; [| exact IH | reflexivity].
  unfold SimpleServer.dispatch.
  repeat match goal with
         | |- context [if ?b then _ else _] => destruct b
         end; cbn [existsb app is_send orb]; try reflexivity; exact IH.
Qed.

(** C7, at the input where the code departs from it: on the Ping "abc"
    [simple_ws_server.py] prints a notice and sends nothing, where
    [WS_Server.py] sends the Pong frame [8a 03 "abc"]. *)
Theorem simple_server_ping_unanswered :
  server_decode_frame ping_abc
    = Ok (Some (FrameDict 1 9 (hex [0x61; 0x62; 0x63]) 3)) /\
  SimpleServer.read_loop 1%nat [RecvData ping_abc]
    = [SimpleServer.Print SimpleServer.ReceivedPing] /\
  WSServer.read_loop 1%nat [RecvData ping_abc]
    = [WSServer.Send 1%nat (hex [0x8a; 0x03; 0x61; 0x62; 0x63]);
       WSServer.Log WSServer.INFO WSServer.PongSent].
Proof. repeat split; vm_compute; reflexivity. Qed.

(** C8, at the input where the code departs from it: the frame [83 00], of
    the reserved opcode 3, is decoded by both servers; [WS_Server.py] logs a
    warning, [simple_ws_server.py] does nothing at all. *)
Theorem simple_server_unknown_opcode_silent :
  parse_websocket_frame (hex [0x83; 0x00]) = Ok (Some (3, [])) /\
  server_decode_frame (hex [0x83; 0x00]) = Ok (Some (FrameDict 1 3 [] 0)) /\
  WSServer.read_loop 1%nat [RecvData (hex [0x83; 0x00])]
    = [WSServer.Log WSServer.WARNING (WSServer.UnknownOpcode 3)] /\
  SimpleServer.read_loop 1%nat [RecvData (hex [0x83; 0x00])] = [].
Proof. repeat split; vm_compute; reflexivity. Qed.

(** ** The connection registry *)

#[local] Set Warnings "-clear-no-such-hyp".










(** ** A whole session

    The scenario of the specification on [WS_Server.py]: the handshake, a
    masked text frame "ping", a Ping "abc" answered by a Pong "abc", a Close
    frame that ends the loop (the read after it is never made), and the way
    out through [unregister_client]. *)
Example whole_session :
  snd (WSServer.handle_client 1%nat (RecvData (encode_utf8 sample_request))
         [RecvData (hex [0x81; 0x84; 0x01; 0x02; 0x03; 0x04; 0x71; 0x6b; 0x6d; 0x63]);
          RecvData ping_abc;
          RecvData (hex [0x88; 0x80; 0x01; 0x02; 0x03; 0x04]);
          RecvData ping_abc] ∅)
  = [WSServer.Log WSServer.INFO (WSServer.HandshakeRequest sample_request);
     WSServer.Send 1%nat
       (encode_utf8 (http_101 "s3pPLMBiTxaQ9kYGzzhZRbK+xOo="));
     WSServer.Log WSServer.INFO WSServer.HandshakeCompleted;
     WSServer.Log WSServer.INFO WSServer.ClientConnected;
     WSServer.Log WSServer.INFO (WSServer.CurrentConnections 1);
     WSServer.Print (WSServer.StreamMessage (hex [0x70; 0x69; 0x6e; 0x67]));
     WSServer.Log WSServer.INFO (WSServer.StreamMessage (hex [0x70; 0x69; 0x6e; 0x67]));
     WSServer.Send 1%nat (hex [0x8a; 0x03; 0x61; 0x62; 0x63]);
     WSServer.Log WSServer.INFO WSServer.PongSent;
     WSServer.Log WSServer.INFO WSServer.CloseFrameReceived;
     WSServer.Log WSServer.INFO WSServer.ClientDisconnected;
     WSServer.Log WSServer.INFO (WSServer.CurrentConnections 0);
     WSServer.Close 1%nat].
Proof. vm_compute. reflexivity. Qed.

(** * Further properties of the code *)

(** ** The decoders on arbitrary buffers *)

Lemma client_decode_frame_total (data : bytes) :
  exists r, client_decode_frame data = Ok r.
Proof.
  unfold client_decode_frame.
  unfold index, unpack_be.
  destruct (len data <? 2) eqn:E2; [eexists; reflexivity |].
  apply Z.ltb_ge in E2. unfold len in E2.
  destruct (nth_error data (Z.to_nat 0)) as [b0|] eqn:E0;
    [| apply nth_error_None in E0; cbn in E0; lia].
  destruct (nth_error data (Z.to_nat 1)) as [b1|] eqn:E1;
    [| apply nth_error_None in E1; cbn in E1; lia].
  cbn [ctl_bind].
  repeat split_if.
  all: cbn [ctl_bind run]; try (eexists; reflexivity).
  all: match goal with
       | H : Nat.eqb (length (slice ?d ?a ?b)) _ = false,
         H' : (len ?d <? ?b) = false |- _ =>
           apply Nat.eqb_neq in H; apply Z.ltb_ge in H'; exfalso; apply H;
           rewrite slice_length by lia; reflexivity
       end.
Qed.

(** X1. None of the three decoders raises, whatever the bytes it is given:
    every index and every [struct.unpack] is guarded by a length test. *)
Theorem decoders_never_raise (data : bytes) :
  (exists r, parse_websocket_frame data = Ok r) /\
  (exists r, server_decode_frame data = Ok r) /\
  (exists r, client_decode_frame data = Ok r).
Proof.
  split; [apply parse_websocket_frame_total |].
  split; [apply server_decode_frame_total | apply client_decode_frame_total].
Qed.

(** X2. On every buffer the two server decoders tell the same: both find no
    frame, or both return the same opcode and the same payload. *)
Theorem server_decoders_agree (data : bytes) :
  match parse_websocket_frame data, server_decode_frame data with
  | Ok None, Ok None => True
  | Ok (Some (opcode, payload)), Ok (Some d) =>
      fd_opcode d = opcode /\ fd_payload d = payload
  | _, _ => False
  end.
Proof.
  pose proof (server_decode_frame_parse data) as S.
  destruct (parse_websocket_frame_total data) as [r Hr].
  rewrite Hr in *. unfold same_frame in S.
  destruct r as [[opcode payload]|], (server_decode_frame data) as [[d|]|]; auto.
Qed.

(** X3. On every buffer whose second byte has the mask bit clear, the client
    decoder and the decoder of [simple_ws_server.py] return the same thing,
    the [fin] and [payload_length] entries included. *)
Theorem client_decoder_agrees_unmasked (data : bytes) :
  (forall b1, nth_error data 1 = Some b1 -> Z.land (Z.shiftr (ord b1) 7) 1 = 0) ->
  client_decode_frame data = server_decode_frame data.
Proof. apply client_decode_unmasked. Qed.

Lemma client_decoder_agrees_unmasked_witness :
  (forall b1, nth_error (wire_bytes hi_frame) 1 = Some b1 ->
              Z.land (Z.shiftr (ord b1) 7) 1 = 0) /\
  client_decode_frame (wire_bytes hi_frame) = server_decode_frame (wire_bytes hi_frame).
Proof.
  assert (H : forall b1, nth_error (wire_bytes hi_frame) 1 = Some b1 ->
                         Z.land (Z.shiftr (ord b1) 7) 1 = 0)
    by (intros b1 E; injection E as <-; reflexivity).
  split; [exact H |].
  exact (client_decoder_agrees_unmasked (wire_bytes hi_frame) H).
Defined.

Lemma be_int_nonneg (s : bytes) : 0 <= be_int s.
Proof.
  induction s as [|b s IH] using rev_ind; [cbn; lia |].
  rewrite be_int_app. pose proof (ord_range b). lia.
Qed.

Lemma land_nonneg_15 (x : Z) : 0 <= Z.land x 15 < 16.
Proof.
  change 15 with (Z.ones 4). rewrite Z.land_ones by lia.
  apply Z.mod_pos_bound. reflexivity.
Qed.

Lemma land_127_range (x : Z) : 0 <= Z.land x 127 < 128.
Proof.
  change 127 with (Z.ones 7). rewrite Z.land_ones by lia.
  apply Z.mod_pos_bound. reflexivity.
Qed.

Lemma land_1_cases (x : Z) : Z.land x 1 = 0 \/ Z.land x 1 = 1.
Proof.
  change 1 with (Z.ones 1) at 1 2. rewrite Z.land_ones by lia.
  change (2 ^ 1) with 2. pose proof (Z.mod_pos_bound x 2 ltac:(lia)). lia.
Qed.

Lemma server_frame_dict_invariants (data : bytes) (d : frame_dict) :
  server_decode_frame data = Ok (Some d) ->
  fd_payload_length d = len (fd_payload d) /\ len (fd_payload d) <= len data - 2.
Proof.
  unfold server_decode_frame. unfold index, unpack_be.
  destruct (len data <? 2) eqn:E2; [discriminate |].
  destruct (nth_error data (Z.to_nat 0)) as [b0|]; [| discriminate].
  destruct (nth_error data (Z.to_nat 1)) as [b1|]; [| discriminate].
  cbn [ctl_bind].
  pose proof (land_127_range (ord b1)) as H7.
  pose proof (be_int_nonneg (slice data 2 4)) as H16.
  pose proof (be_int_nonneg (slice data 2 10)) as H64.
  repeat split_if.
  all: cbn [ctl_bind run]; try discriminate.
  all: rewrite ?unmask_total by (apply key_slice_length; [lia | assumption]).
  all: cbn [ctl_bind run]; intros [= <-]; cbn [fd_payload fd_payload_length].
  all: repeat match goal with
              | H : (_ <? _) = false |- _ => apply Z.ltb_ge in H
              end.
  all: unfold len at 1 2; rewrite ?xor_cycle_length.
  all: rewrite slice_length by lia; lia.
Qed.

Lemma client_frame_dict_invariants (data : bytes) (d : frame_dict) :
  client_decode_frame data = Ok (Some d) ->
  fd_payload_length d = len (fd_payload d) /\ len (fd_payload d) <= len data - 2.
Proof.
  unfold client_decode_frame. unfold index, unpack_be.
  destruct (len data <? 2) eqn:E2; [discriminate |].
  destruct (nth_error data (Z.to_nat 0)) as [b0|]; [| discriminate].
  destruct (nth_error data (Z.to_nat 1)) as [b1|]; [| discriminate].
  cbn [ctl_bind].
  pose proof (land_127_range (ord b1)) as H7.
  pose proof (be_int_nonneg (slice data 2 4)) as H16.
  pose proof (be_int_nonneg (slice data 2 10)) as H64.
  repeat split_if.
  all: cbn [ctl_bind run]; try discriminate.
  all: intros [= <-]; cbn [fd_payload fd_payload_length].
  all: repeat match goal with
              | H : (_ <? _) = false |- _ => apply Z.ltb_ge in H
              end.
  all: unfold len at 1 2; rewrite slice_length by lia; lia.
Qed.

Lemma frame_dict_header_fields (data : bytes) (d : frame_dict) :
  server_decode_frame data = Ok (Some d) \/ client_decode_frame data = Ok (Some d) ->
  0 <= fd_opcode d < 16 /\ (fd_fin d = 0 \/ fd_fin d = 1).
Proof.
  unfold server_decode_frame, client_decode_frame. unfold index, unpack_be.
  destruct (len data <? 2) eqn:E2; [intros [H | H]; discriminate H |].
  destruct (nth_error data (Z.to_nat 0)) as [b0|]; [| intros [H | H]; discriminate H].
  destruct (nth_error data (Z.to_nat 1)) as [b1|]; [| intros [H | H]; discriminate H].
  cbn [ctl_bind].
  pose proof (land_nonneg_15 (ord b0)) as Ho.
  pose proof (land_1_cases (Z.shiftr (ord b0) 7)) as Hf.
  intros [H | H]; revert H.
  all: repeat split_if.
  all: cbn [ctl_bind run]; try discriminate.
  all: rewrite ?unmask_total by (apply key_slice_length; [lia | assumption]).
  all: cbn [ctl_bind run]; intros [= <-]; cbn [fd_opcode fd_fin]; auto.
Qed.

(** X4. In every dictionary a [decode_frame] returns, [payload_length] is the
    length of [payload], which is at most the length of the buffer less the
    two header bytes; [opcode] is a number of four bits and [fin] one bit. *)
Theorem frame_dict_invariants (data : bytes) (d : frame_dict) :
  server_decode_frame data = Ok (Some d) \/ client_decode_frame data = Ok (Some d) ->
  fd_payload_length d = len (fd_payload d) /\
  len (fd_payload d) <= len data - 2 /\
  0 <= fd_opcode d < 16 /\
  (fd_fin d = 0 \/ fd_fin d = 1).
Proof.
  intros H. pose proof (frame_dict_header_fields data d H) as [Ho Hf].
  destruct H as [H | H];
    [apply server_frame_dict_invariants in H | apply client_frame_dict_invariants in H];
    tauto.
Qed.

Lemma frame_dict_invariants_witness :
  (server_decode_frame ping_abc = Ok (Some (FrameDict 1 9 (hex [0x61; 0x62; 0x63]) 3)) \/
   client_decode_frame ping_abc = Ok (Some (FrameDict 1 9 (hex [0x61; 0x62; 0x63]) 3))) /\
  fd_payload_length (FrameDict 1 9 (hex [0x61; 0x62; 0x63]) 3)
    = len (fd_payload (FrameDict 1 9 (hex [0x61; 0x62; 0x63]) 3)) /\
  len (fd_payload (FrameDict 1 9 (hex [0x61; 0x62; 0x63]) 3)) <= len ping_abc - 2 /\
  0 <= fd_opcode (FrameDict 1 9 (hex [0x61; 0x62; 0x63]) 3) < 16 /\
  (fd_fin (FrameDict 1 9 (hex [0x61; 0x62; 0x63]) 3) = 0 \/
   fd_fin (FrameDict 1 9 (hex [0x61; 0x62; 0x63]) 3) = 1).
Proof.
  assert (H : server_decode_frame ping_abc = Ok (Some (FrameDict 1 9 (hex [0x61; 0x62; 0x63]) 3)) \/
              client_decode_frame ping_abc = Ok (Some (FrameDict 1 9 (hex [0x61; 0x62; 0x63]) 3)))
    by (left; reflexivity).
  split; [exact H |].
  exact (frame_dict_invariants ping_abc (FrameDict 1 9 (hex [0x61; 0x62; 0x63]) 3) H).
Defined.

Lemma server_decode_first_byte (data : bytes) (d : frame_dict) (b0 : byte) :
  server_decode_frame data = Ok (Some d) -> nth_error data 0 = Some b0 ->
  fd_fin d = Z.land (Z.shiftr (ord b0) 7) 1 /\ fd_opcode d = Z.land (ord b0) 15.
Proof.
  unfold server_decode_frame. unfold index, unpack_be.
  destruct (len data <? 2) eqn:E2; [discriminate |].
  change (Z.to_nat 0) with 0%nat. intros H E0. rewrite E0 in H. revert H.
  destruct (nth_error data (Z.to_nat 1)) as [b1|]; [| discriminate].
  cbn [ctl_bind].
  repeat split_if.
  all: cbn [ctl_bind run]; try discriminate.
  all: rewrite ?unmask_total by (apply key_slice_length; [lia | assumption]).
  all: cbn [ctl_bind run]; intros [= <-]; cbn [fd_opcode fd_fin]; auto.
Qed.

(** The decoder of [simple_ws_server.py] on a stream that starts with a frame. *)
Lemma server_decode_wire (f : wire_frame) (extra : bytes) :
  wire_ok f ->
  server_decode_frame (wire_bytes f ++ extra)
  = Ok (Some (FrameDict (Z.land (Z.shiftr (ord (wf_first f)) 7) 1) (wire_opcode f)
                        (wire_payload f) (len (wf_payload f)))).
Proof.
  intros Hok.
  destruct (server_decode_frame_Some _ _ _ (parse_whole_frame f extra Hok))
    as (d & Hd & Ho & Hp).
  destruct (server_decode_first_byte _ d (wf_first f) Hd eq_refl) as [Hf _].
  destruct (server_frame_dict_invariants _ d Hd) as [Hl _].
  rewrite Hd. destruct d as [fin opcode payload payload_length].
  cbn [fd_fin fd_opcode fd_payload fd_payload_length] in *. subst.
  now rewrite wire_payload_length.
Qed.

(** ** One frame for each read *)

(** X5. Only the first frame of a read counts: the bytes that follow it in
    the same read (a second frame, for one) change neither what the server
    decoders return nor what the two read loops do. *)
Theorem trailing_bytes_ignored (c : sock) (f : wire_frame) (extra : bytes)
    (rest : list recv_outcome) :
  wire_ok f ->
  parse_websocket_frame (wire_bytes f ++ extra) = parse_websocket_frame (wire_bytes f) /\
  server_decode_frame (wire_bytes f ++ extra) = server_decode_frame (wire_bytes f) /\
  WSServer.read_loop c (RecvData (wire_bytes f ++ extra) :: rest)
    = WSServer.read_loop c (RecvData (wire_bytes f) :: rest) /\
  SimpleServer.read_loop c (RecvData (wire_bytes f ++ extra) :: rest)
    = SimpleServer.read_loop c (RecvData (wire_bytes f) :: rest).
Proof.
  intros Hok.
  assert (P : parse_websocket_frame (wire_bytes f ++ extra)
              = parse_websocket_frame (wire_bytes f)).
  { rewrite <- (app_nil_r (wire_bytes f)) at 2. now rewrite !parse_whole_frame. }
  assert (S : server_decode_frame (wire_bytes f ++ extra)
              = server_decode_frame (wire_bytes f)).
  { rewrite <- (app_nil_r (wire_bytes f)) at 2. now rewrite !server_decode_wire. }
  split; [exact P |]. split; [exact S |].
  pose proof (wire_bytes_not_empty f extra) as N1.
  pose proof (wire_bytes_not_empty f []) as N2. rewrite app_nil_r in N2.
  split.
  - cbn [WSServer.read_loop]. now rewrite N1, N2, P.
  - cbn [SimpleServer.read_loop]. now rewrite N1, N2, S.
Qed.

Lemma trailing_bytes_ignored_witness :
  wire_ok hi_frame /\
  parse_websocket_frame (wire_bytes hi_frame ++ ping_abc)
    = parse_websocket_frame (wire_bytes hi_frame) /\
  server_decode_frame (wire_bytes hi_frame ++ ping_abc)
    = server_decode_frame (wire_bytes hi_frame) /\
  WSServer.read_loop 1%nat [RecvData (wire_bytes hi_frame ++ ping_abc)]
    = WSServer.read_loop 1%nat [RecvData (wire_bytes hi_frame)] /\
  SimpleServer.read_loop 1%nat [RecvData (wire_bytes hi_frame ++ ping_abc)]
    = SimpleServer.read_loop 1%nat [RecvData (wire_bytes hi_frame)].
Proof.
  assert (Hok : wire_ok hi_frame) by (split; [reflexivity | exact I]).
  split; [exact Hok |].
  exact (trailing_bytes_ignored 1%nat hi_frame ping_abc [] Hok).
Defined.

Lemma with_first_ok (b : byte) (f : wire_frame) : wire_ok f -> wire_ok (with_first b f).
Proof. intros H. exact H. Qed.

(** X6. The decoders look at the low four bits of the first byte only: FIN and
    the reserved bits change nothing. A frame whose FIN bit is clear (a
    fragment) is decoded and dispatched by [WS_Server.py] exactly as the same
    frame with FIN set. *)
Theorem fin_and_rsv_ignored (c : sock) (b : byte) (f : wire_frame) (extra : bytes)
    (rest : list recv_outcome) :
  wire_ok f -> Z.land (ord b) 15 = Z.land (ord (wf_first f)) 15 ->
  parse_websocket_frame (wire_bytes (with_first b f) ++ extra)
    = parse_websocket_frame (wire_bytes f ++ extra) /\
  WSServer.read_loop c (RecvData (wire_bytes (with_first b f) ++ extra) :: rest)
    = WSServer.read_loop c (RecvData (wire_bytes f ++ extra) :: rest).
Proof.
  intros Hok Hb.
  assert (P : parse_websocket_frame (wire_bytes (with_first b f) ++ extra)
              = parse_websocket_frame (wire_bytes f ++ extra)).
  { rewrite !parse_whole_frame by (try apply with_first_ok; exact Hok).
    unfold wire_opcode, wire_payload, with_first. cbn [wf_first wf_key wf_payload].
    now rewrite Hb. }
  split; [exact P |].
  cbn [WSServer.read_loop]. now rewrite !wire_bytes_not_empty, P.
Qed.

Lemma fin_and_rsv_ignored_witness :
  wire_ok hi_frame /\
  Z.land (ord (byte_of_Z 0x01)) 15 = Z.land (ord (wf_first hi_frame)) 15 /\
  parse_websocket_frame (wire_bytes (with_first (byte_of_Z 0x01) hi_frame) ++ [])
    = parse_websocket_frame (wire_bytes hi_frame ++ []) /\
  WSServer.read_loop 1%nat [RecvData (wire_bytes (with_first (byte_of_Z 0x01) hi_frame) ++ [])]
    = WSServer.read_loop 1%nat [RecvData (wire_bytes hi_frame ++ [])].
Proof.
  assert (Hok : wire_ok hi_frame) by (split; [reflexivity | exact I]).
  assert (Hb : Z.land (ord (byte_of_Z 0x01)) 15 = Z.land (ord (wf_first hi_frame)) 15)
    by reflexivity.
  split; [exact Hok | split; [exact Hb |]].
  exact (fin_and_rsv_ignored 1%nat (byte_of_Z 0x01) hi_frame [] [] Hok Hb).
Defined.

(** ** The opcode given to the encoder *)

Lemma lor_128_in_range (opcode : Z) :
  in_byte_range (Z.lor 128 opcode) = (0 <=? opcode) && (opcode <? 256).
Proof.
  unfold in_byte_range.
  destruct (Z.leb_spec 0 opcode) as [H0 | H0]; cbn [andb].
  - rewrite (proj2 (Z.leb_le 0 (Z.lor 128 opcode))) by (apply Z.lor_nonneg; lia).
    cbn [andb].
    pose proof (Z.log2_lor 128 opcode ltac:(lia) H0) as Hl.
    change (Z.log2 128) with 7 in Hl.
    assert (Hpos : 0 < Z.lor 128 opcode).
    { destruct (Z.log2_spec_alt (Z.lor 128 opcode)) as [r [E Hr]].
      - destruct (Z.le_gt_cases (Z.lor 128 opcode) 0) as [Hle | Hgt]; [| exact Hgt].
        pose proof (Z.log2_nonpos _ Hle). lia.
      - lia. }
    destruct (Z.ltb_spec opcode 256) as [H1 | H1].
    + apply Z.ltb_lt. change 256 with (2 ^ 8). apply Z.log2_lt_pow2; [exact Hpos |].
      destruct (Z.eq_dec opcode 0) as [-> | Hne]; [cbn in *; lia |].
      assert (Z.log2 opcode < 8) by (apply Z.log2_lt_pow2; lia). lia.
    + apply Z.ltb_ge. change 256 with (2 ^ 8).
      apply Z.log2_le_pow2; [exact Hpos |].
      assert (8 <= Z.log2 opcode) by (apply Z.log2_le_pow2; lia). lia.
  - assert (Hneg : Z.lor 128 opcode < 0) by (apply Z.lor_neg; lia).
    rewrite (proj2 (Z.leb_gt 0 _)) by lia. reflexivity.
Qed.

Lemma land_lor_128 (opcode : Z) : Z.land (Z.lor 128 opcode) 15 = Z.land opcode 15.
Proof. rewrite Z.land_lor_distr_l. reflexivity. Qed.

Lemma created_frame_ok (opcode : Z) (payload : bytes) :
  len payload < 2 ^ 64 -> wire_ok (created_frame opcode payload).
Proof. intros H. exact (server_frame_ok opcode payload H). Qed.

Lemma create_websocket_frame_created (opcode : Z) (payload : bytes) :
  0 <= opcode < 256 -> len payload < 2 ^ 64 ->
  create_websocket_frame opcode payload = Ok (wire_bytes (created_frame opcode payload)).
Proof.
  intros Hop Hlen. pose proof (len_nonneg payload) as Hp.
  pose proof (lor_128_in_range opcode) as Hr.
  rewrite (proj2 (Z.leb_le 0 opcode)), (proj2 (Z.ltb_lt opcode 256)) in Hr by lia.
  unfold create_websocket_frame, wire_bytes, created_frame, length_field, mask_bit.
  cbn [wf_first wf_form wf_key wf_payload default].
  unfold append_byte at 1. rewrite Hr. cbn [andb ctl_bind app].
  destruct (Z.ltb_spec (len payload) 126) as [H7 | H7].
  - unfold append_byte. rewrite in_byte_range_true by lia. reflexivity.
  - destruct (Z.ltb_spec (len payload) 65536) as [H16 | H16].
    + unfold append_byte, pack_be.
      cbn [in_byte_range Z.leb Z.ltb Z.compare Pos.compare Pos.compare_cont andb ctl_bind].
      change (256 ^ Z.of_nat 2) with 65536.
      rewrite (proj2 (Z.leb_le 0 _)), (proj2 (Z.ltb_lt _ 65536)) by lia.
      reflexivity.
    + unfold append_byte, pack_be.
      cbn [in_byte_range Z.leb Z.ltb Z.compare Pos.compare Pos.compare_cont andb ctl_bind].
      change (256 ^ Z.of_nat 8) with (2 ^ 64).
      rewrite (proj2 (Z.leb_le 0 _)), (proj2 (Z.ltb_lt _ (2 ^ 64))) by lia.
      reflexivity.
Qed.

(** X7. [create_websocket_frame] accepts the opcodes from 0 to 255 and raises
    [ValueError] for any other. Only four bits of an accepted opcode reach the
    peer as opcode, the rest falls on the reserved bits: decoding the frame
    gives the payload back and the opcode modulo 16. *)
Theorem encoder_opcode_range (opcode : Z) (payload : bytes) :
  len payload < 2 ^ 64 ->
  if (0 <=? opcode) && (opcode <? 256)
  then exists frame,
         create_websocket_frame opcode payload = Ok frame /\
         parse_websocket_frame frame = Ok (Some (opcode mod 16, payload))
  else create_websocket_frame opcode payload = Exn ValueError.
Proof.
  intros Hlen.
  destruct ((0 <=? opcode) && (opcode <? 256)) eqn:E.
  - apply andb_prop in E as [H0 H1]. apply Z.leb_le in H0. apply Z.ltb_lt in H1.
    exists (wire_bytes (created_frame opcode payload)).
    split; [apply create_websocket_frame_created; lia |].
    rewrite <- (app_nil_r (wire_bytes _)).
    rewrite parse_whole_frame by now apply created_frame_ok.
    unfold wire_opcode, wire_payload, created_frame. cbn [wf_first wf_key wf_payload].
    assert (Hr : in_byte_range (Z.lor 128 opcode) = true).
    { rewrite lor_128_in_range. apply andb_true_intro.
      split; [apply Z.leb_le | apply Z.ltb_lt]; lia. }
    unfold in_byte_range in Hr. apply andb_prop in Hr as [Hr0 Hr1].
    apply Z.leb_le in Hr0. apply Z.ltb_lt in Hr1.
    rewrite ord_byte_of_Z, land_lor_128 by lia.
    change 15 with (Z.ones 4). rewrite Z.land_ones by lia. reflexivity.
  - unfold create_websocket_frame, append_byte at 1.
    rewrite lor_128_in_range, E. reflexivity.
Qed.

Lemma encoder_opcode_range_witness :
  len (hex [0x68; 0x69]) < 2 ^ 64 /\
  (exists frame,
      create_websocket_frame 0x11 (hex [0x68; 0x69]) = Ok frame /\
      parse_websocket_frame frame = Ok (Some (0x11 mod 16, hex [0x68; 0x69]))) /\
  create_websocket_frame 256 (hex [0x68; 0x69]) = Exn ValueError.
Proof.
  assert (H : len (hex [0x68; 0x69]) < 2 ^ 64) by reflexivity.
  split; [exact H |]. split.
  - exact (encoder_opcode_range 0x11 (hex [0x68; 0x69]) H).
  - exact (encoder_opcode_range 256 (hex [0x68; 0x69]) H).
Defined.

(** ** Between the client and the servers *)

(** X8. What [SimpleWebSocketClient.create_frame] writes, both server
    decoders read back: same opcode, same payload, the mask undone, whatever
    number was drawn for the mask. *)
Theorem client_frames_decoded_by_servers (payload : bytes) (opcode rnd : Z) :
  0 <= opcode < 16 -> 0 <= rnd < 2 ^ 32 -> len payload < 2 ^ 64 ->
  exists frame,
    create_frame payload opcode rnd = Some frame /\
    parse_websocket_frame frame = Ok (Some (opcode, payload)) /\
    server_decode_frame frame = Ok (Some (FrameDict 1 opcode payload (len payload))).
Proof.
  intros Hop Hrnd Hlen. exists (wire_bytes (client_frame opcode rnd payload)).
  pose proof (client_frame_ok opcode rnd payload Hlen) as Hok.
  destruct (lor_128_opcode opcode Hop) as [_ Hland].
  assert (Hb : ord (byte_of_Z (128 + opcode)) = 128 + opcode) by (apply ord_byte_of_Z; lia).
  split; [now apply create_frame_wire |].
  rewrite <- (app_nil_r (wire_bytes _)).
  rewrite parse_whole_frame, server_decode_wire by exact Hok.
  unfold wire_opcode, wire_payload, client_frame. cbn [wf_first wf_key wf_payload].
  rewrite Hb, Hland, xor_cycle_involutive.
  assert (Hfin : Z.land (Z.shiftr (128 + opcode) 7) 1 = 1)
    by (destruct (second_byte_fields 128 opcode) as [E _]; [auto | lia | exact E]).
  rewrite Hfin. unfold len. rewrite xor_cycle_length. split; reflexivity.
Qed.

Lemma client_frames_decoded_by_servers_witness :
  0 <= 1 < 16 /\ 0 <= 0x37fa213d < 2 ^ 32 /\ len (hex [0x48; 0x65; 0x6c; 0x6c; 0x6f]) < 2 ^ 64 /\
  exists frame,
    create_frame (hex [0x48; 0x65; 0x6c; 0x6c; 0x6f]) 1 0x37fa213d = Some frame /\
    parse_websocket_frame frame = Ok (Some (1, hex [0x48; 0x65; 0x6c; 0x6c; 0x6f])) /\
    server_decode_frame frame
      = Ok (Some (FrameDict 1 1 (hex [0x48; 0x65; 0x6c; 0x6c; 0x6f])
                            (len (hex [0x48; 0x65; 0x6c; 0x6c; 0x6f])))).
Proof.
  assert (H1 : 0 <= 1 < 16) by lia.
  assert (H2 : 0 <= 0x37fa213d < 2 ^ 32) by lia.
  assert (H3 : len (hex [0x48; 0x65; 0x6c; 0x6c; 0x6f]) < 2 ^ 64) by reflexivity.
  split; [exact H1 | split; [exact H2 | split; [exact H3 |]]].
  exact (client_frames_decoded_by_servers (hex [0x48; 0x65; 0x6c; 0x6c; 0x6f]) 1 0x37fa213d H1 H2 H3).
Defined.

(** X9. What [create_websocket_frame] writes, the client's [decode_frame]
    reads back: [fin] 1, the same opcode, the same payload and its length. *)
Theorem server_frames_decoded_by_client (opcode : Z) (payload : bytes) :
  0 <= opcode < 16 -> len payload < 2 ^ 64 ->
  exists frame,
    create_websocket_frame opcode payload = Ok frame /\
    client_decode_frame frame = Ok (Some (FrameDict 1 opcode payload (len payload))).
Proof.
  intros Hop Hlen. exists (wire_bytes (server_frame opcode payload)).
  split; [now apply create_websocket_frame_wire |].
  rewrite client_decode_wire by now apply server_frame_ok.
  destruct (lor_128_opcode opcode Hop) as [_ Hland].
  unfold wire_opcode, server_frame. cbn [wf_first wf_key wf_payload default app].
  rewrite ord_byte_of_Z, Hland, firstn_all by lia.
  assert (Hfin : Z.land (Z.shiftr (128 + opcode) 7) 1 = 1)
    by (destruct (second_byte_fields 128 opcode) as [E _]; [auto | lia | exact E]).
  now rewrite Hfin.
Qed.

Lemma server_frames_decoded_by_client_witness :
  0 <= 10 < 16 /\ len (hex [0x61; 0x62; 0x63]) < 2 ^ 64 /\
  exists frame,
    create_websocket_frame 10 (hex [0x61; 0x62; 0x63]) = Ok frame /\
    client_decode_frame frame
      = Ok (Some (FrameDict 1 10 (hex [0x61; 0x62; 0x63]) (len (hex [0x61; 0x62; 0x63])))).
Proof.
  assert (H1 : 0 <= 10 < 16) by lia.
  assert (H2 : len (hex [0x61; 0x62; 0x63]) < 2 ^ 64) by reflexivity.
  split; [exact H1 | split; [exact H2 |]].
  exact (server_frames_decoded_by_client 10 (hex [0x61; 0x62; 0x63]) H1 H2).
Defined.

(** ** Text: concatenation, characters, lines *)

Lemma append_cons (ch : ascii) (a b : string) :
  (String ch a ++ b)%string = String ch (a ++ b).
Proof. reflexivity. Qed.

Lemma append_nil_l (b : string) : ("" ++ b)%string = b.
Proof. reflexivity. Qed.

Lemma append_nil_r (s : string) : (s ++ "")%string = s.
Proof.
  induction s as [|ch s IH]; [reflexivity |]. now rewrite append_cons, IH.
Qed.

Lemma append_assoc (a b d : string) : ((a ++ b) ++ d)%string = (a ++ b ++ d)%string.
Proof.
  induction a as [|ch a IH]; [reflexivity |]. now rewrite !append_cons, IH.
Qed.

Lemma is_ascii_app (a b : string) : is_ascii (a ++ b) = is_ascii a && is_ascii b.
Proof.
  induction a as [|ch a IH]; [reflexivity |].
  rewrite append_cons. cbn [is_ascii]. now rewrite IH, andb_assoc.
Qed.

Lemma no_char_app (x : ascii) (a b : string) :
  no_char x (a ++ b) = no_char x a && no_char x b.
Proof.
  induction a as [|ch a IH]; [reflexivity |].
  rewrite append_cons. cbn [no_char]. now rewrite IH, andb_assoc.
Qed.

Lemma is_b64_app (a b : string) : is_b64 (a ++ b) = is_b64 a && is_b64 b.
Proof.
  induction a as [|ch a IH]; [reflexivity |].
  rewrite append_cons. cbn [is_b64]. now rewrite IH, andb_assoc.
Qed.

Lemma is_b64_char_ascii (ch : ascii) : is_b64_char ch = true -> is_ascii_char ch = true.
Proof. destruct ch as [[] [] [] [] [] [] [] []]; vm_compute; congruence. Qed.

Lemma is_b64_char_not_space (ch : ascii) : is_b64_char ch = true -> is_space ch = false.
Proof. destruct ch as [[] [] [] [] [] [] [] []]; vm_compute; congruence. Qed.

Lemma is_b64_ascii (s : string) : is_b64 s = true -> is_ascii s = true.
Proof.
  induction s as [|ch s IH]; [reflexivity |]. cbn [is_b64 is_ascii].
  intros H. apply andb_prop in H as [Hc Hs].
  now rewrite (is_b64_char_ascii ch Hc), IH.
Qed.

Lemma is_b64_no_char (x : ascii) (s : string) :
  is_b64_char x = false -> is_b64 s = true -> no_char x s = true.
Proof.
  intros Hx. induction s as [|ch s IH]; [reflexivity |]. cbn [is_b64 no_char].
  intros H. apply andb_prop in H as [Hc Hs]. rewrite (IH Hs), andb_true_r.
  destruct (Ascii.eqb_spec ch x) as [-> | _]; [congruence | reflexivity].
Qed.

Lemma rstrip_no_space (s : string) : is_b64 s = true -> rstrip s = s.
Proof.
  induction s as [|ch s IH]; [reflexivity |]. cbn [is_b64 rstrip].
  intros H. apply andb_prop in H as [Hc Hs]. rewrite (IH Hs).
  destruct s; [now rewrite (is_b64_char_not_space ch Hc) | reflexivity].
Qed.

(** [strip] leaves a base64 text as it is. *)
Lemma strip_b64 (s : string) : is_b64 s = true -> strip s = s.
Proof.
  intros H. unfold strip.
  assert (L : lstrip s = s).
  { destruct s as [|ch s]; [reflexivity |]. cbn [is_b64] in H.
    apply andb_prop in H as [Hc _]. cbn [lstrip].
    now rewrite (is_b64_char_not_space ch Hc). }
  rewrite L. now apply rstrip_no_space.
Qed.

Lemma digit_is_b64 (n : Z) : is_b64_char (Base64.digit n) = true.
Proof.
  unfold Base64.digit. generalize (Z.to_nat n) as k. intros k.
  do 64 (destruct k as [|k]; [reflexivity |]). reflexivity.
Qed.

Lemma b64encode_is_b64 (b : bytes) : is_b64 (Base64.b64encode b) = true.
Proof.
  assert (G : forall n (b : bytes), (length b <= n)%nat -> is_b64 (Base64.b64encode b) = true).
  { intros n. induction n as [|n IH]; intros b0 Hn.
    - destruct b0; [reflexivity | cbn in Hn; lia].
    - destruct b0 as [|x [|y [|z rest]]]; cbn [Base64.b64encode is_b64];
        rewrite ?digit_is_b64; cbn [andb]; try reflexivity.
      apply IH. cbn [length] in Hn. lia. }
  exact (G (length b) b (le_n _)).
Qed.

Lemma b64encode_not_empty (b : bytes) : b <> [] -> Base64.b64encode b <> EmptyString.
Proof. destruct b as [|x [|y [|z rest]]]; cbn; congruence. Qed.

Lemma sha1_digest_length (m : bytes) : length (SHA1.digest m) = 20%nat.
Proof.
  unfold SHA1.digest.
  destruct (fold_left SHA1.compress _ SHA1.init) as [[[[h0 h1] h2] h3] h4].
  rewrite !length_app, !be_bytes_length. reflexivity.
Qed.

Lemma accept_key_is_b64 (key : string) : is_b64 (create_websocket_accept_key key) = true.
Proof. apply b64encode_is_b64. Qed.

Lemma accept_key_not_empty (key : string) : create_websocket_accept_key key <> EmptyString.
Proof.
  apply b64encode_not_empty. intros E.
  pose proof (sha1_digest_length (encode_utf8 (key ++ WS_MAGIC_STRING))) as L.
  rewrite E in L. discriminate L.
Qed.

(** X10. The accept key is always 28 characters of the base64 alphabet, the
    last one [=]: it is never empty and holds no blank, colon or line break. *)
Theorem accept_key_shape (key : string) :
  String.length (create_websocket_accept_key key) = 28%nat /\
  String.get 27 (create_websocket_accept_key key) = Some "="%char /\
  is_b64 (create_websocket_accept_key key) = true.
Proof.
  split; [| split; [| apply accept_key_is_b64]].
  all: unfold create_websocket_accept_key;
    pose proof (sha1_digest_length (encode_utf8 (key ++ WS_MAGIC_STRING))) as L;
    destruct (SHA1.digest (encode_utf8 (key ++ WS_MAGIC_STRING))) as [|x l]; [discriminate L |];
    do 19 (destruct l as [|? l]; [discriminate L |]);
    destruct l; [reflexivity | discriminate L].
Qed.

Lemma generated_key_bytes (draw : nat -> nat) :
  length (encode_utf8 (string_of_list_ascii
            (map (fun k => SimpleClient.choice (draw k)) (seq 0 16)))) = 16%nat.
Proof. reflexivity. Qed.

(** X11. The key the client draws is always 24 characters of the base64
    alphabet ending in [==], the encoding of 16 bytes, whatever is drawn. *)
Theorem generated_key_shape (draw : nat -> nat) :
  String.length (SimpleClient.generate_websocket_key draw) = 24%nat /\
  String.get 22 (SimpleClient.generate_websocket_key draw) = Some "="%char /\
  String.get 23 (SimpleClient.generate_websocket_key draw) = Some "="%char /\
  is_b64 (SimpleClient.generate_websocket_key draw) = true.
Proof.
  split; [| split; [| split; [| apply b64encode_is_b64]]]; reflexivity.
Qed.

(** [split] on a separator of two characters, across a piece that has not
    the first of them. *)
Lemma split_from_clean (x y : ascii) (a rest cur : string) :
  no_char x a = true ->
  split_from (String x (String y EmptyString)) 0 (a ++ String x (String y rest)) cur
  = (cur ++ a)%string :: split_from (String x (String y EmptyString)) 0 rest EmptyString.
Proof.
  revert cur. induction a as [|ch a IH]; intros cur Ha.
  - rewrite append_nil_l, append_nil_r. cbn [split_from String.prefix].
    destruct (ascii_dec x x) as [_ | N]; [| contradiction].
    destruct (ascii_dec y y) as [_ | N]; [| contradiction].
    rewrite prefix_empty. reflexivity.
  - cbn [no_char] in Ha. apply andb_prop in Ha as [Hc Ha].
    rewrite append_cons. cbn [split_from String.prefix].
    destruct (ascii_dec x ch) as [-> | _].
    + rewrite Ascii.eqb_refl in Hc. discriminate Hc.
    + rewrite IH by exact Ha. now rewrite append_assoc, append_cons, append_nil_l.
Qed.

Lemma split_from_clean_last (x y : ascii) (a cur : string) :
  no_char x a = true ->
  split_from (String x (String y EmptyString)) 0 a cur = [(cur ++ a)%string].
Proof.
  revert cur. induction a as [|ch a IH]; intros cur Ha.
  - now rewrite append_nil_r.
  - cbn [no_char] in Ha. apply andb_prop in Ha as [Hc Ha].
    cbn [split_from String.prefix].
    destruct (ascii_dec x ch) as [-> | _].
    + rewrite Ascii.eqb_refl in Hc. discriminate Hc.
    + rewrite IH by exact Ha. now rewrite append_assoc, append_cons, append_nil_l.
Qed.

(** Lines without CR, joined with CR LF, are split back into themselves, and
    one empty piece after the last CR LF. *)
Lemma split_crlf_join (lines : list string) :
  forallb (no_char CR) lines = true ->
  split (crlf_join lines) CRLF = lines ++ [EmptyString].
Proof.
  unfold split. induction lines as [|line lines IH]; intros H; [reflexivity |].
  cbn [forallb] in H. apply andb_prop in H as [Hl Hr].
  cbn [crlf_join]. unfold CRLF at 2. rewrite !append_cons, append_nil_l.
  unfold CRLF at 1.
  rewrite (split_from_clean CR LF line (crlf_join lines) EmptyString Hl).
  rewrite append_nil_l. fold CRLF. now rewrite IH.
Qed.

(** A header line [name: value] without any other colon. *)
Lemma split_header_line (name value : string) :
  no_char ":" name = true -> no_char ":" value = true ->
  split (name ++ ": " ++ value) ": " = [name; value].
Proof.
  intros Hn Hv. unfold split.
  change (": " ++ value)%string with (String ":" (String " " value)).
  rewrite (split_from_clean ":" " " name value EmptyString Hn), append_nil_l.
  now rewrite split_from_clean_last, append_nil_l.
Qed.

Lemma uint_text_clean (d : Decimal.uint) :
  no_char CR (DecimalString.NilEmpty.string_of_uint d) = true /\
  is_ascii (DecimalString.NilEmpty.string_of_uint d) = true.
Proof.
  induction d as [| d [IH1 IH2] | d [IH1 IH2] | d [IH1 IH2] | d [IH1 IH2] | d [IH1 IH2]
                  | d [IH1 IH2] | d [IH1 IH2] | d [IH1 IH2] | d [IH1 IH2] | d [IH1 IH2]];
    cbn [DecimalString.NilEmpty.string_of_uint no_char is_ascii];
    rewrite ?IH1, ?IH2; split; reflexivity.
Qed.

Lemma str_of_int_clean (n : Z) :
  no_char CR (SimpleClient.str_of_int n) = true /\
  is_ascii (SimpleClient.str_of_int n) = true.
Proof.
  unfold SimpleClient.str_of_int.
  destruct (Z.to_int n) as [d | d]; cbn [DecimalString.NilEmpty.string_of_int no_char is_ascii];
    destruct (uint_text_clean d) as [H1 H2]; rewrite ?H1, ?H2; split; reflexivity.
Qed.

(** ** The opening handshake, end to end *)

Lemma http_101_lines (a : string) :
  http_101 a = crlf_join ["HTTP/1.1 101 Switching Protocols"; "Upgrade: websocket";
                          "Connection: Upgrade"; "Sec-WebSocket-Accept: " ++ a;
                          EmptyString]%string.
Proof.
  unfold http_101. cbn [crlf_join]. rewrite !append_assoc. reflexivity.
Qed.

Lemma request_lines (host : string) (port : Z) (key : string) :
  SimpleClient.create_handshake_request host port key
  = crlf_join ["GET / HTTP/1.1"; "Host: " ++ host ++ ":" ++ SimpleClient.str_of_int port;
               "Upgrade: websocket"; "Connection: Upgrade";
               "Sec-WebSocket-Key: " ++ key; "Sec-WebSocket-Version: 13";
               EmptyString]%string.
Proof.
  unfold SimpleClient.create_handshake_request. cbn [crlf_join].
  rewrite !append_assoc. reflexivity.
Qed.

Lemma split_http_101 (a : string) :
  no_char CR a = true ->
  split (http_101 a) CRLF
  = ["HTTP/1.1 101 Switching Protocols"; "Upgrade: websocket"; "Connection: Upgrade";
     "Sec-WebSocket-Accept: " ++ a; EmptyString; EmptyString]%string.
Proof.
  intros Ha. rewrite http_101_lines, split_crlf_join; [reflexivity |].
  cbn [forallb]. change (no_char CR ("Sec-WebSocket-Accept: " ++ a)) with (no_char CR a).
  now rewrite Ha.
Qed.

Lemma split_request (host : string) (port : Z) (key : string) :
  no_char CR host = true -> no_char CR key = true ->
  split (SimpleClient.create_handshake_request host port key) CRLF
  = ["GET / HTTP/1.1"; "Host: " ++ host ++ ":" ++ SimpleClient.str_of_int port;
     "Upgrade: websocket"; "Connection: Upgrade";
     "Sec-WebSocket-Key: " ++ key; "Sec-WebSocket-Version: 13";
     EmptyString; EmptyString]%string.
Proof.
  intros Hh Hk. rewrite request_lines, split_crlf_join; [reflexivity |].
  cbn [forallb].
  change (no_char CR ("Sec-WebSocket-Key: " ++ key)) with (no_char CR key).
  change (no_char CR ("Host: " ++ host ++ ":" ++ SimpleClient.str_of_int port))
    with (no_char CR (host ++ ":" ++ SimpleClient.str_of_int port)).
  rewrite no_char_app, Hh, Hk.
  change (no_char CR (":" ++ SimpleClient.str_of_int port))
    with (no_char CR (SimpleClient.str_of_int port)).
  now rewrite (proj1 (str_of_int_clean port)).
Qed.

(** What the client makes of a 101 response that carries the accept key [a]. *)
Lemma verify_on_101 (a key : string) :
  no_char CR a = true -> no_char ":" a = true ->
  SimpleClient.verify_handshake_response (http_101 a) key =
    match a with
    | EmptyString => (false, [SimpleClient.Print SimpleClient.NoAcceptKey])
    | _ => if String.eqb a (create_websocket_accept_key key)
           then (true, [])
           else (false, [SimpleClient.Print SimpleClient.InvalidAcceptKey])
    end.
Proof.
  intros Hcr Hcolon. unfold SimpleClient.verify_handshake_response.
  rewrite split_http_101 by exact Hcr.
  cbn [item nth_error ctl_bind].
  change (startswith "HTTP/1.1 101 Switching Protocols" "HTTP/1.1 101") with true.
  cbn [negb SimpleClient.find_accept_key].
  change (startswith "HTTP/1.1 101 Switching Protocols" "Sec-WebSocket-Accept:") with false.
  change (startswith "Upgrade: websocket" "Sec-WebSocket-Accept:") with false.
  change (startswith "Connection: Upgrade" "Sec-WebSocket-Accept:") with false.
  assert (S : startswith ("Sec-WebSocket-Accept: " ++ a) "Sec-WebSocket-Accept:" = true).
  { reflexivity. }
  rewrite S.
  change ("Sec-WebSocket-Accept: " ++ a)%string
    with ("Sec-WebSocket-Accept" ++ ": " ++ a)%string.
  rewrite split_header_line by (reflexivity || exact Hcolon).
  cbn [item nth_error ctl_bind SimpleClient.key_missing default].
  destruct a as [|ch a]; [reflexivity |].
  fold (create_websocket_accept_key key).
  change (Base64.b64encode (SHA1.digest (encode_utf8 (key ++ "258EAFA5-E914-47DA-95CA-C5AB0DC85B11"))))
    with (create_websocket_accept_key key).
  unfold id.
  destruct (String.eqb (String ch a) (create_websocket_accept_key key)); reflexivity.
Qed.



Lemma strip_space_b64 (k : string) : is_b64 k = true -> strip (String " " k) = k.
Proof. intros H. unfold strip. cbn [lstrip]. change (is_space " ") with true. now apply strip_b64. Qed.

Lemma ws_handshake_on_request (c : sock) (host : string) (port : Z) (key : string) :
  is_ascii host = true -> no_char CR host = true ->
  is_b64 key = true -> key <> EmptyString ->
  WSServer.perform_websocket_handshake c
    (RecvData (encode_utf8 (SimpleClient.create_handshake_request host port key)))
  = (true,
     [WSServer.Log WSServer.INFO
        (WSServer.HandshakeRequest
           (substring 0 200 (SimpleClient.create_handshake_request host port key)));
      WSServer.Send c (encode_utf8 (http_101 (create_websocket_accept_key key)));
      WSServer.Log WSServer.INFO WSServer.HandshakeCompleted]).
Proof.
  intros Ha Hcr Hk Hne. unfold WSServer.perform_websocket_handshake.
  assert (Hreq : is_ascii (SimpleClient.create_handshake_request host port key) = true).
  { unfold SimpleClient.create_handshake_request.
    rewrite !is_ascii_app, Ha, (is_b64_ascii key Hk), (proj2 (str_of_int_clean port)).
    reflexivity. }
  rewrite decode_encode_ascii by exact Hreq. cbn [run].
  rewrite find_websocket_key_spec, split_request
    by first [exact Hcr | apply is_b64_no_char; [reflexivity | exact Hk]].
  change (find is_key_line _) with (Some ("Sec-WebSocket-Key: " ++ key)%string).
  cbn [option_map run].
  change (string_drop 18 ("Sec-WebSocket-Key: " ++ key)) with (String " " key).
  rewrite strip_space_b64 by exact Hk.
  destruct key as [|ch key]; [contradiction |]. reflexivity.
Qed.

Lemma simple_handshake_on_request (self : simple_server) (c : sock) (host : string)
    (port : Z) (key : string) :
  is_ascii host = true -> no_char CR host = true ->
  is_b64 key = true -> key <> EmptyString ->
  SimpleServer.perform_handshake self c
    (RecvData (encode_utf8 (SimpleClient.create_handshake_request host port key)))
  = (true,
     [SimpleServer.Print
        (SimpleServer.HandshakeRequest (SimpleClient.create_handshake_request host port key));
      SimpleServer.Send c (encode_utf8 (http_101 (create_websocket_accept_key key)));
      SimpleServer.Print SimpleServer.HandshakeCompleted]).
Proof.
  intros Ha Hcr Hk Hne. unfold SimpleServer.perform_handshake.
  assert (Hreq : is_ascii (SimpleClient.create_handshake_request host port key) = true).
  { unfold SimpleClient.create_handshake_request.
    rewrite !is_ascii_app, Ha, (is_b64_ascii key Hk), (proj2 (str_of_int_clean port)).
    reflexivity. }
  rewrite decode_encode_ascii by exact Hreq. cbn [run].
  rewrite split_request
    by first [exact Hcr | apply is_b64_no_char; [reflexivity | exact Hk]].
  cbn [SimpleServer.find_websocket_key].
  change (startswith "GET / HTTP/1.1" "Sec-WebSocket-Key:") with false.
  change (startswith ("Host: " ++ host ++ ":" ++ SimpleClient.str_of_int port)
            "Sec-WebSocket-Key:") with false.
  change (startswith "Upgrade: websocket" "Sec-WebSocket-Key:") with false.
  change (startswith "Connection: Upgrade" "Sec-WebSocket-Key:") with false.
  change (startswith ("Sec-WebSocket-Key: " ++ key) "Sec-WebSocket-Key:") with true.
  cbn iota.
  change ("Sec-WebSocket-Key: " ++ key)%string with ("Sec-WebSocket-Key" ++ ": " ++ key)%string.
  rewrite split_header_line
    by (reflexivity || (apply is_b64_no_char; [reflexivity | exact Hk])).
  cbn [item nth_error ctl_bind run].
  destruct key as [|ch key]; [contradiction |]. reflexivity.
Qed.

(** X13. The opening handshake works end to end. Whatever the sixteen
    characters drawn for the key, and for any ASCII host name without a
    carriage return: the request the client builds is accepted by both
    servers when it reaches them in one read, both answer with the same 101
    response, and the client, reading that response, verifies it and
    declares the connection established. *)
Theorem handshake_interoperates (self : simple_server) (c : sock) (draw : nat -> nat)
    (host : string) (port : Z) :
  is_ascii host = true -> no_char CR host = true ->
  let key := SimpleClient.generate_websocket_key draw in
  let request := SimpleClient.create_handshake_request host port key in
  let response := http_101 (create_websocket_accept_key key) in
  WSServer.perform_websocket_handshake c (RecvData (encode_utf8 request))
    = (true,
       [WSServer.Log WSServer.INFO (WSServer.HandshakeRequest (substring 0 200 request));
        WSServer.Send c (encode_utf8 response);
        WSServer.Log WSServer.INFO WSServer.HandshakeCompleted]) /\
  SimpleServer.perform_handshake self c (RecvData (encode_utf8 request))
    = (true,
       [SimpleServer.Print (SimpleServer.HandshakeRequest request);
        SimpleServer.Send c (encode_utf8 response);
        SimpleServer.Print SimpleServer.HandshakeCompleted]) /\
  SimpleClient.verify_handshake_response response key = (true, []) /\
  SimpleClient.connect (SimpleClient.Client host port false false) draw
    (RecvData (encode_utf8 response))
    = (SimpleClient.Client host port true true, true,
       [SimpleClient.Print SimpleClient.Connecting;
        SimpleClient.Print SimpleClient.SendingHandshake;
        SimpleClient.Send (encode_utf8 request);
        SimpleClient.Print (SimpleClient.HandshakeResponse response);
        SimpleClient.Print SimpleClient.Established]).
Proof.
  intros Ha Hcr key request response.
  assert (Hk : is_b64 key = true) by apply b64encode_is_b64.
  assert (Hne : key <> EmptyString) by (apply b64encode_not_empty; discriminate).
  pose proof (accept_key_is_b64 key) as Hb.
  assert (V : SimpleClient.verify_handshake_response response key = (true, [])).
  { unfold response. rewrite verify_on_101 by (apply is_b64_no_char; [reflexivity | exact Hb]).
    pose proof (accept_key_not_empty key) as Hn.
    destruct (create_websocket_accept_key key) as [|ch a] eqn:E; [contradiction |].
    now rewrite String.eqb_refl. }
  split; [now apply ws_handshake_on_request |].
  split; [now apply simple_handshake_on_request |].
  split; [exact V |].
  unfold SimpleClient.connect. cbn [SimpleClient.cl_host SimpleClient.cl_port].
  fold key. fold request.
  assert (Hresp : is_ascii response = true).
  { unfold response, http_101. rewrite !is_ascii_app, (is_b64_ascii _ Hb). reflexivity. }
  rewrite decode_encode_ascii by exact Hresp. cbn [run]. now rewrite V.
Qed.

Lemma handshake_interoperates_witness :
  is_ascii "192.168.137.203" = true /\ no_char CR "192.168.137.203" = true /\
  let key := SimpleClient.generate_websocket_key (fun k => k) in
  let request := SimpleClient.create_handshake_request "192.168.137.203" 8081 key in
  let response := http_101 (create_websocket_accept_key key) in
  WSServer.perform_websocket_handshake 1%nat (RecvData (encode_utf8 request))
    = (true,
       [WSServer.Log WSServer.INFO (WSServer.HandshakeRequest (substring 0 200 request));
        WSServer.Send 1%nat (encode_utf8 response);
        WSServer.Log WSServer.INFO WSServer.HandshakeCompleted]) /\
  SimpleServer.perform_handshake (SimpleServer "0.0.0.0" 8081 true []) 1%nat
      (RecvData (encode_utf8 request))
    = (true,
       [SimpleServer.Print (SimpleServer.HandshakeRequest request);
        SimpleServer.Send 1%nat (encode_utf8 response);
        SimpleServer.Print SimpleServer.HandshakeCompleted]) /\
  SimpleClient.verify_handshake_response response key = (true, []) /\
  SimpleClient.connect (SimpleClient.Client "192.168.137.203" 8081 false false) (fun k => k)
    (RecvData (encode_utf8 response))
    = (SimpleClient.Client "192.168.137.203" 8081 true true, true,
       [SimpleClient.Print SimpleClient.Connecting;
        SimpleClient.Print SimpleClient.SendingHandshake;
        SimpleClient.Send (encode_utf8 request);
        SimpleClient.Print (SimpleClient.HandshakeResponse response);
        SimpleClient.Print SimpleClient.Established]).
Proof.
  assert (H1 : is_ascii "192.168.137.203" = true) by reflexivity.
  assert (H2 : no_char CR "192.168.137.203" = true) by reflexivity.
  split; [exact H1 | split; [exact H2 |]].
  exact (handshake_interoperates (SimpleServer "0.0.0.0" 8081 true []) 1%nat (fun k => k)
           "192.168.137.203" 8081 H1 H2).
Defined.

(** ** Messages, end to end *)

Lemma client_frame_opcode (opcode rnd : Z) (payload : bytes) :
  0 <= opcode < 16 ->
  wire_opcode (client_frame opcode rnd payload) = opcode /\
  wire_payload (client_frame opcode rnd payload) = payload.
Proof.
  intros Hop. destruct (lor_128_opcode opcode Hop) as [_ Hland].
  unfold wire_opcode, wire_payload, client_frame. cbn [wf_first wf_key wf_payload].
  rewrite ord_byte_of_Z, Hland, xor_cycle_involutive by lia. split; reflexivity.
Qed.

(** X14. A text message goes through. When the client is connected and the
    message is well-formed UTF-8, [send_message] writes one frame, and a
    server that gets this frame in one read prints that very message and
    goes on reading, whatever number was drawn for the mask. *)
Theorem text_message_delivered (self : SimpleClient.client) (message : string) (rnd : Z)
    (c : sock) (rest : list recv_outcome) :
  SimpleClient.cl_connected self = true ->
  utf8_valid (encode_utf8 message) = true ->
  0 <= rnd < 2 ^ 32 -> len (encode_utf8 message) < 2 ^ 64 ->
  exists frame,
    SimpleClient.send_message self message rnd
      = (true, [SimpleClient.Send frame;
                SimpleClient.Print (SimpleClient.MessageSent message)]) /\
    WSServer.read_loop c (RecvData frame :: rest)
      = WSServer.Print (WSServer.StreamMessage (encode_utf8 message))
          :: WSServer.Log WSServer.INFO (WSServer.StreamMessage (encode_utf8 message))
          :: WSServer.read_loop c rest /\
    SimpleServer.read_loop c (RecvData frame :: rest)
      = SimpleServer.Print (SimpleServer.ReceivedMessage (encode_utf8 message))
          :: SimpleServer.read_loop c rest.
Proof.
  intros Hconn Hutf Hrnd Hlen.
  set (payload := encode_utf8 message) in *.
  exists (wire_bytes (client_frame 1 rnd payload)).
  pose proof (client_frame_ok 1 rnd payload Hlen) as Hok.
  destruct (client_frame_opcode 1 rnd payload ltac:(lia)) as [Ho Hp].
  split; [| split].
  - unfold SimpleClient.send_message. rewrite Hconn. cbn [negb]. fold payload.
    now rewrite create_frame_wire by lia.
  - rewrite <- (app_nil_r (wire_bytes _)).
    rewrite ws_read_whole_frame by exact Hok. rewrite Ho, Hp.
    unfold WSServer.dispatch. cbn [Z.eqb WS_OPCODE_TEXT Pos.eqb]. now rewrite Hutf.
  - rewrite <- (app_nil_r (wire_bytes _)).
    cbn [SimpleServer.read_loop].
    rewrite wire_bytes_not_empty, server_decode_wire by exact Hok.
    unfold SimpleServer.dispatch. cbn [fd_opcode fd_payload]. rewrite Ho, Hp.
    cbn [Z.eqb Pos.eqb]. now rewrite Hutf.
Qed.

Lemma text_message_delivered_witness :
  SimpleClient.cl_connected (SimpleClient.Client "localhost" 8081 true true) = true /\
  utf8_valid (encode_utf8 "ping") = true /\
  0 <= 0x01020304 < 2 ^ 32 /\ len (encode_utf8 "ping") < 2 ^ 64 /\
  exists frame,
    SimpleClient.send_message (SimpleClient.Client "localhost" 8081 true true) "ping" 0x01020304
      = (true, [SimpleClient.Send frame;
                SimpleClient.Print (SimpleClient.MessageSent "ping")]) /\
    WSServer.read_loop 1%nat (RecvData frame :: [])
      = WSServer.Print (WSServer.StreamMessage (encode_utf8 "ping"))
          :: WSServer.Log WSServer.INFO (WSServer.StreamMessage (encode_utf8 "ping"))
          :: WSServer.read_loop 1%nat [] /\
    SimpleServer.read_loop 1%nat (RecvData frame :: [])
      = SimpleServer.Print (SimpleServer.ReceivedMessage (encode_utf8 "ping"))
          :: SimpleServer.read_loop 1%nat [].
Proof.
  assert (H1 : SimpleClient.cl_connected (SimpleClient.Client "localhost" 8081 true true) = true)
    by reflexivity.
  assert (H2 : utf8_valid (encode_utf8 "ping") = true) by reflexivity.
  assert (H3 : 0 <= 0x01020304 < 2 ^ 32) by lia.
  assert (H4 : len (encode_utf8 "ping") < 2 ^ 64) by reflexivity.
  split; [exact H1 | split; [exact H2 | split; [exact H3 | split; [exact H4 |]]]].
  exact (text_message_delivered (SimpleClient.Client "localhost" 8081 true true) "ping"
           0x01020304 1%nat [] H1 H2 H3 H4).
Defined.

(** X15. Leaving is heard. [disconnect], on an open socket, writes a masked
    Close frame with an empty payload, whatever [self.connected] and
    [self.running] were, and a server that gets this frame leaves its read
    loop at once: the reads that would follow are never made. *)
Theorem disconnect_ends_server_loop (self : SimpleClient.client) (rnd : Z) (c : sock)
    (rest : list recv_outcome) :
  0 <= rnd < 2 ^ 32 ->
  exists frame,
    SimpleClient.disconnect self rnd
      = (SimpleClient.Client (SimpleClient.cl_host self) (SimpleClient.cl_port self)
           false false,
         [SimpleClient.Print SimpleClient.Disconnecting; SimpleClient.Send frame;
          SimpleClient.Close; SimpleClient.Print SimpleClient.Disconnected]) /\
    frame = byte_of_Z 0x88 :: byte_of_Z 0x80 :: be_bytes 4 rnd /\
    WSServer.read_loop c (RecvData frame :: rest)
      = [WSServer.Log WSServer.INFO WSServer.CloseFrameReceived] /\
    SimpleServer.read_loop c (RecvData frame :: rest)
      = [SimpleServer.Print SimpleServer.CloseRequested].
Proof.
  intros Hrnd.
  exists (wire_bytes (client_frame 8 rnd [])).
  assert (Hlen : len (@nil byte) < 2 ^ 64) by reflexivity.
  pose proof (client_frame_ok 8 rnd [] Hlen) as Hok.
  destruct (client_frame_opcode 8 rnd [] ltac:(lia)) as [Ho Hp].
  split; [| split; [| split]].
  - unfold SimpleClient.disconnect. change (encode_utf8 "") with (@nil byte).
    now rewrite create_frame_wire by lia.
  - unfold wire_bytes, client_frame, length_field, mask_bit.
    cbn [wf_first wf_form wf_key wf_payload default xor_cycle].
    now rewrite app_nil_r.
  - rewrite <- (app_nil_r (wire_bytes _)).
    rewrite ws_read_whole_frame by exact Hok. rewrite Ho. reflexivity.
  - rewrite <- (app_nil_r (wire_bytes _)).
    cbn [SimpleServer.read_loop].
    rewrite wire_bytes_not_empty, server_decode_wire by exact Hok.
    unfold SimpleServer.dispatch. cbn [fd_opcode]. rewrite Ho. reflexivity.
Qed.

Lemma disconnect_ends_server_loop_witness :
  0 <= 0x01020304 < 2 ^ 32 /\
  exists frame,
    SimpleClient.disconnect (SimpleClient.Client "localhost" 8081 true true) 0x01020304
      = (SimpleClient.Client "localhost" 8081 false false,
         [SimpleClient.Print SimpleClient.Disconnecting; SimpleClient.Send frame;
          SimpleClient.Close; SimpleClient.Print SimpleClient.Disconnected]) /\
    frame = byte_of_Z 0x88 :: byte_of_Z 0x80 :: be_bytes 4 0x01020304 /\
    WSServer.read_loop 1%nat (RecvData frame :: [RecvData ping_abc])
      = [WSServer.Log WSServer.INFO WSServer.CloseFrameReceived] /\
    SimpleServer.read_loop 1%nat (RecvData frame :: [RecvData ping_abc])
      = [SimpleServer.Print SimpleServer.CloseRequested].
Proof.
  assert (H : 0 <= 0x01020304 < 2 ^ 32) by lia.
  split; [exact H |].
  exact (disconnect_ends_server_loop (SimpleClient.Client "localhost" 8081 true true)
           0x01020304 1%nat [RecvData ping_abc] H).
Defined.

(** X16. A text frame whose payload is not UTF-8 is taken differently by the
    two servers: [WS_Server.py] logs the failure and goes on reading,
    [simple_ws_server.py] lets the exception end the connection. *)
Theorem malformed_text_frame (c : sock) (f : wire_frame) (extra : bytes)
    (rest : list recv_outcome) :
  wire_ok f -> wire_opcode f = 1 -> utf8_valid (wire_payload f) = false ->
  WSServer.read_loop c (RecvData (wire_bytes f ++ extra) :: rest)
    = WSServer.Log WSServer.ERROR WSServer.TextDecodeFailed :: WSServer.read_loop c rest /\
  SimpleServer.read_loop c (RecvData (wire_bytes f ++ extra) :: rest)
    = [SimpleServer.Print SimpleServer.ProcessingError].
Proof.
  intros Hok Hop Hbad. split.
  - rewrite ws_read_whole_frame by exact Hok. rewrite Hop.
    unfold WSServer.dispatch. cbn [Z.eqb WS_OPCODE_TEXT Pos.eqb]. now rewrite Hbad.
  - cbn [SimpleServer.read_loop].
    rewrite wire_bytes_not_empty, server_decode_wire by exact Hok.
    unfold SimpleServer.dispatch. cbn [fd_opcode fd_payload]. rewrite Hop.
    cbn [Z.eqb Pos.eqb]. now rewrite Hbad.
Qed.

Lemma malformed_text_frame_witness :
  let f := WireFrame (byte_of_Z 0x81) Len7 None (hex [0xff]) in
  wire_ok f /\ wire_opcode f = 1 /\ utf8_valid (wire_payload f) = false /\
  WSServer.read_loop 1%nat (RecvData (wire_bytes f ++ []) :: [RecvData ping_abc])
    = WSServer.Log WSServer.ERROR WSServer.TextDecodeFailed
        :: WSServer.read_loop 1%nat [RecvData ping_abc] /\
  SimpleServer.read_loop 1%nat (RecvData (wire_bytes f ++ []) :: [RecvData ping_abc])
    = [SimpleServer.Print SimpleServer.ProcessingError].
Proof.
  intros f.
  assert (H1 : wire_ok f) by (split; [reflexivity | exact I]).
  assert (H2 : wire_opcode f = 1) by reflexivity.
  assert (H3 : utf8_valid (wire_payload f) = false) by reflexivity.
  split; [exact H1 | split; [exact H2 | split; [exact H3 |]]].
  exact (malformed_text_frame 1%nat f [] [RecvData ping_abc] H1 H2 H3).
Defined.

(** ** What the loops write *)

Lemma ws_dispatch_sends (c : sock) (opcode : Z) (payload : bytes) (c' : sock) (data : bytes) :
  In (WSServer.Send c' data) (fst (WSServer.dispatch c opcode payload)) ->
  c' = c /\ opcode = WS_OPCODE_PING /\
  create_websocket_frame WS_OPCODE_PONG payload = Ok data.
Proof.
  unfold WSServer.dispatch, WSServer.send_pong.
  destruct (opcode =? WS_OPCODE_TEXT);
    [destruct (utf8_valid payload); cbn [fst In]; intros H;
     repeat (destruct H as [H | H]; try discriminate H); destruct H |].
  destruct (opcode =? WS_OPCODE_BINARY);
    [cbn [fst In]; intros H; repeat (destruct H as [H | H]; try discriminate H); destruct H |].
  destruct (Z.eqb_spec opcode WS_OPCODE_PING) as [-> | _].
  - destruct (create_websocket_frame WS_OPCODE_PONG payload) as [pong|];
      cbn [fst In]; intros H.
    + destruct H as [H | H]; [injection H as <- <-; auto |].
      repeat (destruct H as [H | H]; try discriminate H); destruct H.
    + repeat (destruct H as [H | H]; try discriminate H); destruct H.
  - destruct (opcode =? WS_OPCODE_PONG);
      [cbn [fst In]; intros H; repeat (destruct H as [H | H]; try discriminate H); destruct H |].
    destruct (opcode =? WS_OPCODE_CLOSE);
      cbn [fst In]; intros H; repeat (destruct H as [H | H]; try discriminate H); destruct H.
Qed.

(** X17. The read loop of [WS_Server.py] writes nothing but Pong frames, and
    only to the socket it reads from: each [send] is the frame
    [create_websocket_frame] makes, with opcode 10, of the payload of a Ping
    that was decoded. No text, binary or close frame ever leaves the server;
    in particular a Close is not echoed. *)
Theorem ws_loop_sends_only_pongs (c : sock) (reads : list recv_outcome)
    (c' : sock) (data : bytes) :
  In (WSServer.Send c' data) (WSServer.read_loop c reads) ->
  c' = c /\
  exists ping payload,
    In (RecvData ping) reads /\
    parse_websocket_frame ping = Ok (Some (WS_OPCODE_PING, payload)) /\
    create_websocket_frame WS_OPCODE_PONG payload = Ok data.
Proof.
  induction reads as [|r rest IH]; [intros [] |].
  destruct r as [raw | |]; cbn [WSServer.read_loop];
    [| intros [H | []]; discriminate H ..].
  destruct (len raw =? 0); [intros [] |].
  destruct (parse_websocket_frame raw) as [[[opcode payload]|]|] eqn:P.
  - pose proof (ws_dispatch_sends c opcode payload c' data) as D.
    destruct (WSServer.dispatch c opcode payload) as [evs continue]. cbn [fst] in D.
    assert (Here : In (WSServer.Send c' data) evs ->
                   c' = c /\ exists ping payload0,
                     In (RecvData ping) (RecvData raw :: rest) /\
                     parse_websocket_frame ping = Ok (Some (WS_OPCODE_PING, payload0)) /\
                     create_websocket_frame WS_OPCODE_PONG payload0 = Ok data).
    { intros H. destruct (D H) as (-> & -> & Hc). split; [reflexivity |].
      exists raw, payload. split; [now left | auto]. }
    destruct continue; [| exact Here].
    intros H. apply in_app_or in H as [H | H]; [now apply Here |].
    destruct (IH H) as (-> & ping & payload0 & Hin & Hp & Hc).
    split; [reflexivity |]. exists ping, payload0. split; [now right | auto].
  - intros [H | H]; [discriminate H |].
    destruct (IH H) as (-> & ping & payload0 & Hin & Hp & Hc).
    split; [reflexivity |]. exists ping, payload0. split; [now right | auto].
  - intros [H | []]. discriminate H.
Qed.

Lemma ws_loop_sends_only_pongs_witness :
  In (WSServer.Send 1%nat (hex [0x8a; 0x03; 0x61; 0x62; 0x63]))
     (WSServer.read_loop 1%nat [RecvData ping_abc]) /\
  (1%nat = 1%nat /\
   exists ping payload,
     In (RecvData ping) [RecvData ping_abc] /\
     parse_websocket_frame ping = Ok (Some (WS_OPCODE_PING, payload)) /\
     create_websocket_frame WS_OPCODE_PONG payload = Ok (hex [0x8a; 0x03; 0x61; 0x62; 0x63])).
Proof.
  assert (H : In (WSServer.Send 1%nat (hex [0x8a; 0x03; 0x61; 0x62; 0x63]))
                 (WSServer.read_loop 1%nat [RecvData ping_abc])) by (left; reflexivity).
  split; [exact H |].
  exact (ws_loop_sends_only_pongs 1%nat [RecvData ping_abc] 1%nat
           (hex [0x8a; 0x03; 0x61; 0x62; 0x63]) H).
Defined.

(** X18. The client's receive loop never writes to the socket, whatever it
    reads (a Ping from the server gets no Pong), and every frame that
    [WS_Server.py] can send, a Pong made by [create_websocket_frame], is
    decoded and reported as a Pong, after which the loop goes on. *)
Theorem client_receive_loop (reads : list recv_outcome) (payload frame : bytes) :
  create_websocket_frame WS_OPCODE_PONG payload = Ok frame ->
  existsb client_is_send (SimpleClient.receive_loop reads) = false /\
  SimpleClient.receive_loop (RecvData frame :: reads)
    = SimpleClient.Print SimpleClient.ReceivedPong :: SimpleClient.receive_loop reads.
Proof.
  intros Hc. split.
  - clear Hc. induction reads as [|r rest IH]; [reflexivity |].
    destruct r as [data | |]; cbn [SimpleClient.receive_loop]; [| exact IH | reflexivity].
    destruct (len data =? 0); [reflexivity |].
    destruct (client_decode_frame data) as [[d|]|]; [| exact IH | reflexivity].
    unfold SimpleClient.dispatch.
    repeat match goal with
           | |- context [if ?b then _ else _] => destruct b
           end; cbn [existsb app client_is_send orb]; try reflexivity; exact IH.
  - assert (Hlen : len payload < 2 ^ 64).
    { destruct (Z.lt_ge_cases (len payload) (2 ^ 64)) as [H | H]; [exact H |]. exfalso.
      unfold create_websocket_frame in Hc. unfold append_byte at 1 in Hc.
      cbn [in_byte_range WS_OPCODE_PONG Z.lor Pos.lor Z.leb Z.ltb Z.compare Pos.compare
             Pos.compare_cont andb ctl_bind] in Hc.
      rewrite (proj2 (Z.ltb_ge (len payload) 126)) in Hc by lia.
      rewrite (proj2 (Z.ltb_ge (len payload) 65536)) in Hc by lia.
      unfold append_byte, pack_be in Hc.
      cbn [in_byte_range Z.leb Z.ltb Z.compare Pos.compare Pos.compare_cont andb ctl_bind] in Hc.
      change (256 ^ Z.of_nat 8) with (2 ^ 64) in Hc.
      rewrite (proj2 (Z.ltb_ge (len payload) (2 ^ 64))) in Hc by lia.
      rewrite andb_false_r in Hc. discriminate Hc. }
    assert (H10 : 0 <= WS_OPCODE_PONG < 16) by (unfold WS_OPCODE_PONG; lia).
    rewrite (create_websocket_frame_wire _ _ H10 Hlen) in Hc. injection Hc as <-.
    cbn [SimpleClient.receive_loop].
    pose proof (wire_bytes_not_empty (server_frame WS_OPCODE_PONG payload) []) as N.
    rewrite app_nil_r in N. rewrite N.
    rewrite client_decode_wire by now apply server_frame_ok.
    unfold SimpleClient.dispatch. cbn [fd_opcode].
    replace (wire_opcode (server_frame WS_OPCODE_PONG payload)) with 10; [reflexivity |].
    unfold wire_opcode, server_frame. cbn [wf_first]. reflexivity.
Qed.

Lemma client_receive_loop_witness :
  create_websocket_frame WS_OPCODE_PONG (hex [0x61; 0x62; 0x63])
    = Ok (hex [0x8a; 0x03; 0x61; 0x62; 0x63]) /\
  existsb client_is_send (SimpleClient.receive_loop [RecvData (hex [0x89; 0x00])]) = false /\
  SimpleClient.receive_loop
    (RecvData (hex [0x8a; 0x03; 0x61; 0x62; 0x63]) :: [RecvData (hex [0x89; 0x00])])
    = SimpleClient.Print SimpleClient.ReceivedPong
        :: SimpleClient.receive_loop [RecvData (hex [0x89; 0x00])].
Proof.
  assert (H : create_websocket_frame WS_OPCODE_PONG (hex [0x61; 0x62; 0x63])
              = Ok (hex [0x8a; 0x03; 0x61; 0x62; 0x63])) by reflexivity.
  split; [exact H |].
  exact (client_receive_loop [RecvData (hex [0x89; 0x00])] (hex [0x61; 0x62; 0x63])
           (hex [0x8a; 0x03; 0x61; 0x62; 0x63]) H).
Defined.

(** ** What a handler writes and keeps *)

(** X19. A connection handler writes to its socket exactly when the opening
    handshake was accepted, in both servers: after a refused handshake, for
    whatever reason (no data, bad UTF-8, no key, an exception), nothing at
    all is sent before the socket is closed, not even an HTTP error
    response, and the reads that would follow are never made. *)
Theorem handler_writes_iff_accepted (self : simple_server) (c : sock)
    (request : recv_outcome) (reads : list recv_outcome) (connected_clients : gset sock) :
  existsb ws_is_send (snd (WSServer.handle_client c request reads connected_clients))
    = fst (WSServer.perform_websocket_handshake c request) /\
  existsb is_send (snd (SimpleServer.handle_client self c request reads))
    = fst (SimpleServer.perform_handshake self c request) /\
  WSServer.handle_client c request reads connected_clients
    = WSServer.handle_client c request
        (if fst (WSServer.perform_websocket_handshake c request) then reads else [])
        connected_clients /\
  SimpleServer.handle_client self c request reads
    = SimpleServer.handle_client self c request
        (if fst (SimpleServer.perform_handshake self c request) then reads else []).
Proof.
  split; [| split; [| split]].
  - unfold WSServer.handle_client, WSServer.perform_websocket_handshake.
    destruct request as [raw | |]; [| reflexivity ..].
    destruct (run (decode_utf8 raw)) as [req|]; [| reflexivity].
    destruct (run (WSServer.find_websocket_key (split req CRLF))) as [k|]; [| reflexivity].
    destruct (WSServer.key_missing k); [reflexivity |].
    cbn [negb fst snd WSServer.register_client WSServer.unregister_client app].
    cbn [existsb ws_is_send orb]. reflexivity.
  - unfold SimpleServer.handle_client, SimpleServer.perform_handshake.
    destruct request as [raw | |];
      [| destruct (existsb (Nat.eqb c) (ss_clients self)); reflexivity ..].
    destruct (run (decode_utf8 raw)) as [req|];
      [| destruct (existsb (Nat.eqb c) (ss_clients self)); reflexivity].
    destruct (run (SimpleServer.find_websocket_key (split req CRLF))) as [k|];
      [| destruct (existsb (Nat.eqb c) (ss_clients self)); reflexivity].
    destruct (SimpleServer.key_missing k);
      [destruct (existsb (Nat.eqb c) (ss_clients self)); reflexivity |].
    cbn [negb fst snd app existsb is_send orb]. reflexivity.
  - unfold WSServer.handle_client.
    destruct (WSServer.perform_websocket_handshake c request) as [[] hs]; reflexivity.
  - unfold SimpleServer.handle_client.
    destruct (SimpleServer.perform_handshake self c request) as [[] hs]; reflexivity.
Qed.

Lemma existsb_eqb_not_in (c : sock) (clients : list sock) :
  ~ In c clients -> existsb (Nat.eqb c) clients = false.
Proof.
  induction clients as [|x rest IH]; [reflexivity |].
  cbn [In existsb]. intros H.
  destruct (Nat.eqb_spec c x) as [-> | _]; [exfalso; auto |].
  cbn [orb]. apply IH. auto.
Qed.

Lemma existsb_eqb_last (c : sock) (clients : list sock) :
  existsb (Nat.eqb c) (clients ++ [c]) = true.
Proof.
  rewrite existsb_app. cbn [existsb]. rewrite Nat.eqb_refl. now rewrite orb_true_r.
Qed.

Lemma remove_first_last (c : sock) (clients : list sock) :
  ~ In c clients -> SimpleServer.remove_first c (clients ++ [c]) = clients.
Proof.
  induction clients as [|x rest IH]; cbn [app SimpleServer.remove_first In]; intros H.
  - now rewrite Nat.eqb_refl.
  - destruct (Nat.eqb_spec x c) as [-> | _]; [exfalso; auto |].
    rewrite IH; auto.
Qed.

(** X20. [SimpleWebSocketServer.handle_client] leaves [self.clients] as it
    found it, order included, for a socket that was not in the list: when
    the handshake is refused the socket is never added, and when it is
    accepted the socket appended at the start is the one removed at the
    end, however the read loop ends. *)
Theorem simple_clients_restored (self : simple_server) (c : sock)
    (request : recv_outcome) (reads : list recv_outcome) :
  ~ In c (ss_clients self) ->
  fst (SimpleServer.handle_client self c request reads) = ss_clients self.
Proof.
  intros H. unfold SimpleServer.handle_client.
  destruct (SimpleServer.perform_handshake self c request) as [ok hs].
  destruct ok; cbn [negb fst].
  - now rewrite existsb_eqb_last, remove_first_last.
  - now rewrite existsb_eqb_not_in.
Qed.

Lemma simple_clients_restored_witness :
  let self := SimpleServer "localhost" 8765 true [3%nat; 5%nat] in
  ~ In 7%nat (ss_clients self) /\
  fst (SimpleServer.handle_client self 7%nat
         (RecvData (encode_utf8 (SimpleClient.create_handshake_request
                                   "localhost" 8765 "dGhlIHNhbXBsZSBub25jZQ==")))
         [RecvData ping_abc]) = [3%nat; 5%nat].
Proof.
  cbv zeta.
  assert (H : ~ In 7%nat (ss_clients (SimpleServer "localhost" 8765 true [3%nat; 5%nat]))).
  { cbn. intros [E | [E | []]]; discriminate E. }
  split; [exact H |].
  exact (simple_clients_restored (SimpleServer "localhost" 8765 true [3%nat; 5%nat]) 7%nat
           (RecvData (encode_utf8 (SimpleClient.create_handshake_request
                                     "localhost" 8765 "dGhlIHNhbXBsZSBub25jZQ==")))
           [RecvData ping_abc] H).
Defined.

(** ** A key header without a blank *)

Lemma split_from_step (sep : string) (c : ascii) (s cur : string) :
  split_from sep 0 (String c s) cur
  = if String.prefix sep (String c s)
    then cur :: split_from sep (String.length sep - 1) s EmptyString
    else split_from sep 0 s (cur ++ String c EmptyString).
Proof. reflexivity. Qed.

Lemma split_no_separator (name key : string) :
  no_char ":" name = true -> is_b64 key = true -> key <> EmptyString ->
  split (name ++ ":" ++ key) ": " = [(name ++ ":" ++ key)%string].
Proof.
  intros Hn Hk Hne. unfold split.
  assert (G : forall cur,
             split_from ": " 0 (name ++ ":" ++ key) cur = [(cur ++ name ++ ":" ++ key)%string]).
  { induction name as [|ch name IH]; intros cur.
    - rewrite !append_nil_l.
      destruct key as [|k0 key]; [contradiction |].
      cbn [is_b64] in Hk. apply andb_prop in Hk as [Hk0 Hk].
      assert (Hc : no_char ":" (String k0 key) = true).
      { apply is_b64_no_char; [reflexivity |]. cbn [is_b64]. now rewrite Hk0, Hk. }
      change (":" ++ String k0 key)%string with (String ":" (String k0 key)).
      rewrite split_from_step.
      assert (P : String.prefix ": " (String ":" (String k0 key)) = false).
      { cbn [String.prefix].
        destruct (ascii_dec ":" ":") as [_ | N]; [| contradiction].
        destruct (ascii_dec " " k0) as [<- | _]; [discriminate Hk0 | reflexivity]. }
      rewrite P.
      rewrite (split_from_clean_last ":" " " (String k0 key) _ Hc).
      now rewrite append_assoc.
    - cbn [no_char] in Hn. apply andb_prop in Hn as [Hc Hn].
      rewrite append_cons. cbn [split_from String.prefix].
      destruct (ascii_dec ":" ch) as [<- | _]; [discriminate Hc |].
      rewrite (IH Hn). now rewrite append_assoc, append_cons, append_nil_l. }
  rewrite G. now rewrite append_nil_l.
Qed.

(** X21. The two servers differ on a key header written without a blank
    after the colon, [Sec-WebSocket-Key:<key>], which HTTP allows. For any
    non-empty base64 key: [WS_Server.py] splits at the colon, accepts and
    answers with the accept key of that key; [simple_ws_server.py] splits
    at colon-blank, finds one piece only, and the [IndexError] of
    [split(': ')[1]] ends the handshake as failed, with nothing sent. *)
Theorem key_header_without_blank (self : simple_server) (c : sock) (key : string) :
  is_b64 key = true -> key <> EmptyString ->
  let request := crlf_join ["GET / HTTP/1.1"; "Sec-WebSocket-Key:" ++ key; EmptyString]%string in
  WSServer.perform_websocket_handshake c (RecvData (encode_utf8 request))
  = (true,
     [WSServer.Log WSServer.INFO (WSServer.HandshakeRequest (substring 0 200 request));
      WSServer.Send c (encode_utf8 (http_101 (create_websocket_accept_key key)));
      WSServer.Log WSServer.INFO WSServer.HandshakeCompleted]) /\
  SimpleServer.perform_handshake self c (RecvData (encode_utf8 request))
  = (false,
     [SimpleServer.Print (SimpleServer.HandshakeRequest request);
      SimpleServer.Print SimpleServer.HandshakeFailed]).
Proof.
  intros Hk Hne request.
  assert (Hreq : is_ascii request = true).
  { unfold request. cbn [crlf_join].
    rewrite !is_ascii_app, (is_b64_ascii key Hk). reflexivity. }
  assert (Hsplit : split request CRLF
                   = ["GET / HTTP/1.1"; "Sec-WebSocket-Key:" ++ key; EmptyString; EmptyString]%string).
  { unfold request. rewrite split_crlf_join; [reflexivity |].
    cbn [forallb].
    change (no_char CR ("Sec-WebSocket-Key:" ++ key)) with (no_char CR key).
    rewrite (is_b64_no_char CR key) by (reflexivity || exact Hk). reflexivity. }
  split.
  - unfold WSServer.perform_websocket_handshake.
    rewrite decode_encode_ascii by exact Hreq. cbn [run].
    rewrite find_websocket_key_spec, Hsplit.
    assert (F : find is_key_line
                  ["GET / HTTP/1.1"; "Sec-WebSocket-Key:" ++ key; EmptyString; EmptyString]%string
                = Some ("Sec-WebSocket-Key:" ++ key)%string).
    { destruct key as [|ch key]; [contradiction | reflexivity]. }
    rewrite F. cbn [option_map run].
    change (string_drop 18 ("Sec-WebSocket-Key:" ++ key)) with key.
    rewrite strip_b64 by exact Hk.
    destruct key as [|ch key]; [contradiction |]. reflexivity.
  - unfold SimpleServer.perform_handshake.
    rewrite decode_encode_ascii by exact Hreq. cbn [run].
    rewrite Hsplit. cbn [SimpleServer.find_websocket_key].
    change (startswith "GET / HTTP/1.1" "Sec-WebSocket-Key:") with false.
    assert (S : startswith ("Sec-WebSocket-Key:" ++ key) "Sec-WebSocket-Key:" = true).
    { destruct key as [|ch key]; [contradiction | reflexivity]. }
    rewrite S.
    change ("Sec-WebSocket-Key:" ++ key)%string with ("Sec-WebSocket-Key" ++ ":" ++ key)%string.
    rewrite split_no_separator by (reflexivity || assumption).
    reflexivity.
Qed.

Lemma key_header_without_blank_witness :
  is_b64 "dGhlIHNhbXBsZSBub25jZQ==" = true /\
  "dGhlIHNhbXBsZSBub25jZQ=="%string <> EmptyString /\
  let request := crlf_join ["GET / HTTP/1.1";
                            "Sec-WebSocket-Key:" ++ "dGhlIHNhbXBsZSBub25jZQ==";
                            EmptyString]%string in
  WSServer.perform_websocket_handshake 7%nat (RecvData (encode_utf8 request))
  = (true,
     [WSServer.Log WSServer.INFO (WSServer.HandshakeRequest (substring 0 200 request));
      WSServer.Send 7%nat
        (encode_utf8 (http_101 (create_websocket_accept_key "dGhlIHNhbXBsZSBub25jZQ==")));
      WSServer.Log WSServer.INFO WSServer.HandshakeCompleted]) /\
  SimpleServer.perform_handshake (SimpleServer "localhost" 8765 true []) 7%nat
    (RecvData (encode_utf8 request))
  = (false,
     [SimpleServer.Print (SimpleServer.HandshakeRequest request);
      SimpleServer.Print SimpleServer.HandshakeFailed]).
Proof.
  assert (H1 : is_b64 "dGhlIHNhbXBsZSBub25jZQ==" = true) by reflexivity.
  assert (H2 : "dGhlIHNhbXBsZSBub25jZQ=="%string <> EmptyString) by discriminate.
  split; [exact H1 | split; [exact H2 |]].
  exact (key_header_without_blank (SimpleServer "localhost" 8765 true []) 7%nat
           "dGhlIHNhbXBsZSBub25jZQ==" H1 H2).
Defined.

(** ** The size of a frame *)

Lemma len_be_bytes (k : nat) (n : Z) : len (be_bytes k n) = Z.of_nat k.
Proof. unfold len. now rewrite be_bytes_length. Qed.

(** X22. The encoders add a header of two bytes to a payload shorter than
    126 bytes, four to one shorter than 65536, ten to a longer one, always
    the shortest form; the client's frame is the server's plus the four
    bytes of the key. *)
Theorem frame_sizes (opcode rnd : Z) (payload : bytes) :
  0 <= opcode < 16 -> 0 <= rnd < 2 ^ 32 -> len payload < 2 ^ 64 ->
  exists from_server from_client,
    create_websocket_frame opcode payload = Ok from_server /\
    create_frame payload opcode rnd = Some from_client /\
    len from_server = header_size (len payload) + len payload /\
    len from_client = header_size (len payload) + 4 + len payload.
Proof.
  intros Hop Hrnd Hlen.
  exists (wire_bytes (server_frame opcode payload)),
         (wire_bytes (client_frame opcode rnd payload)).
  split; [now apply create_websocket_frame_wire |].
  split; [now apply create_frame_wire |].
  assert (E : len (xor_cycle (be_bytes 4 rnd) 0 payload) = len payload)
    by (unfold len; now rewrite xor_cycle_length).
  unfold wire_bytes, server_frame, client_frame, length_field, header_size.
  cbn [wf_first wf_form wf_key wf_payload default].
  rewrite E.
  destruct (len payload <? 126); [| destruct (len payload <? 65536)];
    unfold id; rewrite ?len_cons, ?len_app, ?len_cons, ?len_be_bytes, ?E;
    change (len (@nil byte)) with 0; lia.
Qed.

Lemma frame_sizes_witness :
  0 <= 1 < 16 /\ 0 <= 0x01020304 < 2 ^ 32 /\ len (encode_utf8 "hi") < 2 ^ 64 /\
  exists from_server from_client,
    create_websocket_frame 1 (encode_utf8 "hi") = Ok from_server /\
    create_frame (encode_utf8 "hi") 1 0x01020304 = Some from_client /\
    len from_server = header_size (len (encode_utf8 "hi")) + len (encode_utf8 "hi") /\
    len from_client = header_size (len (encode_utf8 "hi")) + 4 + len (encode_utf8 "hi").
Proof.
  assert (H1 : 0 <= 1 < 16) by lia.
  assert (H2 : 0 <= 0x01020304 < 2 ^ 32) by lia.
  assert (H3 : len (encode_utf8 "hi") < 2 ^ 64) by reflexivity.
  split; [exact H1 | split; [exact H2 | split; [exact H3 |]]].
  exact (frame_sizes 1 0x01020304 (encode_utf8 "hi") H1 H2 H3).
Defined.
